(** * btcv25: a shallow embedding of the trading runtime

    The Python sources (risk_manager.py, signal_engine.py, price_feed.py,
    market_maker.py, arb_scanner.py, polymarket_client.py, bot.py) are
    translated function by function.  Python floats are modelled by exact rationals
    ([Q]); every comparison, [min], [max], [abs] and [round] keeps the
    shape it has in the source.  Wall-clock reads ([time.time()], the UTC
    date) and the answers of the venue are explicit arguments. *)

From Stdlib Require Import QArith Qminmax Qabs Qround ZArith Lia Lqa Bool.
From Stdlib Require Import String Ascii List DecimalString.
From stdpp Require Import gmap strings.
Import ListNotations.

Local Open Scope Q_scope.

(** ** Numeric helpers shared by every module *)

Module Num.

(** [a < b], [a <= b] and [a == b] on floats, as booleans. *)
Definition Qltb (a b : Q) : bool :=
  match Qcompare a b with Lt => true | _ => false end.
Definition Qleb (a b : Q) : bool := Qle_bool a b.
Definition Qeqb (a b : Q) : bool := Qeq_bool a b.

(** Python truthiness of a float: [0.0] is falsy. *)
Definition truthy (a : Q) : bool := negb (Qeqb a 0).

(** Round half to even, the rule of Python's [round]. *)
Definition round_half_even (x : Q) : Z :=
  let f := Qfloor x in
  match Qcompare (x - inject_Z f) (1 # 2) with
  | Lt => f
  | Gt => (f + 1)%Z
  | Eq => if Z.even f then f else (f + 1)%Z
  end.

Definition pow10 (n : nat) : Q := inject_Z (10 ^ Z.of_nat n).

(** [round(x, ndigits)]. *)
Definition py_round (x : Q) (ndigits : nat) : Q :=
  inject_Z (round_half_even (x * pow10 ndigits)) / pow10 ndigits.

(** Float division: [ZeroDivisionError] is [None]. *)
Definition qdiv (a b : Q) : option Q :=
  if Qeqb b 0 then None else Some (a / b).

(** [datetime.datetime.fromtimestamp(t)] rounds the reading to the
    nearest microsecond, ties to even; this is the whole second
    (seconds since the epoch) of the datetime it returns. *)
Definition fromtimestamp_second (t : Q) : Z := Qfloor (py_round t 6).

End Num.
Import Num.

(** ** String helpers: [in], [lower], [upper] *)

Module Str.

(** [needle in hay]. *)
Fixpoint contains (needle hay : string) : bool :=
  String.prefix needle hay
  || match hay with
     | EmptyString => false
     | String _ rest => contains needle rest
     end.

Definition lower_char (c : ascii) : ascii :=
  let n := nat_of_ascii c in
  if (65 <=? n)%nat && (n <=? 90)%nat then ascii_of_nat (n + 32) else c.

Definition upper_char (c : ascii) : ascii :=
  let n := nat_of_ascii c in
  if (97 <=? n)%nat && (n <=? 122)%nat then ascii_of_nat (n - 32) else c.

(** [s.lower()] on ASCII text. *)
Fixpoint lower (s : string) : string :=
  match s with
  | EmptyString => EmptyString
  | String c rest => String (lower_char c) (lower rest)
  end.

(** [str(n)] for an integer. *)
Definition of_Z (n : Z) : string :=
  DecimalString.NilZero.string_of_int (Z.to_int n).

End Str.

(** ** Risk manager (core/risk_manager.py) *)

Module Risk.

(** [RiskConfig] of config/settings.py. *)
Record RiskConfig := mkRiskConfig {
  max_trade_pct : Q;
  max_daily_trades : Z;
  max_daily_loss_pct : Q;
  max_consecutive_losses : Z;
  loss_streak_cooldown_mins : Z;
  kelly_fraction : Q;
  min_trade_size_usd : Q;
  max_trade_size_usd : Q
}.

(** The defaults of the dataclass. *)
Definition default_config : RiskConfig :=
  {| max_trade_pct := 5; max_daily_trades := 20; max_daily_loss_pct := 25;
     max_consecutive_losses := 5; loss_streak_cooldown_mins := 60;
     kelly_fraction := 1 # 4; min_trade_size_usd := 1;
     max_trade_size_usd := 25 |}.

Record DailyStats := mkDaily {
  date : string;
  trades : Z;
  wins : Z;
  losses : Z;
  total_pnl : Q;
  consecutive_losses : Z;
  last_trade_time : Q;
  cooldown_until : Q;
  start_of_day_capital : Q;
  late_window_trades : Z;
  late_window_pnl : Q;
  late_window_spent : Q;
  trades_5m : Z;
  wins_5m : Z;
  losses_5m : Z;
  pnl_5m : Q;
  spent_5m : Q;
  consecutive_losses_5m : Z;
  cooldown_until_5m : Q
}.

(** [DailyStats(date=today, start_of_day_capital=capital)]: every other
    field takes its dataclass default. *)
Definition fresh_daily (today : string) (cap : Q) : DailyStats :=
  {| date := today;
     trades := 0%Z;
     wins := 0%Z;
     losses := 0%Z;
     total_pnl := 0;
     consecutive_losses := 0%Z;
     last_trade_time := 0;
     cooldown_until := 0;
     start_of_day_capital := cap;
     late_window_trades := 0%Z;
     late_window_pnl := 0;
     late_window_spent := 0;
     trades_5m := 0%Z;
     wins_5m := 0%Z;
     losses_5m := 0%Z;
     pnl_5m := 0;
     spent_5m := 0;
     consecutive_losses_5m := 0%Z;
     cooldown_until_5m := 0 |}.

(** Field assignments [self._daily.f = v]. *)
Definition set_trades (v : Z) (d : DailyStats) : DailyStats :=
  mkDaily (date d) v (wins d) (losses d) (total_pnl d) (consecutive_losses d) (last_trade_time d) (cooldown_until d) (start_of_day_capital d) (late_window_trades d) (late_window_pnl d) (late_window_spent d) (trades_5m d) (wins_5m d) (losses_5m d) (pnl_5m d) (spent_5m d) (consecutive_losses_5m d) (cooldown_until_5m d).
Definition set_wins (v : Z) (d : DailyStats) : DailyStats :=
  mkDaily (date d) (trades d) v (losses d) (total_pnl d) (consecutive_losses d) (last_trade_time d) (cooldown_until d) (start_of_day_capital d) (late_window_trades d) (late_window_pnl d) (late_window_spent d) (trades_5m d) (wins_5m d) (losses_5m d) (pnl_5m d) (spent_5m d) (consecutive_losses_5m d) (cooldown_until_5m d).
Definition set_losses (v : Z) (d : DailyStats) : DailyStats :=
  mkDaily (date d) (trades d) (wins d) v (total_pnl d) (consecutive_losses d) (last_trade_time d) (cooldown_until d) (start_of_day_capital d) (late_window_trades d) (late_window_pnl d) (late_window_spent d) (trades_5m d) (wins_5m d) (losses_5m d) (pnl_5m d) (spent_5m d) (consecutive_losses_5m d) (cooldown_until_5m d).
Definition set_total_pnl (v : Q) (d : DailyStats) : DailyStats :=
  mkDaily (date d) (trades d) (wins d) (losses d) v (consecutive_losses d) (last_trade_time d) (cooldown_until d) (start_of_day_capital d) (late_window_trades d) (late_window_pnl d) (late_window_spent d) (trades_5m d) (wins_5m d) (losses_5m d) (pnl_5m d) (spent_5m d) (consecutive_losses_5m d) (cooldown_until_5m d).
Definition set_consecutive_losses (v : Z) (d : DailyStats) : DailyStats :=
  mkDaily (date d) (trades d) (wins d) (losses d) (total_pnl d) v (last_trade_time d) (cooldown_until d) (start_of_day_capital d) (late_window_trades d) (late_window_pnl d) (late_window_spent d) (trades_5m d) (wins_5m d) (losses_5m d) (pnl_5m d) (spent_5m d) (consecutive_losses_5m d) (cooldown_until_5m d).
Definition set_last_trade_time (v : Q) (d : DailyStats) : DailyStats :=
  mkDaily (date d) (trades d) (wins d) (losses d) (total_pnl d) (consecutive_losses d) v (cooldown_until d) (start_of_day_capital d) (late_window_trades d) (late_window_pnl d) (late_window_spent d) (trades_5m d) (wins_5m d) (losses_5m d) (pnl_5m d) (spent_5m d) (consecutive_losses_5m d) (cooldown_until_5m d).
Definition set_cooldown_until (v : Q) (d : DailyStats) : DailyStats :=
  mkDaily (date d) (trades d) (wins d) (losses d) (total_pnl d) (consecutive_losses d) (last_trade_time d) v (start_of_day_capital d) (late_window_trades d) (late_window_pnl d) (late_window_spent d) (trades_5m d) (wins_5m d) (losses_5m d) (pnl_5m d) (spent_5m d) (consecutive_losses_5m d) (cooldown_until_5m d).
Definition set_late_window_trades (v : Z) (d : DailyStats) : DailyStats :=
  mkDaily (date d) (trades d) (wins d) (losses d) (total_pnl d) (consecutive_losses d) (last_trade_time d) (cooldown_until d) (start_of_day_capital d) v (late_window_pnl d) (late_window_spent d) (trades_5m d) (wins_5m d) (losses_5m d) (pnl_5m d) (spent_5m d) (consecutive_losses_5m d) (cooldown_until_5m d).
Definition set_late_window_pnl (v : Q) (d : DailyStats) : DailyStats :=
  mkDaily (date d) (trades d) (wins d) (losses d) (total_pnl d) (consecutive_losses d) (last_trade_time d) (cooldown_until d) (start_of_day_capital d) (late_window_trades d) v (late_window_spent d) (trades_5m d) (wins_5m d) (losses_5m d) (pnl_5m d) (spent_5m d) (consecutive_losses_5m d) (cooldown_until_5m d).
Definition set_late_window_spent (v : Q) (d : DailyStats) : DailyStats :=
  mkDaily (date d) (trades d) (wins d) (losses d) (total_pnl d) (consecutive_losses d) (last_trade_time d) (cooldown_until d) (start_of_day_capital d) (late_window_trades d) (late_window_pnl d) v (trades_5m d) (wins_5m d) (losses_5m d) (pnl_5m d) (spent_5m d) (consecutive_losses_5m d) (cooldown_until_5m d).
Definition set_trades_5m (v : Z) (d : DailyStats) : DailyStats :=
  mkDaily (date d) (trades d) (wins d) (losses d) (total_pnl d) (consecutive_losses d) (last_trade_time d) (cooldown_until d) (start_of_day_capital d) (late_window_trades d) (late_window_pnl d) (late_window_spent d) v (wins_5m d) (losses_5m d) (pnl_5m d) (spent_5m d) (consecutive_losses_5m d) (cooldown_until_5m d).
Definition set_wins_5m (v : Z) (d : DailyStats) : DailyStats :=
  mkDaily (date d) (trades d) (wins d) (losses d) (total_pnl d) (consecutive_losses d) (last_trade_time d) (cooldown_until d) (start_of_day_capital d) (late_window_trades d) (late_window_pnl d) (late_window_spent d) (trades_5m d) v (losses_5m d) (pnl_5m d) (spent_5m d) (consecutive_losses_5m d) (cooldown_until_5m d).
Definition set_losses_5m (v : Z) (d : DailyStats) : DailyStats :=
  mkDaily (date d) (trades d) (wins d) (losses d) (total_pnl d) (consecutive_losses d) (last_trade_time d) (cooldown_until d) (start_of_day_capital d) (late_window_trades d) (late_window_pnl d) (late_window_spent d) (trades_5m d) (wins_5m d) v (pnl_5m d) (spent_5m d) (consecutive_losses_5m d) (cooldown_until_5m d).
Definition set_pnl_5m (v : Q) (d : DailyStats) : DailyStats :=
  mkDaily (date d) (trades d) (wins d) (losses d) (total_pnl d) (consecutive_losses d) (last_trade_time d) (cooldown_until d) (start_of_day_capital d) (late_window_trades d) (late_window_pnl d) (late_window_spent d) (trades_5m d) (wins_5m d) (losses_5m d) v (spent_5m d) (consecutive_losses_5m d) (cooldown_until_5m d).
Definition set_spent_5m (v : Q) (d : DailyStats) : DailyStats :=
  mkDaily (date d) (trades d) (wins d) (losses d) (total_pnl d) (consecutive_losses d) (last_trade_time d) (cooldown_until d) (start_of_day_capital d) (late_window_trades d) (late_window_pnl d) (late_window_spent d) (trades_5m d) (wins_5m d) (losses_5m d) (pnl_5m d) v (consecutive_losses_5m d) (cooldown_until_5m d).
Definition set_consecutive_losses_5m (v : Z) (d : DailyStats) : DailyStats :=
  mkDaily (date d) (trades d) (wins d) (losses d) (total_pnl d) (consecutive_losses d) (last_trade_time d) (cooldown_until d) (start_of_day_capital d) (late_window_trades d) (late_window_pnl d) (late_window_spent d) (trades_5m d) (wins_5m d) (losses_5m d) (pnl_5m d) (spent_5m d) v (cooldown_until_5m d).
Definition set_cooldown_until_5m (v : Q) (d : DailyStats) : DailyStats :=
  mkDaily (date d) (trades d) (wins d) (losses d) (total_pnl d) (consecutive_losses d) (last_trade_time d) (cooldown_until d) (start_of_day_capital d) (late_window_trades d) (late_window_pnl d) (late_window_spent d) (trades_5m d) (wins_5m d) (losses_5m d) (pnl_5m d) (spent_5m d) (consecutive_losses_5m d) v.

Record RiskManager := mkRM {
  config : RiskConfig;
  capital : Q;
  _daily : DailyStats;
  _total_pnl : Q;
  late_window_max_daily_trades : Z;
  late_window_budget_pct : Q;
  late_window_max_trade_usd : Q;
  fivem_budget_pct : Q;
  fivem_max_daily_trades : Z;
  fivem_max_daily_loss_pct : Q;
  fivem_max_trade_usd : Q;
  fivem_max_consecutive_losses : Z;
  fivem_cooldown_mins : Z
}.

(** [RiskManager(config, capital)] built on the UTC date [today]. *)
Definition init (cfg : RiskConfig) (cap : Q) (today : string) : RiskManager :=
  {| config := cfg; capital := cap; _daily := fresh_daily today cap;
     _total_pnl := 0;
     late_window_max_daily_trades := 15%Z; late_window_budget_pct := 30;
     late_window_max_trade_usd := 10;
     fivem_budget_pct := 30; fivem_max_daily_trades := 30%Z;
     fivem_max_daily_loss_pct := 15; fivem_max_trade_usd := 10;
     fivem_max_consecutive_losses := 4%Z; fivem_cooldown_mins := 30%Z |}.

Definition set_daily (d : DailyStats) (rm : RiskManager) : RiskManager :=
  mkRM (config rm) (capital rm) d (_total_pnl rm)
       (late_window_max_daily_trades rm) (late_window_budget_pct rm)
       (late_window_max_trade_usd rm) (fivem_budget_pct rm)
       (fivem_max_daily_trades rm) (fivem_max_daily_loss_pct rm)
       (fivem_max_trade_usd rm) (fivem_max_consecutive_losses rm)
       (fivem_cooldown_mins rm).

Definition set_capital (c : Q) (rm : RiskManager) : RiskManager :=
  mkRM (config rm) c (_daily rm) (_total_pnl rm)
       (late_window_max_daily_trades rm) (late_window_budget_pct rm)
       (late_window_max_trade_usd rm) (fivem_budget_pct rm)
       (fivem_max_daily_trades rm) (fivem_max_daily_loss_pct rm)
       (fivem_max_trade_usd rm) (fivem_max_consecutive_losses rm)
       (fivem_cooldown_mins rm).

Definition set_total_pnl_all (t : Q) (rm : RiskManager) : RiskManager :=
  mkRM (config rm) (capital rm) (_daily rm) t
       (late_window_max_daily_trades rm) (late_window_budget_pct rm)
       (late_window_max_trade_usd rm) (fivem_budget_pct rm)
       (fivem_max_daily_trades rm) (fivem_max_daily_loss_pct rm)
       (fivem_max_trade_usd rm) (fivem_max_consecutive_losses rm)
       (fivem_cooldown_mins rm).

(** The reason string returned next to the verdict; the numbers are the
    ones interpolated into the message. *)
Inductive Reason :=
| Cooldown (remaining : Z)
| DailyLimit (limit : Z)
| DailyLossLimit (pct : Q)
| LossStreak (limit : Z)
| NoCapital
| OK
| LateWindowDailyLimit (limit : Z)
| LateWindowBudgetExhausted (budget : Q)
| FiveMCooldown (remaining : Z)
| FiveMDailyLimit (limit : Z)
| FiveMBudgetExhausted (budget : Q)
| FiveMDailyLossLimit (pct : Q)
| FiveMLossStreak (limit : Z).

(** [int(x)] on a float: truncation towards zero. *)
Definition py_int (x : Q) : Z :=
  if Qltb x 0 then Qceiling x else Qfloor x.

(** [a or b] on floats. *)
Definition q_or (a b : Q) : Q := if truthy a then a else b.

Definition _reset_daily_if_needed (today : string) (rm : RiskManager)
  : RiskManager :=
  if negb (String.eqb (date (_daily rm)) today)
  then set_daily (fresh_daily today (capital rm)) rm
  else rm.

Definition can_trade (now : Q) (today : string) (rm : RiskManager)
  : (bool * Reason) * RiskManager :=
  let rm := _reset_daily_if_needed today rm in
  let d := _daily rm in
  let cfg := config rm in
  if Qltb now (cooldown_until d) then
    ((false, Cooldown (py_int (cooldown_until d - now))), rm)
  else if (max_daily_trades cfg <=? trades d)%Z then
    ((false, DailyLimit (max_daily_trades cfg)), rm)
  else
    let reference := q_or (start_of_day_capital d) (capital rm) in
    let daily_loss_pct := Qabs (Qmin 0 (total_pnl d)) / reference * 100 in
    if Qltb 0 (capital rm) && Qleb (max_daily_loss_pct cfg) daily_loss_pct then
      ((false, DailyLossLimit daily_loss_pct), rm)
    else if (max_consecutive_losses cfg <=? consecutive_losses d)%Z then
      let until := now + inject_Z (loss_streak_cooldown_mins cfg * 60) in
      ((false, LossStreak (max_consecutive_losses cfg)),
       set_daily (set_cooldown_until until d) rm)
    else if Qleb (capital rm) 0 then ((false, NoCapital), rm)
    else ((true, OK), rm).

Definition calculate_position_size (rm : RiskManager) (confidence : Q) : Q :=
  if Qleb (capital rm) 0 then 0
  else
    let kelly := Qmax 0 (2 * confidence - 1) in
    let fractional_kelly := kelly * kelly_fraction (config rm) in
    let size := capital rm * fractional_kelly in
    let size := Qmin size (capital rm * (max_trade_pct (config rm) / 100)) in
    let size := Qmin size (max_trade_size_usd (config rm)) in
    let size := Qmax size (min_trade_size_usd (config rm)) in
    let size := Qmin size (capital rm) in
    py_round size 2.

Definition record_trade (now : Q) (today : string) (pnl : Q)
  (rm : RiskManager) : RiskManager :=
  let rm := _reset_daily_if_needed today rm in
  let d := _daily rm in
  let d := set_trades (trades d + 1)%Z d in
  let d := set_total_pnl (total_pnl d + pnl) d in
  let d := set_last_trade_time now d in
  let rm := set_total_pnl_all (_total_pnl rm + pnl) rm in
  let rm := set_capital (capital rm + pnl) rm in
  let d :=
    if Qleb 0 pnl then
      set_consecutive_losses 0%Z (set_wins (wins d + 1)%Z d)
    else
      set_consecutive_losses (consecutive_losses d + 1)%Z
        (set_losses (losses d + 1)%Z d) in
  set_daily d rm.

(** The dictionary returned by [get_status]. *)
Record Status := mkStatus {
  st_can_trade : bool;
  st_reason : Reason;
  st_capital : Q;
  st_daily_trades : Z;
  st_daily_pnl : Q;
  st_consecutive_losses : Z;
  st_in_cooldown : bool;
  st_total_pnl : Q;
  st_late_window_trades : Z;
  st_late_window_pnl : Q;
  st_late_window_spent : Q
}.

Definition get_status (now : Q) (today : string) (rm : RiskManager)
  : Status * RiskManager :=
  let rm := _reset_daily_if_needed today rm in
  let '((can, reason), rm) := can_trade now today rm in
  let d := _daily rm in
  (mkStatus can reason (capital rm) (trades d) (total_pnl d)
     (consecutive_losses d) (Qltb now (cooldown_until d)) (_total_pnl rm)
     (late_window_trades d) (py_round (late_window_pnl d) 2)
     (py_round (late_window_spent d) 2), rm).

(** *** Late-window bucket *)

Definition can_late_window_trade (today : string) (rm : RiskManager)
  : (bool * Reason) * RiskManager :=
  let rm := _reset_daily_if_needed today rm in
  let d := _daily rm in
  if (late_window_max_daily_trades rm <=? late_window_trades d)%Z then
    ((false, LateWindowDailyLimit (late_window_max_daily_trades rm)), rm)
  else
    let reference := q_or (start_of_day_capital d) (capital rm) in
    let budget := reference * (late_window_budget_pct rm / 100) in
    if Qleb budget (late_window_spent d) then
      ((false, LateWindowBudgetExhausted budget), rm)
    else if Qleb (capital rm) 0 then ((false, NoCapital), rm)
    else ((true, OK), rm).

Definition calculate_late_window_size (rm : RiskManager) (confidence : Q) : Q :=
  if Qleb (capital rm) 0 then 0
  else
    let kelly := Qmax 0 (2 * confidence - 1) in
    let fractional_kelly := kelly * kelly_fraction (config rm) in
    let size := capital rm * fractional_kelly in
    let size := Qmin size (late_window_max_trade_usd rm) in
    let size := Qmax size (min_trade_size_usd (config rm)) in
    let size := Qmin size (capital rm) in
    py_round size 2.

Definition record_late_window_trade (today : string) (size_usd pnl : Q)
  (rm : RiskManager) : RiskManager :=
  let rm := _reset_daily_if_needed today rm in
  let d := _daily rm in
  let d := set_late_window_trades (late_window_trades d + 1)%Z d in
  let d := set_late_window_spent (late_window_spent d + size_usd) d in
  let d := if truthy pnl
           then set_late_window_pnl (late_window_pnl d + pnl) d else d in
  set_daily d rm.

(** *** 5-minute bucket *)

Definition can_trade_5m (now : Q) (today : string) (rm : RiskManager)
  : (bool * Reason) * RiskManager :=
  let rm := _reset_daily_if_needed today rm in
  let d := _daily rm in
  if Qltb now (cooldown_until_5m d) then
    ((false, FiveMCooldown (py_int (cooldown_until_5m d - now))), rm)
  else if (fivem_max_daily_trades rm <=? trades_5m d)%Z then
    ((false, FiveMDailyLimit (fivem_max_daily_trades rm)), rm)
  else
    let reference := q_or (start_of_day_capital d) (capital rm) in
    let budget := reference * (fivem_budget_pct rm / 100) in
    if Qleb budget (spent_5m d) then
      ((false, FiveMBudgetExhausted budget), rm)
    else
      let loss_pct := Qabs (Qmin 0 (pnl_5m d)) / reference * 100 in
      if Qltb 0 reference && Qleb (fivem_max_daily_loss_pct rm) loss_pct then
        ((false, FiveMDailyLossLimit loss_pct), rm)
      else if (fivem_max_consecutive_losses rm <=? consecutive_losses_5m d)%Z
      then
        let until := now + inject_Z (fivem_cooldown_mins rm * 60) in
        ((false, FiveMLossStreak (fivem_max_consecutive_losses rm)),
         set_daily (set_consecutive_losses_5m 0%Z
                      (set_cooldown_until_5m until d)) rm)
      else if Qleb (capital rm) 0 then ((false, NoCapital), rm)
      else ((true, OK), rm).

Definition calculate_5m_size (rm : RiskManager) (confidence : Q) : Q :=
  if Qleb (capital rm) 0 then 0
  else
    let kelly := Qmax 0 (2 * confidence - 1) in
    let fractional_kelly := kelly * kelly_fraction (config rm) in
    let size := capital rm * fractional_kelly in
    let size := Qmin size (fivem_max_trade_usd rm) in
    let size := Qmax size (min_trade_size_usd (config rm)) in
    let size := Qmin size (capital rm) in
    py_round size 2.

Definition record_5m_trade (today : string) (size_usd pnl : Q)
  (rm : RiskManager) : RiskManager :=
  let rm := _reset_daily_if_needed today rm in
  let d := _daily rm in
  let d := set_trades_5m (trades_5m d + 1)%Z d in
  let d := set_spent_5m (spent_5m d + size_usd) d in
  if truthy pnl then
    let d := set_pnl_5m (pnl_5m d + pnl) d in
    let rm := set_total_pnl_all (_total_pnl rm + pnl) rm in
    let rm := set_capital (capital rm + pnl) rm in
    let d :=
      if Qleb 0 pnl then
        set_consecutive_losses_5m 0%Z (set_wins_5m (wins_5m d + 1)%Z d)
      else
        set_consecutive_losses_5m (consecutive_losses_5m d + 1)%Z
          (set_losses_5m (losses_5m d + 1)%Z d) in
    set_daily d rm
  else set_daily d rm.

(** *** The public methods, as one dispatch *)

Inductive EntryPoint :=
| CanTrade
| CalculatePositionSize (confidence : Q)
| RecordTrade (pnl : Q)
| GetStatus
| CanLateWindowTrade
| CalculateLateWindowSize (confidence : Q)
| RecordLateWindowTrade (size_usd pnl : Q)
| CanTrade5m
| Calculate5mSize (confidence : Q)
| Record5mTrade (size_usd pnl : Q).

(** The state a call leaves behind at time [now] on UTC date [today]; the
    three sizing methods only read [capital] and [config]. *)
Definition state_after (e : EntryPoint) (now : Q) (today : string)
  (rm : RiskManager) : RiskManager :=
  match e with
  | CanTrade => snd (can_trade now today rm)
  | CalculatePositionSize _ => rm
  | RecordTrade pnl => record_trade now today pnl rm
  | GetStatus => snd (get_status now today rm)
  | CanLateWindowTrade => snd (can_late_window_trade today rm)
  | CalculateLateWindowSize _ => rm
  | RecordLateWindowTrade s p => record_late_window_trade today s p rm
  | CanTrade5m => snd (can_trade_5m now today rm)
  | Calculate5mSize _ => rm
  | Record5mTrade s p => record_5m_trade today s p rm
  end.

(** Methods whose body starts with [self._reset_daily_if_needed()]. *)
Definition resets_daily (e : EntryPoint) : bool :=
  match e with
  | CalculatePositionSize _ | CalculateLateWindowSize _ | Calculate5mSize _ =>
      false
  | _ => true
  end.

(** The sizing rule as section 4.3 words it: clamp to
    [min_trade, max_trade], then to the percentage cap, then to capital. *)
Definition spec_position_size (rm : RiskManager) (confidence : Q) : Q :=
  if Qleb (capital rm) 0 then 0
  else
    let kelly := Qmax 0 (2 * confidence - 1) in
    let size := capital rm * kelly * kelly_fraction (config rm) in
    let size := Qmax (min_trade_size_usd (config rm))
                     (Qmin size (max_trade_size_usd (config rm))) in
    let size := Qmin size (capital rm * max_trade_pct (config rm) / 100) in
    let size := Qmin size (capital rm) in
    py_round size 2.

End Risk.

(** ** Strategy engine (strategies/signal_engine.py) *)

Module Signal.

(** [MarketDirection] of config/settings.py. *)
Inductive MarketDirection := UP | DOWN | HOLD.

Definition dir_eqb (a b : MarketDirection) : bool :=
  match a, b with
  | UP, UP | DOWN, DOWN | HOLD, HOLD => true
  | _, _ => false
  end.

(** [StrategyConfig]; the integer periods are list lengths and are kept
    in [nat]. *)
Record StrategyConfig := mkStrategyConfig {
  confidence_threshold : Q;
  strong_signal_threshold : Q;
  rsi_period : nat;
  rsi_overbought : Q;
  rsi_oversold : Q;
  ema_fast : nat;
  ema_slow : nat;
  macd_fast : nat;
  macd_slow : nat;
  macd_signal : nat;
  momentum_lookback : nat;
  min_volatility_pct : Q;
  max_volatility_pct : Q;
  weight_momentum : Q;
  weight_rsi : Q;
  weight_macd : Q;
  weight_ema_cross : Q
}.

Definition default_config : StrategyConfig :=
  {| confidence_threshold := 60 # 100; strong_signal_threshold := 75 # 100;
     rsi_period := 14; rsi_overbought := 70; rsi_oversold := 30;
     ema_fast := 5; ema_slow := 15;
     macd_fast := 12; macd_slow := 26; macd_signal := 9;
     momentum_lookback := 3;
     min_volatility_pct := 3 # 100; max_volatility_pct := 3;
     weight_momentum := 30 # 100; weight_rsi := 25 # 100;
     weight_macd := 25 # 100; weight_ema_cross := 20 # 100 |}.

(** [Candle] of oracles/price_feed.py. *)
Record Candle := mkCandle {
  timestamp : Q;
  open : Q;
  high : Q;
  low : Q;
  close : Q;
  volume : Q;
  interval : string
}.

(** [Signal]; the free-text [description] is left out. *)
Record Signal := mkSignal {
  name : string;
  direction : MarketDirection;
  strength : Q;
  raw_value : Q
}.

(** The [reason] of a decision, by the branch that wrote it. *)
Inductive Reason :=
| InsufficientData
| VolatilityTooLow
| VolatilityTooHigh
| ChopDetected
| SignalConflictLowDrift (disagree : nat)
| SignalConflict (disagree : nat)
| EdgeBelowFee
| Scored (up_score down_score : Q).

Record StrategyDecision := mkDecision {
  d_direction : MarketDirection;
  confidence : Q;
  signals : list Signal;
  current_price : Q;
  open_price : option Q;
  drift_pct : option Q;
  volatility_pct : Q;
  should_trade : bool;
  reason : Reason;
  position_size_pct : Q
}.

(** [sum(xs)]: a left fold from 0. *)
Definition sumQ (xs : list Q) : Q := fold_left Qplus xs 0.

Definition Qlen {A} (xs : list A) : Q := inject_Z (Z.of_nat (length xs)).

(** *** Technical indicators *)

Fixpoint ema_run (multiplier prev : Q) (prices : list Q) : list Q :=
  match prices with
  | [] => []
  | price :: rest =>
      let e := price * multiplier + prev * (1 - multiplier) in
      e :: ema_run multiplier e rest
  end.

Definition _ema (data : list Q) (period : nat) : option (list Q) :=
  if (length data <? period)%nat then
    m ← qdiv (sumQ data) (Qlen data);
    Some (replicate (length data) m)
  else
    multiplier ← qdiv 2 (inject_Z (Z.of_nat period + 1));
    first ← qdiv (sumQ (take period data)) (inject_Z (Z.of_nat period));
    Some (first :: ema_run multiplier first (drop period data)).

(** [closes[i] - closes[i-1]] for [i] from 1. *)
Fixpoint deltas (closes : list Q) : list Q :=
  match closes with
  | a :: (b :: _) as rest => (b - a) :: deltas rest
  | _ => []
  end.

(** Wilder smoothing: [avg = (avg * (period - 1) + x) / period]. *)
Definition wilder (period avg : Q) (xs : list Q) : Q :=
  fold_left (fun a x => (a * (period - 1) + x) / period) xs avg.

Definition _rsi (closes : list Q) (period : nat) : option Q :=
  if (length closes <? period + 1)%nat then Some 50
  else
    let ds := deltas closes in
    let gains := map (fun d => if Qltb 0 d then d else 0) ds in
    let losses := map (fun d => if Qltb d 0 then - d else 0) ds in
    let p := inject_Z (Z.of_nat period) in
    avg_gain ← qdiv (sumQ (take period gains)) p;
    avg_loss ← qdiv (sumQ (take period losses)) p;
    let avg_gain := wilder p avg_gain (drop period gains) in
    let avg_loss := wilder p avg_loss (drop period losses) in
    if Qeqb avg_loss 0 then Some 100
    else
      rs ← qdiv avg_gain avg_loss;
      q ← qdiv 100 (1 + rs);
      Some (100 - q).

Definition _macd (closes : list Q) (fast slow signal : nat)
  : option (Q * Q * Q) :=
  if (length closes <? slow + signal)%nat then Some (0, 0, 0)
  else
    ema_fast ← _ema closes fast;
    ema_slow ← _ema closes slow;
    let min_len := Nat.min (length ema_fast) (length ema_slow) in
    let macd_line :=
      zip_with Qminus (drop (length ema_fast - min_len) ema_fast)
                      (drop (length ema_slow - min_len) ema_slow) in
    if (length macd_line <? signal)%nat then
      Some (default 0 (last macd_line), 0, 0)
    else
      signal_line ← _ema macd_line signal;
      m ← last macd_line;
      s ← last signal_line;
      Some (m, s, m - s).

(** Close-to-close returns in percent. *)
Fixpoint pct_returns (closes : list Q) : option (list Q) :=
  match closes with
  | a :: (b :: _) as rest =>
      r ← qdiv (b - a) a;
      rs ← pct_returns rest;
      Some (r * 100 :: rs)
  | _ => Some []
  end.

Section WithSqrt.

(** [math.sqrt], a library function. *)
Variable sqrt : Q -> Q.

Definition _volatility (candles : list Candle) : option Q :=
  if (length candles <? 2)%nat then Some 0
  else
    returns ← pct_returns (map close candles);
    mean ← qdiv (sumQ returns) (Qlen returns);
    var ← qdiv (sumQ (map (fun r => (r - mean) * (r - mean)) returns))
               (Qlen returns);
    Some (sqrt var).

(** *** Signal generators *)

Definition _signal_price_vs_open (current_price open_price : Q)
  : option Signal :=
  r ← qdiv (current_price - open_price) open_price;
  let drift_pct := r * 100 in
  let direction :=
    if Qltb (4 # 100) drift_pct then UP
    else if Qltb drift_pct (- (4 # 100)) then DOWN
    else HOLD in
  let strength := Qmin 1 (Qabs drift_pct / (15 # 100)) in
  Some (mkSignal "price_vs_open" direction strength drift_pct).

Definition _signal_momentum (cfg : StrategyConfig) (candles : list Candle)
  : option Signal :=
  let lookback := Nat.min (momentum_lookback cfg) (length candles - 1) in
  if (lookback <? 1)%nat then Some (mkSignal "momentum" HOLD 0 0)
  else
    current ← close <$> last candles;
    past ← close <$> candles !! (length candles - (lookback + 1))%nat;
    r ← qdiv (current - past) past;
    let pct := r * 100 in
    let strength := Qmin 1 (Qabs pct / (5 # 10)) in
    if Qltb (2 # 100) pct then Some (mkSignal "momentum" UP strength pct)
    else if Qltb pct (- (2 # 100)) then
      Some (mkSignal "momentum" DOWN strength pct)
    else Some (mkSignal "momentum" HOLD 0 pct).

Definition _signal_rsi (cfg : StrategyConfig) (candles : list Candle)
  : option Signal :=
  let closes := map close candles in
  rsi ← _rsi closes (rsi_period cfg);
  if Qltb (rsi_overbought cfg) rsi then
    Some (mkSignal "rsi" DOWN (Qmin 1 ((rsi - rsi_overbought cfg) / 15)) rsi)
  else if Qltb rsi (rsi_oversold cfg) then
    Some (mkSignal "rsi" UP (Qmin 1 ((rsi_oversold cfg - rsi) / 15)) rsi)
  else
    let center := 50 in
    if Qltb center rsi then
      q ← qdiv (rsi - center) (rsi_overbought cfg - center);
      Some (mkSignal "rsi" UP (q * (3 # 10)) rsi)
    else
      q ← qdiv (center - rsi) (center - rsi_oversold cfg);
      Some (mkSignal "rsi" DOWN (q * (3 # 10)) rsi).

Definition sign_direction (x : Q) : MarketDirection :=
  if Qltb 0 x then UP else if Qltb x 0 then DOWN else HOLD.

Definition _signal_macd (cfg : StrategyConfig) (candles : list Candle)
  : option Signal :=
  let closes := map close candles in
  '(macd_line, signal_line, histogram) ←
    _macd closes (macd_fast cfg) (macd_slow cfg) (macd_signal cfg);
  let d := sign_direction histogram in
  q ← qdiv (Qabs histogram) (default 1 (last closes));
  let normalized := q * 10000 in
  let strength := Qmin 1 (normalized / 10) in
  if (2 <? length closes)%nat then
    prev ← _macd (take (length closes - 1) closes)
                 (macd_fast cfg) (macd_slow cfg) (macd_signal cfg);
    if Qltb (snd prev * histogram) 0 then
      Some (mkSignal "macd" d (Qmin 1 (strength * (15 # 10))) histogram)
    else Some (mkSignal "macd" d strength histogram)
  else Some (mkSignal "macd" d strength histogram).

Definition _signal_ema_cross (cfg : StrategyConfig) (candles : list Candle)
  : option Signal :=
  let closes := map close candles in
  ema_fast ← _ema closes (ema_fast cfg);
  ema_slow ← _ema closes (ema_slow cfg);
  match last ema_fast, last ema_slow with
  | Some f, Some s =>
      let diff := f - s in
      let d := sign_direction diff in
      c ← last closes;
      q ← qdiv (Qabs diff) c;
      let spread_pct := q * 100 in
      let strength := Qmin 1 (spread_pct / (15 # 100)) in
      if (2 <=? length ema_fast)%nat && (2 <=? length ema_slow)%nat then
        f2 ← ema_fast !! (length ema_fast - 2)%nat;
        s2 ← ema_slow !! (length ema_slow - 2)%nat;
        let prev_diff := f2 - s2 in
        if Qltb (prev_diff * diff) 0 then
          Some (mkSignal "ema_cross" d (Qmin 1 (strength * 2)) diff)
        else Some (mkSignal "ema_cross" d strength diff)
      else Some (mkSignal "ema_cross" d strength diff)
  | _, _ => Some (mkSignal "ema_cross" HOLD 0 0)
  end.

(** *** Master decision *)

(** [open_price and open_price > 0]. *)
Definition anchor_present (open_price : option Q) : bool :=
  match open_price with
  | Some p => truthy p && Qltb 0 p
  | None => false
  end.

(** The [weights] dictionary of [analyze]. *)
Definition weights_for (cfg : StrategyConfig) (anchored : bool)
  : gmap string Q :=
  if anchored then
    <["ema_cross" := weight_ema_cross cfg * (30 # 100)]>
    (<["macd" := weight_macd cfg * (30 # 100)]>
    (<["rsi" := weight_rsi cfg * (30 # 100)]>
    (<["momentum" := weight_momentum cfg * (30 # 100)]>
    (<["price_vs_open" := 70 # 100]> ∅))))
  else
    <["ema_cross" := weight_ema_cross cfg]>
    (<["macd" := weight_macd cfg]>
    (<["rsi" := weight_rsi cfg]>
    (<["momentum" := weight_momentum cfg]> ∅))).

(** The four indicator signals, in the order [analyze] appends them. *)
Definition indicators (cfg : StrategyConfig) (candles : list Candle)
  : option (list Signal) :=
  momentum ← _signal_momentum cfg candles;
  rsi ← _signal_rsi cfg candles;
  macd ← _signal_macd cfg candles;
  ema_cross ← _signal_ema_cross cfg candles;
  Some [momentum; rsi; macd; ema_cross].

(** [s.name != "price_vs_open" and s.direction != HOLD]. *)
Definition is_indicator_vote (s : Signal) : bool :=
  negb (String.eqb (name s) "price_vs_open")
  && negb (dir_eqb (direction s) HOLD).

Definition count_dir (d : MarketDirection) (ds : list MarketDirection)
  : nat :=
  length (List.filter (dir_eqb d) ds).

(** The weighted-score loop: [(up_score, down_score)]. *)
Definition score (weights : gmap string Q) (sigs : list Signal) : Q * Q :=
  fold_left
    (fun acc sig =>
       let w := default 0 (weights !! name sig) in
       match direction sig with
       | UP => (fst acc + strength sig * w, snd acc)
       | DOWN => (fst acc, snd acc + strength sig * w)
       | HOLD => acc
       end)
    sigs (0, 0).

(** Direction and capped confidence from the two scores. *)
Definition choose (up_score down_score : Q) : MarketDirection * Q :=
  let total := up_score + down_score in
  let '(dir, conf) :=
    if Qeqb total 0 then (HOLD, 0)
    else if Qltb down_score up_score then (UP, up_score / total)
    else (DOWN, down_score / total) in
  let conf := conf * Qmin 1 (total / (5 # 10)) in
  (dir, Qmin conf (92 # 100)).

(** Non-HOLD indicators whose direction differs from [dir]. *)
Definition disagree_count (dir : MarketDirection) (sigs : list Signal)
  : nat :=
  length (List.filter (fun s => negb (dir_eqb (direction s) dir))
            (List.filter is_indicator_vote sigs)).

(** The agreement filter: the reason it returns with, if it fires. *)
Definition agreement_filter (anchored : bool) (dir : MarketDirection)
  (sigs : list Signal) (drift_pct : option Q) : option Reason :=
  if anchored && negb (dir_eqb dir HOLD) then
    let indicator_signals := List.filter is_indicator_vote sigs in
    if (2 <=? length indicator_signals)%nat then
      let n := disagree_count dir sigs in
      let abs_drift := match drift_pct with
                       | Some d => Qabs d
                       | None => 0
                       end in
      if Qltb abs_drift (10 # 100) && (2 <=? n)%nat then
        Some (SignalConflictLowDrift n)
      else if (3 <=? n)%nat then Some (SignalConflict n)
      else None
    else None
  else None.

(** The chop filter: do the indicators split 2 against 2 on a small
    drift? *)
Definition chop_filter (current_price : Q) (open_price : option Q)
  (sigs : list Signal) : option bool :=
  match open_price with
  | Some p =>
      if truthy p && Qltb 0 p then
        let indicator_dirs :=
          map direction (List.filter is_indicator_vote sigs) in
        if (4 <=? length indicator_dirs)%nat then
          let up_count := count_dir UP indicator_dirs in
          let down_count := count_dir DOWN indicator_dirs in
          r ← qdiv (current_price - p) p;
          let pvo_drift := Qabs (r * 100) in
          Some ((up_count =? 2)%nat && (down_count =? 2)%nat
                && Qltb pvo_drift (12 # 100))
        else Some false
      else Some false
  | None => Some false
  end.

(** The [price_vs_open] signal when the anchor is present. *)
Definition anchor_signal (current_price : Q) (open_price : option Q)
  : option (option Signal) :=
  match open_price with
  | Some p =>
      if truthy p && Qltb 0 p then
        pvo ← _signal_price_vs_open current_price p;
        Some (Some pvo)
      else Some None
  | None => Some None
  end.

(** [analyze]; [history] is [self._trade_history], and an uncaught
    exception is [None]. *)
Definition analyze (cfg : StrategyConfig) (history : list StrategyDecision)
  (candles : list Candle) (current_price : Q) (open_price : option Q)
  (fee_pct : option Q) : option (StrategyDecision * list StrategyDecision) :=
  if (length candles <? 30)%nat then
    Some (mkDecision HOLD 0 [] current_price open_price None 0 false
            InsufficientData 0, history)
  else
    volatility ← _volatility (drop (length candles - 20) candles);
    if Qltb volatility (min_volatility_pct cfg) then
      Some (mkDecision HOLD 0 [] current_price open_price None volatility
              false VolatilityTooLow 0, history)
    else if Qltb (max_volatility_pct cfg) volatility then
      Some (mkDecision HOLD 0 [] current_price open_price None volatility
              false VolatilityTooHigh 0, history)
    else
      pvo ← anchor_signal current_price open_price;
      let drift := raw_value <$> pvo in
      let weights := weights_for cfg (anchor_present open_price) in
      inds ← indicators cfg candles;
      let sigs := option_list pvo ++ inds in
      chop ← chop_filter current_price open_price sigs;
      if (chop : bool) then
        Some (mkDecision HOLD 0 sigs current_price open_price drift
                volatility false ChopDetected 0, history)
      else
        let '(up_score, down_score) := score weights sigs in
        let '(dir, conf) := choose up_score down_score in
        match agreement_filter (anchor_present open_price) dir sigs drift with
        | Some why =>
            Some (mkDecision dir conf sigs current_price open_price drift
                    volatility false why 0, history)
        | None =>
            let est_fee_pct := default (156 # 100) fee_pct in
            let raw_edge := Qabs (conf - (1 # 2)) * 2 * 100 in
            if Qltb raw_edge est_fee_pct && negb (dir_eqb dir HOLD) then
              Some (mkDecision dir conf sigs current_price open_price drift
                      volatility false EdgeBelowFee 0, history)
            else
              let trade :=
                negb (dir_eqb dir HOLD)
                && Qleb (confidence_threshold cfg) conf in
              let size_pct :=
                if trade then
                  let kelly := Qmax 0 (conf - (1 - conf)) in
                  Qmin (kelly * 100 * (25 # 100)) 10
                else 0 in
              let decision :=
                mkDecision dir conf sigs current_price open_price drift
                  volatility trade (Scored up_score down_score) size_pct in
              Some (decision, history ++ [decision])
        end.

(** The direction the weighted score picks when the anchor [p] is used. *)
Definition weighted_direction (cfg : StrategyConfig) (candles : list Candle)
  (current_price p : Q) : option MarketDirection :=
  pvo ← _signal_price_vs_open current_price p;
  inds ← indicators cfg candles;
  let '(up_score, down_score) := score (weights_for cfg true) (pvo :: inds) in
  Some (fst (choose up_score down_score)).

(** How many of the four indicators are not HOLD and point away from
    [dir]. *)
Definition opposing (cfg : StrategyConfig) (candles : list Candle)
  (dir : MarketDirection) : option nat :=
  inds ← indicators cfg candles;
  Some (length (List.filter
                  (fun s => negb (dir_eqb (direction s) HOLD)
                            && negb (dir_eqb (direction s) dir)) inds)).

(** Drift of the current price from the anchor, in percent. *)
Definition drift_of (current_price p : Q) : option Q :=
  r ← qdiv (current_price - p) p; Some (r * 100).

End WithSqrt.

(** A computable stand-in for [math.sqrt] (exact to six decimals), used
    to run the model on concrete candles. *)
Definition sqrt_approx (x : Q) : Q :=
  inject_Z (Z.sqrt (Qfloor (x * inject_Z (10 ^ 12)))) / inject_Z (10 ^ 6).

(** A candle that closes at [c]. *)
Definition candle_at (c : Q) : Candle := mkCandle 0 c c c c 0 "15m".

End Signal.

(** ** Oracle engine: window anchors (oracles/price_feed.py) *)

Module Oracle.

Record ConsensusPrice := mkConsensus {
  price : Q;
  timestamp : Q;
  sources : list string;
  spread_pct : Q;
  confidence : Q;
  chainlink_price : option Q
}.

Record WindowAnchor := mkAnchor {
  boundary_time : Q;
  open_price : Q;
  source : string;
  captured_at : Q
}.

(** The two attributes of [OracleEngine] that anchor capture touches. *)
Record OracleEngine := mkOracle {
  _window_anchor : option WindowAnchor;
  _price_history : list ConsensusPrice
}.

Definition fresh : OracleEngine := mkOracle None [].

(** [_current_window_boundary] at clock reading [now] (seconds since the
    epoch).  The boundary is computed from [datetime.fromtimestamp(now)],
    that is from the reading rounded to the microsecond; the local zone
    is taken to be UTC, and any whole-hour offset gives the same minute
    of the hour. *)
Definition _current_window_boundary (window_minutes : Z) (now : Q) : Q :=
  let mins := Z.max 1 window_minutes in
  let secs := fromtimestamp_second now in
  let hour_start := (secs - secs mod 3600)%Z in
  let minute := ((secs mod 3600) / 60)%Z in
  let window_start_min := ((minute / mins) * mins)%Z in
  inject_Z (hour_start + window_start_min * 60).

(** [get_price]: the consensus the four sources produce is [fetched]
    ([None] when every oracle is down and the call raises); a consensus is
    appended to the history. *)
Definition get_price (fetched : option ConsensusPrice) (o : OracleEngine)
  : option ConsensusPrice * OracleEngine :=
  match fetched with
  | Some c => (Some c, mkOracle (_window_anchor o) (_price_history o ++ [c]))
  | None => (None, o)
  end.

(** [x or y] on an optional float. *)
Definition opt_truthy (x : option Q) : bool :=
  match x with Some v => truthy v | None => false end.

(** The stored anchor, when it belongs to the boundary asked for:
    [self._window_anchor and self._window_anchor.boundary_time == boundary_ts]. *)
Definition cached_anchor (boundary_ts : Q) (o : OracleEngine)
  : option WindowAnchor :=
  match _window_anchor o with
  | Some a => if Qeqb (boundary_time a) boundary_ts then Some a else None
  | None => None
  end.

(** ["chainlink" if consensus.chainlink_price else consensus.sources[0]];
    an empty source list is an [IndexError]. *)
Definition anchor_source (consensus : ConsensusPrice) : option string :=
  if opt_truthy (chainlink_price consensus) then Some "chainlink"
  else head (sources consensus).

(** [consensus.chainlink_price or consensus.price]. *)
Definition anchor_price (consensus : ConsensusPrice) : Q :=
  match chainlink_price consensus with
  | Some v => if truthy v then v else price consensus
  | None => price consensus
  end.

(** [capture_window_open]: [now] is the clock when the boundary is
    computed, [later] when the anchor is stamped; [None] is an uncaught
    exception. *)
Definition capture_window_open (window_minutes : Z) (now later : Q)
  (fetched : option ConsensusPrice) (o : OracleEngine)
  : option WindowAnchor * OracleEngine :=
  let boundary_ts := _current_window_boundary window_minutes now in
  match cached_anchor boundary_ts o with
  | Some a => (Some a, o)
  | None =>
      match get_price fetched o with
      | (Some consensus, o) =>
          match anchor_source consensus with
          | Some src =>
              let a := mkAnchor boundary_ts (anchor_price consensus) src
                         later in
              (Some a, mkOracle (Some a) (_price_history o))
          | None => (None, o)
          end
      | (None, o) => (None, o)
      end
  end.

Definition get_window_anchor (o : OracleEngine) : option WindowAnchor :=
  _window_anchor o.

End Oracle.

(** ** Python exceptions *)

Module Py.

Inductive Exn :=
| AttributeError (attribute : string)
| IndexError
| RuntimeError (message : string)
| ZeroDivisionError.

(** The outcome of a call that may raise. *)
Inductive Result (A : Type) :=
| Ok (value : A)
| Raised (e : Exn).

Arguments Ok {A} value.
Arguments Raised {A} e.

End Py.

(** ** Market maker (core/market_maker.py) *)

Module MarketMaker.
Import Py.

Record MarketMakerConfig := mkConfig {
  spread_bps : Z;
  order_size_usd : Q;
  num_levels : nat;
  level_spacing_bps : Z;
  refresh_secs : Q;
  max_inventory_imbalance : Q;
  pull_before_close_secs : Z;
  max_daily_budget : Q;
  max_open_orders : nat
}.

Definition default_config : MarketMakerConfig :=
  {| spread_bps := 400; order_size_usd := 3; num_levels := 1;
     level_spacing_bps := 100; refresh_secs := 15;
     max_inventory_imbalance := 10; pull_before_close_secs := 60;
     max_daily_budget := 50; max_open_orders := 4 |}.

Record ActiveQuote := mkQuote {
  order_id : string;
  token_id : string;
  condition_id : string;
  side : string;
  price : Q;
  size : Q;
  posted_at : Q;
  timeframe : string
}.

(** [MMStats]: the nine fields the dataclass declares. *)
Record MMStats := mkStats {
  quotes_posted : Z;
  quotes_filled : Z;
  quotes_cancelled : Z;
  quotes_rejected : Z;
  total_fills_usd : Q;
  yes_fills_usd : Q;
  no_fills_usd : Q;
  skipped_for_imbalance : Z;
  skipped_extreme_price : Z
}.

Definition fresh_stats : MMStats := mkStats 0 0 0 0 0 0 0 0 0.

(** [getattr(stats, attribute)] for an integer field; an attribute the
    dataclass does not declare raises [AttributeError]. *)
Definition stats_int (s : MMStats) (attribute : string) : Result Z :=
  if String.eqb attribute "quotes_posted" then Ok (quotes_posted s)
  else if String.eqb attribute "quotes_filled" then Ok (quotes_filled s)
  else if String.eqb attribute "quotes_cancelled" then Ok (quotes_cancelled s)
  else if String.eqb attribute "quotes_rejected" then Ok (quotes_rejected s)
  else if String.eqb attribute "skipped_for_imbalance"
       then Ok (skipped_for_imbalance s)
  else if String.eqb attribute "skipped_extreme_price"
       then Ok (skipped_extreme_price s)
  else Raised (AttributeError attribute).

(** An entry of [_known_markets]; [end_time] is
    [_parse_end_time(mkt_info.get("end_date", ""))], [None] when the date
    is missing or does not parse. *)
Record MarketInfo := mkInfo {
  mi_condition_id : string;
  mi_timeframe : string;
  token_yes : string;
  token_no : string;
  end_time : option Q
}.

Record MarketMaker := mkMM {
  config : MarketMakerConfig;
  _active_quotes : list ActiveQuote;
  _stats : MMStats;
  _day_start : Q;
  _cycle_count : Z;
  _known_markets : gmap string MarketInfo;
  _daily_fills_usd : Q;
  _yes_fills_usd : Q;
  _no_fills_usd : Q;
  (** a Python set, kept in insertion order *)
  _cancelled_order_ids : list string
}.

Definition init (cfg : MarketMakerConfig) (now : Q) : MarketMaker :=
  mkMM cfg [] fresh_stats now 0 ∅ 0 0 0 [].

Definition mem (x : string) (xs : list string) : bool :=
  existsb (String.eqb x) xs.

(** [s.add(x)]. *)
Definition set_add (x : string) (xs : list string) : list string :=
  if mem x xs then xs else xs ++ [x].

(** [list(s)[-n:]]. *)
Definition last_n {A} (n : nat) (xs : list A) : list A :=
  drop (length xs - n) xs.

(** *** Fill detection *)

(** The conditions of the active quotes, in order of first appearance:
    the keys of [by_market]. *)
Fixpoint market_keys (qs : list ActiveQuote) (seen : list string)
  : list string :=
  match qs with
  | [] => []
  | q :: rest =>
      if mem (condition_id q) seen then market_keys rest seen
      else condition_id q :: market_keys rest (condition_id q :: seen)
  end.

(** One quote of the inner loop of [_detect_fills]; the state carried is
    the maker and the set [filled_ids]. *)
Definition detect_quote (open_ids : list string) (q : ActiveQuote)
  (acc : MarketMaker * list string) : MarketMaker * list string :=
  let '(mm, filled_ids) := acc in
  if String.eqb (order_id q) "" then acc
  else if mem (order_id q) open_ids then acc
  else if mem (order_id q) (_cancelled_order_ids mm) then acc
  else
    let fill_usd := price q * size q in
    let s := _stats mm in
    let yes := Str.contains "YES" (side q) in
    let s' := mkStats (quotes_posted s) (quotes_filled s + 1)
                (quotes_cancelled s) (quotes_rejected s)
                (total_fills_usd s + fill_usd)
                (if yes then yes_fills_usd s + fill_usd else yes_fills_usd s)
                (if yes then no_fills_usd s else no_fills_usd s + fill_usd)
                (skipped_for_imbalance s) (skipped_extreme_price s) in
    (mkMM (config mm) (_active_quotes mm) s' (_day_start mm)
       (_cycle_count mm) (_known_markets mm)
       (_daily_fills_usd mm + fill_usd)
       (if yes then _yes_fills_usd mm + fill_usd else _yes_fills_usd mm)
       (if yes then _no_fills_usd mm else _no_fills_usd mm + fill_usd)
       (_cancelled_order_ids mm),
     set_add (order_id q) filled_ids).

(** [_detect_fills]; [open_orders cid] lists the order ids the venue
    reports open on market [cid]. *)
Definition _detect_fills (open_orders : string -> list string)
  (mm : MarketMaker) : MarketMaker :=
  match _active_quotes mm with
  | [] => mm
  | quotes =>
      let '(mm, filled_ids) :=
        fold_left
          (fun acc cid =>
             fold_left (fun acc q => detect_quote (open_orders cid) q acc)
               (List.filter (fun q => String.eqb (condition_id q) cid) quotes)
               acc)
          (market_keys quotes []) (mm, []) in
      match filled_ids with
      | [] => mm
      | _ =>
          mkMM (config mm)
            (List.filter (fun q => negb (mem (order_id q) filled_ids))
               (_active_quotes mm))
            (_stats mm) (_day_start mm) (_cycle_count mm) (_known_markets mm)
            (_daily_fills_usd mm) (_yes_fills_usd mm) (_no_fills_usd mm)
            (_cancelled_order_ids mm)
      end
  end.

(** *** Order management *)

(** [_cancel_all_for_market]: the number of quotes dropped, and the new
    state.  The venue call sits in a [try] and cannot abort the method. *)
Definition _cancel_all_for_market (cid : string) (mm : MarketMaker)
  : nat * MarketMaker :=
  let ids :=
    fold_left
      (fun ids q =>
         if String.eqb (condition_id q) cid
            && negb (String.eqb (order_id q) "")
         then set_add (order_id q) ids else ids)
      (_active_quotes mm) (_cancelled_order_ids mm) in
  let cancelled :=
    length (List.filter (fun q => String.eqb (condition_id q) cid)
              (_active_quotes mm)) in
  let quotes :=
    List.filter (fun q => negb (String.eqb (condition_id q) cid))
      (_active_quotes mm) in
  let s := _stats mm in
  let s' := mkStats (quotes_posted s) (quotes_filled s)
              (quotes_cancelled s + Z.of_nat cancelled) (quotes_rejected s)
              (total_fills_usd s) (yes_fills_usd s) (no_fills_usd s)
              (skipped_for_imbalance s) (skipped_extreme_price s) in
  let ids := if (500 <? length ids)%nat then last_n 200 ids else ids in
  (cancelled,
   mkMM (config mm) quotes s' (_day_start mm) (_cycle_count mm)
     (_known_markets mm) (_daily_fills_usd mm) (_yes_fills_usd mm)
     (_no_fills_usd mm) ids).

(** *** Pre-close pull *)

(** The loop of [_pull_expiring_quotes] over the snapshot
    [list(self._active_quotes)].  After a pull the method executes
    [self._stats.pulls_before_close += 1], which first reads the
    attribute. *)
Fixpoint pull_loop (now : Q) (snapshot : list ActiveQuote)
  (pulled_conditions : list string) (mm : MarketMaker)
  : Result unit * MarketMaker :=
  match snapshot with
  | [] => (Ok tt, mm)
  | q :: rest =>
      match _known_markets mm !! condition_id q with
      | None => pull_loop now rest pulled_conditions mm
      | Some mkt_info =>
          match end_time mkt_info with
          | None => pull_loop now rest pulled_conditions mm
          | Some end_time =>
              let time_to_close := end_time - now in
              if Qleb time_to_close
                      (inject_Z (pull_before_close_secs (config mm)))
                 && negb (mem (condition_id q) pulled_conditions)
              then
                let mm := snd (_cancel_all_for_market (condition_id q) mm) in
                let pulled_conditions :=
                  set_add (condition_id q) pulled_conditions in
                match stats_int (_stats mm) "pulls_before_close" with
                | Raised e => (Raised e, mm)
                | Ok _ => pull_loop now rest pulled_conditions mm
                end
              else pull_loop now rest pulled_conditions mm
          end
      end
  end.

Definition _pull_expiring_quotes (now : Q) (mm : MarketMaker)
  : Result unit * MarketMaker :=
  pull_loop now (_active_quotes mm) [] mm.

(** *** Daily reset *)

Definition _check_daily_reset (now : Q) (mm : MarketMaker) : MarketMaker :=
  if Qltb 86400 (now - _day_start mm) then
    mkMM (config mm) (_active_quotes mm) fresh_stats now (_cycle_count mm)
      (_known_markets mm) 0 0 0 []
  else mm.

(** *** The cycle, up to market discovery *)

(** What one pass of the [while] body of [run] has done when it reaches
    step 3: either the state handed to discovery and quoting, or the
    exception that the catch-all of the loop logs, the remaining steps of
    the cycle being skipped. *)
Inductive CycleProgress :=
| ReachedDiscovery (mm : MarketMaker)
| CycleAborted (e : Exn) (mm : MarketMaker).

Definition cycle_until_discovery (open_orders : string -> list string)
  (now : Q) (mm : MarketMaker) : CycleProgress :=
  let mm := _check_daily_reset now mm in
  let mm := mkMM (config mm) (_active_quotes mm) (_stats mm) (_day_start mm)
              (_cycle_count mm + 1) (_known_markets mm)
              (_daily_fills_usd mm) (_yes_fills_usd mm) (_no_fills_usd mm)
              (_cancelled_order_ids mm) in
  let mm := _detect_fills open_orders mm in
  match _pull_expiring_quotes now mm with
  | (Ok _, mm) => ReachedDiscovery mm
  | (Raised e, mm) => CycleAborted e mm
  end.

End MarketMaker.

(** ** Arbitrage scanner (core/arb_scanner.py) *)

Module Arb.
Import Py.

(** [ArbMarket]; [end_ts] is the property of that name, the parsed
    [end_date] (0 when it does not parse). *)
Record ArbMarket := mkMarket {
  condition_id : string;
  question : string;
  slug : string;
  token_id_yes : string;
  token_id_no : string;
  price_yes : Q;
  price_no : Q;
  liquidity : Q;
  end_ts : Q;
  timeframe : string;
  volume : Q;
  last_refreshed : Q
}.

Definition combined (m : ArbMarket) : Q := price_yes m + price_no m.

Definition edge_pct (m : ArbMarket) : Q :=
  if Qltb (combined m) 1 then (1 - combined m) * 100 else 0.

Definition is_arb (m : ArbMarket) : bool :=
  Qltb 0 (combined m) && Qltb (combined m) 1.

Definition time_remaining_secs (now : Q) (m : ArbMarket) : Q :=
  Qmax 0 (end_ts m - now).

Record ArbExecution := mkExecution {
  ex_timestamp : Q;
  ex_condition_id : string;
  ex_question : string;
  ex_timeframe : string;
  ex_price_yes : Q;
  ex_price_no : Q;
  ex_combined : Q;
  ex_edge_pct : Q;
  size_per_side : Q;
  guaranteed_profit : Q;
  order_id_yes : option string;
  order_id_no : option string;
  status : string
}.

Record ArbScannerConfig := mkConfig {
  poll_interval_secs : Q;
  arb_threshold : Q;
  min_edge_pct : Q;
  size_per_side_usd : Q;
  max_daily_arb_trades : Z;
  max_daily_arb_budget : Q;
  min_liquidity_usd : Q;
  cooldown_per_market_secs : Q
}.

Definition default_config : ArbScannerConfig :=
  {| poll_interval_secs := 8; arb_threshold := 98 # 100; min_edge_pct := 1;
     size_per_side_usd := 10; max_daily_arb_trades := 50;
     max_daily_arb_budget := 200; min_liquidity_usd := 0;
     cooldown_per_market_secs := 120 |}.

(** An entry of [_near_misses]. *)
Record NearMiss := mkNearMiss {
  nm_time : Q;
  nm_question : string;
  nm_timeframe : string;
  nm_combined : Q;
  nm_gap : Q
}.

(** The attributes of [ArbScanner] that detection and execution use. *)
Record ArbScanner := mkScanner {
  config : ArbScannerConfig;
  _executions : list ArbExecution;
  _cooldowns : gmap string Q;
  _daily_trades : Z;
  _daily_spent : Q;
  _daily_profit : Q;
  _near_misses : list NearMiss;
  _best_edge_seen : Q
}.

Definition init (cfg : ArbScannerConfig) : ArbScanner :=
  mkScanner cfg [] ∅ 0 0 0 [] 0.

(** [_estimate_taker_fee_pct(price)] with its default
    [fallback_max = 1.56]. *)
Definition _estimate_taker_fee_pct (price : Q) : Q :=
  if Qleb price 0 || Qleb 1 price then 0
  else py_round ((156 # 100) * 4 * price * (1 - price)) 4.

(** Net edge in percent: gross edge less both estimated fees. *)
Definition net_edge_pct (m : ArbMarket) : Q :=
  edge_pct m
  - (_estimate_taker_fee_pct (price_yes m)
     + _estimate_taker_fee_pct (price_no m)).

(** The near-miss bookkeeping of [_find_opportunities]. *)
Definition note_near_miss (now : Q) (m : ArbMarket) (sc : ArbScanner)
  : ArbScanner :=
  if Qltb (combined m) (arb_threshold (config sc) + (2 # 100))
     && Qleb (arb_threshold (config sc)) (combined m)
  then
    mkScanner (config sc) (_executions sc) (_cooldowns sc) (_daily_trades sc)
      (_daily_spent sc) (_daily_profit sc)
      (List.filter (fun nm => Qltb (now - nm_time nm) 300) (_near_misses sc)
       ++ [mkNearMiss now (substring 0 60 (question m)) (timeframe m)
             (py_round (combined m) 4)
             (py_round ((1 - combined m) * 100) 2)])
      (_best_edge_seen sc)
  else sc.

(** [if net_edge_pct > self._best_edge_seen: self._best_edge_seen = ...]. *)
Definition note_best_edge (net : Q) (sc : ArbScanner) : ArbScanner :=
  if Qltb (_best_edge_seen sc) net then
    mkScanner (config sc) (_executions sc) (_cooldowns sc) (_daily_trades sc)
      (_daily_spent sc) (_daily_profit sc) (_near_misses sc) net
  else sc.

(** One market of the loop of [_find_opportunities]: the scanner after
    the bookkeeping, and whether the market is appended to [opps]. *)
Definition consider (now : Q) (m : ArbMarket) (sc : ArbScanner)
  : ArbScanner * bool :=
  let cfg := config sc in
  if Qeqb (combined m) 0 || Qleb (time_remaining_secs now m) 0 then
    (sc, false)
  else
    let sc := note_near_miss now m sc in
    if Qleb (arb_threshold cfg) (combined m) then (sc, false)
    else if Qltb (edge_pct m) (min_edge_pct cfg) then (sc, false)
    else
      let net := net_edge_pct m in
      if Qleb net 0 then (sc, false)
      else
        let sc := note_best_edge net sc in
        if Qltb (now - default 0 (_cooldowns sc !! condition_id m))
                (cooldown_per_market_secs cfg)
        then (sc, false)
        else if Qltb (liquidity m) (min_liquidity_usd cfg) then (sc, false)
        else (sc, true).

Fixpoint _find_opportunities (now : Q) (markets : list ArbMarket)
  (sc : ArbScanner) : list ArbMarket * ArbScanner :=
  match markets with
  | [] => ([], sc)
  | m :: rest =>
      let '(sc, keep) := consider now m sc in
      let '(opps, sc) := _find_opportunities now rest sc in
      (if keep then m :: opps else opps, sc)
  end.

(** What the exchange client answers to one [place_order]: the
    [order_id] of the trade record it returns, [None] when it records no
    trade, or an exception. *)
Definition PlaceOrder := ArbMarket -> string -> Result (option (option string)).

(** The two orders of an execution and the resulting
    [(order_id_yes, order_id_no, status)]; without a client the run is
    dry. *)
Definition place_both (client : option PlaceOrder) (m : ArbMarket)
  : option string * option string * string :=
  match client with
  | None => (None, None, "dry_run")
  | Some place =>
      match place m "up" with
      | Raised _ => (None, None, "failed")
      | Ok yes_trade =>
          let id_yes := default None yes_trade in
          match place m "down" with
          | Raised _ => (id_yes, None, "failed")
          | Ok no_trade =>
              let id_no := default None no_trade in
              (id_yes, id_no,
               match yes_trade, no_trade with
               | Some _, Some _ => "filled"
               | None, None => "failed"
               | _, _ => "partial"
               end)
          end
      end
  end.

Definition _execute_arb (now : Q) (client : option PlaceOrder)
  (market : ArbMarket) (sc : ArbScanner)
  : Result (option ArbExecution) * ArbScanner :=
  let cfg := config sc in
  if (max_daily_arb_trades cfg <=? _daily_trades sc)%Z then (Ok None, sc)
  else
    let cost := size_per_side_usd cfg * 2 in
    if Qltb (max_daily_arb_budget cfg) (_daily_spent sc + cost) then
      (Ok None, sc)
    else
      match qdiv 1 (combined market) with
      | None => (Raised ZeroDivisionError, sc)
      | Some inv =>
          let gross_profit := size_per_side_usd cfg * (inv - 1) in
          let fee_yes_pct := _estimate_taker_fee_pct (price_yes market) in
          let fee_no_pct := _estimate_taker_fee_pct (price_no market) in
          let total_fees :=
            size_per_side_usd cfg * fee_yes_pct / 100
            + size_per_side_usd cfg * fee_no_pct / 100 in
          let net_profit := py_round (gross_profit - total_fees) 2 in
          if Qleb net_profit 0 then (Ok None, sc)
          else
            let '(id_yes, id_no, st) := place_both client market in
            let execution :=
              mkExecution now (condition_id market) (question market)
                (timeframe market) (price_yes market) (price_no market)
                (combined market) (edge_pct market) (size_per_side_usd cfg)
                net_profit id_yes id_no st in
            (Ok (Some execution),
             mkScanner cfg (_executions sc ++ [execution])
               (<[condition_id market := now]> (_cooldowns sc))
               (_daily_trades sc + 1) (_daily_spent sc + cost)
               (if String.eqb st "filled" || String.eqb st "dry_run"
                then _daily_profit sc + net_profit else _daily_profit sc)
               (_near_misses sc) (_best_edge_seen sc))
      end.

(** [opps.sort(key=lambda m: m.edge_pct, reverse=True)]: descending and
    stable. *)
Fixpoint insert_by_edge (m : ArbMarket) (sorted : list ArbMarket)
  : list ArbMarket :=
  match sorted with
  | [] => [m]
  | x :: rest =>
      if Qltb (edge_pct m) (edge_pct x) then x :: insert_by_edge m rest
      else m :: sorted
  end.

Definition sort_by_edge (opps : list ArbMarket) : list ArbMarket :=
  fold_right insert_by_edge [] opps.

(** The execution loop of [run] over the sorted opportunities; an
    exception leaves the loop. *)
Fixpoint execute_all (now : Q) (client : option PlaceOrder)
  (opps : list ArbMarket) (sc : ArbScanner) : Result unit * ArbScanner :=
  match opps with
  | [] => (Ok tt, sc)
  | opp :: rest =>
      match _execute_arb now client opp sc with
      | (Raised e, sc) => (Raised e, sc)
      | (Ok _, sc) =>
          if (max_daily_arb_trades (config sc) <=? _daily_trades sc)%Z
             || Qleb (max_daily_arb_budget (config sc)) (_daily_spent sc)
          then (Ok tt, sc)
          else execute_all now client rest sc
      end
  end.

(** Detection and execution of one pass of [run] over the live markets. *)
Definition scan (now : Q) (client : option PlaceOrder)
  (markets : list ArbMarket) (sc : ArbScanner) : Result unit * ArbScanner :=
  let '(opps, sc) := _find_opportunities now markets sc in
  execute_all now client (sort_by_edge opps) sc.

(** Fee-positive at decision time, on the recorded prices, with the fee
    the code estimates: [_estimate_taker_fee_pct], the parabola rounded
    to four decimals. *)
Definition fee_positive (e : ArbExecution) : Prop :=
  0 < (1 - (ex_price_yes e + ex_price_no e)) * 100
      - _estimate_taker_fee_pct (ex_price_yes e)
      - _estimate_taker_fee_pct (ex_price_no e).

(** The fee as invariant I5 of the spec words it: the parabola
    [fallback * 4 * p * (1 - p)] itself, not rounded; and the net edge it
    gives on the recorded prices. *)
Definition spec_fee_pct (p : Q) : Q := (156 # 100) * 4 * p * (1 - p).

Definition spec_net_edge (e : ArbExecution) : Q :=
  (1 - (ex_price_yes e + ex_price_no e)) * 100
  - spec_fee_pct (ex_price_yes e) - spec_fee_pct (ex_price_no e).

End Arb.

(** ** Exchange client: order placement (core/polymarket_client.py) *)

Module Client.
Import Py.

(** The two settings of [PolymarketConfig] that [place_order] reads. *)
Record PolymarketConfig := mkConfig {
  order_type : string;
  max_slippage_pct : Q
}.

Definition default_config : PolymarketConfig := mkConfig "market" 2.

Inductive MarketStatus := ACTIVE | CLOSED | RESOLVED.

Record BinaryMarket := mkMarket {
  condition_id : string;
  question : string;
  slug : string;
  token_id_up : string;
  token_id_down : string;
  price_up : Q;
  price_down : Q;
  volume : Q;
  liquidity : Q;
  created_at : string;
  end_date : string;
  status : MarketStatus;
  neg_risk : bool;
  tick_size : string;
  resolved : bool;
  resolution : option string
}.

Record TradeRecord := mkTrade {
  trade_id : string;
  timestamp : Q;
  market_condition_id : string;
  direction : string;
  confidence : Q;
  entry_price : Q;
  size_usd : Q;
  oracle_price_at_entry : Q;
  outcome : option string;
  pnl : Q;
  order_id : option string;
  tx_hashes : list string
}.

(** The stored state of [PolymarketClient] that order placement can
    reach. *)
Record PolymarketClient := mkClient {
  config : PolymarketConfig;
  _clob_initialized : bool;
  _active_markets : gmap string BinaryMarket;
  _trade_records : list TradeRecord
}.

(** *** What the venue answers *)

(** The response dictionary of [post_order]; a key that may be absent is
    an [option]. *)
Record Response := mkResponse {
  success : bool;
  r_status : option string;
  orderID : option string;
  transactionsHashes : list string;
  errorMsg : string
}.

(** [post_order] (with the signing before it): an exception with its
    message, or the value returned ([None] for no dictionary). *)
Inductive PostResult :=
| PostRaised (message : string)
| PostReturned (resp : option Response).

(** The dictionary of [get_order]. *)
Record OrderInfo := mkOrderInfo {
  oi_status : string;
  oi_transactionsHashes : option (list string)
}.

(** [get_order]: an exception (also when the payload cannot be read as
    above), or the value returned ([None] when falsy). *)
Inductive QueryResult :=
| QueryRaised
| QueryReturned (info : option OrderInfo).

(** Everything the venue answers during one [place_order], one field per
    call site. *)
Record Venue := mkVenue {
  init_ok : bool;
  clob_price : option Q;
  fok_post : PostResult;
  gtc_post : PostResult;
  gtc_cancel_ok : bool;
  limit_post : PostResult;
  live_check : QueryResult;
  live_cancel_ok : bool;
  live_recheck : QueryResult;
  verify_first : QueryResult;
  verify_second : QueryResult
}.

(** *** Helpers *)

(** [_ensure_clob]: initialisation raises when the key or the SDK is
    missing. *)
Definition _ensure_clob (v : Venue) (c : PolymarketClient)
  : Result PolymarketClient :=
  if _clob_initialized c then Ok c
  else if init_ok v then
    Ok (mkClient (config c) true (_active_markets c) (_trade_records c))
  else Raised (RuntimeError "Set POLY_PRIVATE_KEY").

(** [s.lower() in ("matched", "filled")]. *)
Definition is_fill (s : string) : bool :=
  String.eqb (Str.lower s) "matched" || String.eqb (Str.lower s) "filled".

(** Does this requery report the order as matched or filled? *)
Definition reports_fill (q : QueryResult) : bool :=
  match q with
  | QueryReturned (Some info) => is_fill (oi_status info)
  | _ => false
  end.

(** The thin-book rejection, recognised by its message. *)
Definition thin_book (message : string) : bool :=
  Str.contains "fully filled or killed" (Str.lower message)
  || Str.contains "couldn't be fully filled" (Str.lower message).

(** [resp.get("status", "unknown")]. *)
Definition status_of (resp : Response) : string :=
  default "unknown" (r_status resp).

Definition matched_or_live (s : string) : bool :=
  String.eqb s "matched" || String.eqb s "live".

(** [clob_price if clob_price else price], with [price] defaulting to the
    market's quote for the side. *)
Definition exec_price_of (v : Venue) (market : BinaryMarket)
  (direction : string) (price : option Q) : Q :=
  let market_price :=
    if String.eqb direction "up" then price_up market
    else price_down market in
  let price := default market_price price in
  match clob_price v with
  | Some c => if truthy c then c else price
  | None => price
  end.

(** [f"T-{int(time.time() * 1000)}-{direction[0].upper()}"]; an empty
    direction is an [IndexError]. *)
Definition make_trade_id (now_ms : Z) (direction : string) : Result string :=
  match direction with
  | EmptyString => Raised IndexError
  | String c _ =>
      Ok ("T-" ++ Str.of_Z now_ms ++ "-"
          ++ String (Str.upper_char c) EmptyString)%string
  end.

(** *** Submission *)

(** Attempt 2 of market mode: the GTC limit with slippage.  Returns the
    response to go on with and the execution price to record; [None] is
    [return None]. *)
Definition submit_gtc_fallback (cfg : PolymarketConfig) (v : Venue)
  (size_usd exec_price : Q) : option (Response * Q) :=
  let slippage_price :=
    py_round (Qmin (99 # 100) (exec_price * (1 + max_slippage_pct cfg / 100)))
      2 in
  match qdiv size_usd slippage_price with
  | None => None
  | Some _ =>
      match gtc_post v with
      | PostRaised _ => None
      | PostReturned None => None
      | PostReturned (Some resp) =>
          let gtc_status := status_of resp in
          let gtc_order_id := default "" (orderID resp) in
          let resp :=
            if String.eqb gtc_status "live"
               && negb (String.eqb gtc_order_id "")
            then
              if gtc_cancel_ok v then
                mkResponse false (Some "cancelled") None []
                  "GTC timeout — no fill"
              else
                mkResponse true (Some "matched") (orderID resp)
                  (transactionsHashes resp) (errorMsg resp)
            else resp in
          let exec_price :=
            if success resp
               || match r_status resp with
                  | Some s => String.eqb s "matched"
                  | None => false
                  end
            then slippage_price else exec_price in
          Some (resp, exec_price)
      end
  end.

(** Market mode: fill-or-kill first, the GTC fallback on a thin book. *)
Definition submit_market (cfg : PolymarketConfig) (v : Venue)
  (size_usd exec_price : Q) : option (Response * Q) :=
  match fok_post v with
  | PostRaised message =>
      if thin_book message then submit_gtc_fallback cfg v size_usd exec_price
      else None
  | PostReturned None => None
  | PostReturned (Some resp) =>
      if negb (success resp) && negb (matched_or_live (status_of resp))
         && thin_book (errorMsg resp)
      then submit_gtc_fallback cfg v size_usd exec_price
      else Some (resp, exec_price)
  end.

(** Limit mode: one GTC order at the execution price. *)
Definition submit_limit (v : Venue) (exec_price : Q)
  : option (Response * Q) :=
  match limit_post v with
  | PostRaised _ => None
  | PostReturned None => None
  | PostReturned (Some resp) => Some (resp, exec_price)
  end.

(** *** Resting orders *)

(** What the code knows about the order once submission and the
    resting-order wait are over. *)
Record Submitted := mkSubmitted {
  s_order_id : string;
  s_success : bool;
  s_status : string;
  s_tx_hashes : list string
}.

(** The [status == "live" and not success] block: wait 12s, requery,
    cancel.  [None] is [return None]. *)
Definition settle_resting (v : Venue) (resp : Response) (sub : Submitted)
  : option Submitted :=
  if String.eqb (s_status sub) "live" && negb (s_success sub) then
    let live_order_id := default "" (orderID resp) in
    if negb (String.eqb live_order_id "") then
      match live_check v with
      | QueryRaised => None
      | QueryReturned info =>
          let live_check_status :=
            match info with Some i => oi_status i | None => "" end in
          if is_fill live_check_status then
            Some (mkSubmitted (s_order_id sub) true "matched"
                    (match info with
                     | Some i =>
                         default (s_tx_hashes sub) (oi_transactionsHashes i)
                     | None => s_tx_hashes sub
                     end))
          else if live_cancel_ok v then None
          else
            match live_recheck v with
            | QueryRaised => None
            | QueryReturned _ => None
            end
      end
    else None
  else Some sub.

(** *** Fill verification and recording *)

Definition with_record (r : TradeRecord) (c : PolymarketClient)
  : PolymarketClient :=
  mkClient (config c) (_clob_initialized c) (_active_markets c)
    (_trade_records c ++ [r]).

(** Lines 710-775: requery after 3s when there are transaction hashes,
    once more after 2s when that did not verify, then build and store the
    record. *)
Definition verify_and_record (v : Venue) (c : PolymarketClient)
  (record : TradeRecord) (sub : Submitted)
  : option TradeRecord * PolymarketClient :=
  let recorded := (Some record, with_record record c) in
  if s_success sub || String.eqb (s_status sub) "matched" then
    let verified :=
      match s_tx_hashes sub with
      | [] => false
      | _ => reports_fill (verify_first v)
      end in
    if verified then recorded
    else
      match verify_second v with
      | QueryReturned (Some info) =>
          if is_fill (oi_status info) then recorded else (None, c)
      | QueryReturned None => (None, c)
      | QueryRaised => recorded
      end
  else recorded.

(** *** [place_order] *)

(** The body of the outer [try]; every exception inside it is caught and
    turned into [return None].  The share count and the fee rate only
    travel to the venue, whose answers are the fields of [v]. *)
Definition place_order_body (v : Venue) (c : PolymarketClient)
  (now : Q) (trade_id : string) (market : BinaryMarket) (direction : string)
  (size_usd : Q) (price : option Q) (oracle_price confidence : Q)
  : option TradeRecord * PolymarketClient :=
  let exec_price := exec_price_of v market direction price in
  if Qltb exec_price (1 # 100) || Qltb (99 # 100) exec_price then (None, c)
  else
    let mode := Str.lower (order_type (config c)) in
    match (if String.eqb mode "market"
           then submit_market (config c) v size_usd exec_price
           else submit_limit v exec_price) with
    | None => (None, c)
    | Some (resp, exec_price) =>
        let sub :=
          mkSubmitted (default trade_id (orderID resp)) (success resp)
            (status_of resp) (transactionsHashes resp) in
        if negb (s_success sub) && negb (matched_or_live (s_status sub))
        then (None, c)
        else
          match settle_resting v resp sub with
          | None => (None, c)
          | Some sub =>
              let fill_price := exec_price in
              let record :=
                mkTrade trade_id now (condition_id market) direction
                  confidence fill_price size_usd oracle_price None 0
                  (Some (s_order_id sub)) (s_tx_hashes sub) in
              verify_and_record v c record sub
          end
    end.

(** [place_order]: [now_ms] and [now] are the clock readings for the
    trade id and the record; an exception that escapes is [Raised]. *)
Definition place_order (v : Venue) (c : PolymarketClient) (now_ms : Z)
  (now : Q) (market : BinaryMarket) (direction : string) (size_usd : Q)
  (price : option Q) (oracle_price confidence : Q)
  : Result (option TradeRecord) * PolymarketClient :=
  if Qltb size_usd (1 # 2) then (Ok None, c)
  else
    match make_trade_id now_ms direction with
    | Raised e => (Raised e, c)
    | Ok trade_id =>
        match _ensure_clob v c with
        | Raised e => (Raised e, c)
        | Ok c =>
            let '(r, c) :=
              place_order_body v c now trade_id market direction size_usd
                price oracle_price confidence in
            (Ok r, c)
        end
    end.

(** The execution price [place_order] derives, when it gets as far as
    deriving one. *)
Definition derived_exec_price (v : Venue) (c : PolymarketClient)
  (now_ms : Z) (market : BinaryMarket) (direction : string) (size_usd : Q)
  (price : option Q) : option Q :=
  if Qltb size_usd (1 # 2) then None
  else
    match make_trade_id now_ms direction, _ensure_clob v c with
    | Ok _, Ok _ => Some (exec_price_of v market direction price)
    | _, _ => None
    end.

End Client.

(** ** Sample inputs used to run the model *)

Module Samples.

(** The default strategy settings with the volatility gate opened wide. *)
Definition wide_config : Signal.StrategyConfig :=
  Signal.mkStrategyConfig (60 # 100) (75 # 100) 14 70 30 5 15 12 26 9 3
    0 1000 (30 # 100) (25 # 100) (25 # 100) (20 # 100).

(** Thirty candles: twenty-seven closes at 2, then a drop to 1. *)
Definition step_candles : list Signal.Candle :=
  map Signal.candle_at (repeat 2 27 ++ [1; 1; 1]).

(** A consensus whose Chainlink price is [p], read at time [t]. *)
Definition chainlink_at (p t : Q) : Oracle.ConsensusPrice :=
  Oracle.mkConsensus p t ["chainlink"; "binance"] 0 (2 # 3) (Some p).

(** 2026-01-01 12:00:00 UTC, in seconds since the epoch. *)
Definition noon : Z := 1767268800.

(** A maker with three resting quotes: two on market 0xA, one on market
    0xB; both markets close within the next minute of [t0]. *)
Definition t0 : Q := inject_Z noon.

Definition quote_a1 : MarketMaker.ActiveQuote :=
  MarketMaker.mkQuote "a1" "tokA-yes" "0xA" "BUY_YES" (46 # 100) 7 t0 "5m".
Definition quote_a2 : MarketMaker.ActiveQuote :=
  MarketMaker.mkQuote "a2" "tokA-no" "0xA" "BUY_NO" (46 # 100) 7 t0 "5m".
Definition quote_b1 : MarketMaker.ActiveQuote :=
  MarketMaker.mkQuote "b1" "tokB-yes" "0xB" "BUY_YES" (45 # 100) 7 t0 "15m".

Definition expiring_maker : MarketMaker.MarketMaker :=
  MarketMaker.mkMM MarketMaker.default_config
    [quote_a1; quote_a2; quote_b1] MarketMaker.fresh_stats t0 3
    (<["0xA" := MarketMaker.mkInfo "0xA" "5m" "tokA-yes" "tokA-no"
                  (Some (t0 + 30))]>
     (<["0xB" := MarketMaker.mkInfo "0xB" "15m" "tokB-yes" "tokB-no"
                   (Some (t0 + 45))]> ∅))
    0 0 0 [].

(** The venue reports every one of those orders as still open. *)
Definition all_open (cid : string) : list string := ["a1"; "a2"; "b1"].

(** The arbitrage of the spec's third scenario: both sides quoted at
    0.48, expiring ten minutes after [t0]. *)
Definition cheap_pair : Arb.ArbMarket :=
  Arb.mkMarket "0xC" "Bitcoin Up or Down" "btc-updown-15m-1767268800"
    "tokC-yes" "tokC-no" (48 # 100) (48 # 100) 1000 (t0 + 600) "15m" 0 t0.

(** A pair whose net edge is positive only because the fee estimate is
    rounded down: 0.4002 and 0.5695232. *)
Definition rounded_pair : Arb.ArbMarket :=
  Arb.mkMarket "0xD" "Bitcoin Up or Down" "btc-updown-15m-1767268800"
    "tokD-yes" "tokD-no" (4002 # 10000) (5695232 # 10000000) 1000
    (t0 + 600) "15m" 0 t0.

(** A pair whose gross edge of 3.1 is below the two fees: both sides at
    0.4845. *)
Definition thin_pair : Arb.ArbMarket :=
  Arb.mkMarket "0xE" "Bitcoin Up or Down" "btc-updown-15m-1767268800"
    "tokE-yes" "tokE-no" (4845 # 10000) (4845 # 10000) 1000 (t0 + 600)
    "15m" 0 t0.

(** An initialised client in market mode, a balanced market, and a venue
    that accepts the fill-or-kill order with a transaction hash. *)
Definition ready_client : Client.PolymarketClient :=
  Client.mkClient Client.default_config true ∅ [].

Definition even_market : Client.BinaryMarket :=
  Client.mkMarket "0xD" "Bitcoin Up or Down" "btc-updown-15m-1767268800"
    "tokD-up" "tokD-down" (50 # 100) (50 # 100) 1000 1000 ""
    "2026-01-01T12:15:00Z" Client.ACTIVE true "0.01" false None.

Definition accepted : Client.Response :=
  Client.mkResponse true (Some "matched") (Some "order-1") ["0xabc"] "".

Definition open_order : Client.QueryResult :=
  Client.QueryReturned (Some (Client.mkOrderInfo "open" None)).

(** Both requeries answer "open": the phantom fill of the spec's fourth
    scenario. *)
Definition phantom_venue : Client.Venue :=
  Client.mkVenue true None (Client.PostReturned (Some accepted))
    (Client.PostRaised "") true (Client.PostRaised "")
    Client.QueryRaised true Client.QueryRaised open_order open_order.


(** The order book quotes 0.995 for the token. *)
Definition lopsided_venue : Client.Venue :=
  Client.mkVenue true (Some (995 # 1000))
    (Client.PostReturned (Some accepted))
    (Client.PostRaised "") true (Client.PostRaised "")
    Client.QueryRaised true Client.QueryRaised open_order open_order.

End Samples.


(** ** strategies/signal_engine.py: the late-window decision *)

Module LateWindow.

(** The [reason] of a decision of [analyze_late_window]; decisions that
    [analyze] put into the shared history keep their own reason. *)
Inductive Reason :=
| Analyzed (r : Signal.Reason)
| NoAnchorPrice
| DriftBelowThreshold (drift_pct min_drift_pct : Q)
| LateWindowEntry (dir : Signal.MarketDirection)
    (drift_pct confidence time_remaining_secs : Q).

(** [StrategyDecision], with the reasons above. *)
Record StrategyDecision := mkDecision {
  d_direction : Signal.MarketDirection;
  confidence : Q;
  signals : list Signal.Signal;
  current_price : Q;
  open_price : option Q;
  drift_pct : option Q;
  volatility_pct : Q;
  should_trade : bool;
  reason : Reason;
  position_size_pct : Q
}.

(** A decision of [analyze] as an entry of the shared history. *)
Definition of_analyze (d : Signal.StrategyDecision) : StrategyDecision :=
  mkDecision (Signal.d_direction d) (Signal.confidence d) (Signal.signals d)
    (Signal.current_price d) (Signal.open_price d) (Signal.drift_pct d)
    (Signal.volatility_pct d) (Signal.should_trade d)
    (Analyzed (Signal.reason d)) (Signal.position_size_pct d).

(** The keyword arguments of [analyze_late_window]. *)
Record Params := mkParams {
  min_drift_pct : Q;
  base_confidence : Q;
  max_confidence : Q;
  drift_scale_pct : Q
}.

Definition default_params : Params :=
  {| min_drift_pct := 8 # 100; base_confidence := 80 # 100;
     max_confidence := 95 # 100; drift_scale_pct := 25 # 100 |}.

(** [analyze_late_window]; [history] is [self._trade_history], and an
    uncaught exception is [None]. *)
Definition analyze_late_window (p : Params)
  (history : list StrategyDecision)
  (current_price anchor_price time_remaining_secs : Q)
  : option (StrategyDecision * list StrategyDecision) :=
  if Qleb anchor_price 0 then
    Some (mkDecision Signal.HOLD 0 [] current_price (Some anchor_price) None
            0 false NoAnchorPrice 0, history)
  else
    r ← qdiv (current_price - anchor_price) anchor_price;
    let drift_pct := r * 100 in
    let abs_drift := Qabs drift_pct in
    if Qltb abs_drift (min_drift_pct p) then
      Some (mkDecision Signal.HOLD 0 [] current_price (Some anchor_price)
              (Some drift_pct) 0 false
              (DriftBelowThreshold drift_pct (min_drift_pct p)) 0, history)
    else
      let direction := if Qltb 0 drift_pct then Signal.UP else Signal.DOWN in
      confidence ←
        (if Qleb (drift_scale_pct p) abs_drift then Some (max_confidence p)
         else
           t ← qdiv (abs_drift - min_drift_pct p)
                    (drift_scale_pct p - min_drift_pct p);
           Some (base_confidence p
                 + t * (max_confidence p - base_confidence p)));
      let confidence :=
        Qmin (max_confidence p) (Qmax (base_confidence p) confidence) in
      let confidence :=
        if Qltb time_remaining_secs 60
        then Qmin (max_confidence p) (confidence + (2 # 100))
        else confidence in
      s ← qdiv abs_drift (drift_scale_pct p);
      let signal :=
        Signal.mkSignal "late_window_drift" direction (Qmin 1 s) drift_pct in
      let decision :=
        mkDecision direction confidence [signal] current_price
          (Some anchor_price) (Some drift_pct) 0 true
          (LateWindowEntry direction drift_pct confidence
             time_remaining_secs)
          (Qmin (confidence * 100 * (25 # 100)) 10) in
      Some (decision, history ++ [decision]).

End LateWindow.


(** ** bot.py: clock synchronisation *)

Module Bot.

(** [_next_boundary] at clock reading [now]: computed from
    [datetime.fromtimestamp(now)], with the zone convention of
    [Oracle._current_window_boundary]. *)
Definition _next_boundary (interval_mins : Z) (now : Q) : Q :=
  let secs := fromtimestamp_second now in
  let hour_start := (secs - secs mod 3600)%Z in
  let minute := ((secs mod 3600) / 60)%Z in
  let interval := Z.max 1 interval_mins in
  let next_min := ((minute / interval + 1) * interval)%Z in
  if (60 <=? next_min)%Z then inject_Z (hour_start + 3600)
  else inject_Z (hour_start + next_min * 60).

(** [_next_5m_boundary]: the same computation with the literal 5. *)
Definition _next_5m_boundary (now : Q) : Q :=
  let secs := fromtimestamp_second now in
  let hour_start := (secs - secs mod 3600)%Z in
  let minute := ((secs mod 3600) / 60)%Z in
  let next_min := ((minute / 5 + 1) * 5)%Z in
  if (60 <=? next_min)%Z then inject_Z (hour_start + 3600)
  else inject_Z (hour_start + next_min * 60).



(** [_is_in_5m_entry_window]. *)
Definition _is_in_5m_entry_window (entry_lead_secs entry_window_secs : Z)
  (now : Q) : bool :=
  let secs := _next_5m_boundary now - inject_Z entry_lead_secs - now in
  Qleb (- inject_Z entry_window_secs) secs && Qleb secs 0.

(** [_is_also_15m_boundary]: the minute of the next 5m boundary is a
    multiple of 15. *)
Definition _is_also_15m_boundary (now : Q) : bool :=
  let boundary := Qfloor (_next_5m_boundary now) in
  (((boundary mod 3600) / 60) mod 15 =? 0)%Z.

End Bot.


(** ** core/market_maker.py: pricing and posting of quotes *)

Module Quoting.
Import Py MarketMaker.

(** An entry of the list [_calculate_quotes] returns. *)
Record Quote := mkQ {
  q_side : string;
  q_price : Q;
  q_size : Q;
  q_level : nat
}.

Definition set_stats (s : MMStats) (mm : MarketMaker) : MarketMaker :=
  mkMM (config mm) (_active_quotes mm) s (_day_start mm) (_cycle_count mm)
    (_known_markets mm) (_daily_fills_usd mm) (_yes_fills_usd mm)
    (_no_fills_usd mm) (_cancelled_order_ids mm).

(** [self._stats.skipped_extreme_price += 1]. *)
Definition bump_extreme (mm : MarketMaker) : MarketMaker :=
  let s := _stats mm in
  set_stats (mkStats (quotes_posted s) (quotes_filled s) (quotes_cancelled s)
               (quotes_rejected s) (total_fills_usd s) (yes_fills_usd s)
               (no_fills_usd s) (skipped_for_imbalance s)
               (skipped_extreme_price s + 1)) mm.

(** [self._stats.skipped_for_imbalance += 1]. *)
Definition bump_imbalance (mm : MarketMaker) : MarketMaker :=
  let s := _stats mm in
  set_stats (mkStats (quotes_posted s) (quotes_filled s) (quotes_cancelled s)
               (quotes_rejected s) (total_fills_usd s) (yes_fills_usd s)
               (no_fills_usd s) (skipped_for_imbalance s + 1)
               (skipped_extreme_price s)) mm.

(** [self._stats.quotes_rejected += 1]. *)
Definition bump_rejected (mm : MarketMaker) : MarketMaker :=
  let s := _stats mm in
  set_stats (mkStats (quotes_posted s) (quotes_filled s) (quotes_cancelled s)
               (quotes_rejected s + 1) (total_fills_usd s) (yes_fills_usd s)
               (no_fills_usd s) (skipped_for_imbalance s)
               (skipped_extreme_price s)) mm.

(** One [(side, price)] of the inner loop of [_calculate_quotes]; the
    price of a quote that is kept is at least 0.25, so the division does
    not raise. *)
Definition quote_side (level : nat) (acc : list Quote * MarketMaker)
  (sp : string * Q) : list Quote * MarketMaker :=
  let '(quotes, mm) := acc in
  let '(side, price) := sp in
  if Qltb price (25 # 100) || Qltb (75 # 100) price then
    (quotes, bump_extreme mm)
  else
    let shares := py_round (order_size_usd (config mm) / price) 1 in
    let shares := if Qltb shares 5 then 5 else shares in
    (quotes ++ [mkQ side price shares level], mm).

(** One level of the outer loop. *)
Definition quote_level (mid_price : Q) (acc : list Quote * MarketMaker)
  (level : nat) : list Quote * MarketMaker :=
  let cfg := config (snd acc) in
  let half_spread := inject_Z (spread_bps cfg) / 10000 in
  let level_step := inject_Z (level_spacing_bps cfg) / 10000 in
  let offset := half_spread + inject_Z (Z.of_nat level) * level_step in
  let yes_bid := py_round (mid_price - offset) 2 in
  let no_bid := py_round ((1 - mid_price) - offset) 2 in
  fold_left (quote_side level) [("YES", yes_bid); ("NO", no_bid)] acc.

(** [_calculate_quotes]: the quotes, and the maker with its skip counter
    advanced. *)
Definition _calculate_quotes (mid_price : Q) (mm : MarketMaker)
  : list Quote * MarketMaker :=
  fold_left (quote_level mid_price) (seq 0 (num_levels (config mm))) ([], mm).

Definition _get_imbalance (mm : MarketMaker) : Q * string :=
  let diff := _yes_fills_usd mm - _no_fills_usd mm in
  if Qltb 0 diff then (diff, "YES")
  else if Qltb diff 0 then (Qabs diff, "NO")
  else (0, "BALANCED").

(** What [place_maker_order] answers to the call number [n] of one
    [_post_quotes]: [None] for a falsy answer, else
    [resp.get("orderID", "")]. *)
Definition Place := nat -> string -> Q -> Q -> option string.

(** [self._active_quotes.append(...)] and
    [self._stats.quotes_posted += 1]. *)
Definition add_quote (q : ActiveQuote) (mm : MarketMaker) : MarketMaker :=
  let s := _stats mm in
  mkMM (config mm) (_active_quotes mm ++ [q])
    (mkStats (quotes_posted s + 1) (quotes_filled s) (quotes_cancelled s)
       (quotes_rejected s) (total_fills_usd s) (yes_fills_usd s)
       (no_fills_usd s) (skipped_for_imbalance s) (skipped_extreme_price s))
    (_day_start mm) (_cycle_count mm) (_known_markets mm)
    (_daily_fills_usd mm) (_yes_fills_usd mm) (_no_fills_usd mm)
    (_cancelled_order_ids mm).

(** The posting loop of [_post_quotes]; [calls] counts the orders sent so
    far, [now] is the clock. *)
Fixpoint post_loop (place : Place) (now : Q) (info : MarketInfo)
  (skip_side : option string) (calls : nat) (quotes : list Quote)
  (mm : MarketMaker) : MarketMaker :=
  match quotes with
  | [] => mm
  | q :: rest =>
      if (max_open_orders (config mm) <=? length (_active_quotes mm))%nat
      then mm
      else if match skip_side with
              | Some s => String.eqb (q_side q) s
              | None => false
              end
      then post_loop place now info skip_side calls rest mm
      else
        let token_id :=
          if String.eqb (q_side q) "YES" then token_yes info
          else token_no info in
        match place calls token_id (q_price q) (q_size q) with
        | Some order_id =>
            post_loop place now info skip_side (S calls) rest
              (add_quote
                 (mkQuote order_id token_id (mi_condition_id info)
                    ("BUY_" ++ q_side q) (q_price q) (q_size q) now
                    (mi_timeframe info)) mm)
        | None =>
            post_loop place now info skip_side (S calls) rest
              (bump_rejected mm)
        end
  end.

(** [_post_quotes]; [fee] is the outcome of [get_fee_rate_bps]. *)
Definition _post_quotes (place : Place) (fee : Result Z) (now : Q)
  (info : MarketInfo) (mid_price : Q) (mm : MarketMaker)
  : Result unit * MarketMaker :=
  if Qleb (max_daily_budget (config mm)) (_daily_fills_usd mm) then (Ok tt, mm)
  else if (max_open_orders (config mm) <=? length (_active_quotes mm))%nat
  then (Ok tt, mm)
  else
    let '(imbalance_usd, heavy_side) := _get_imbalance mm in
    let '(skip_side, mm) :=
      if Qleb (max_inventory_imbalance (config mm)) imbalance_usd
      then (Some heavy_side, bump_imbalance mm)
      else (None, mm) in
    match fee with
    | Raised e => (Raised e, mm)
    | Ok _ =>
        let '(quotes, mm) := _calculate_quotes mid_price mm in
        (Ok tt, post_loop place now info skip_side 0 quotes mm)
    end.

End Quoting.


(** ** core/polymarket_client.py: resolutions, pruning, statistics *)

Module Resolution.
Import Py Client.

(** A token of the market dictionary [get_market] returns:
    [t.get("winner", False)] and [t.get("outcome", "")]. *)
Record Token := mkToken {
  winner : bool;
  t_outcome : string
}.

(** The market dictionary: [get("closed", False)] and
    [get("tokens", [])]. *)
Record ClobMarket := mkClobMarket {
  closed : bool;
  tokens : list Token
}.

(** [get_market]: an exception (also when the payload cannot be read as
    above), or the value returned ([None] when falsy). *)
Inductive MarketAnswer :=
| MarketRaised
| MarketReturned (m : option ClobMarket).

(** The client together with [_archived_trades]. *)
Record Ledger := mkLedger {
  client : PolymarketClient;
  _archived_trades : list TradeRecord
}.

(** The loop over the tokens: the first token flagged as winner decides,
    and an outcome other than up, yes, down or no names no winner. *)
Definition winner_of (tokens : list Token) : option string :=
  match List.find winner tokens with
  | Some t =>
      let outcome_str := Str.lower (t_outcome t) in
      if String.eqb outcome_str "up" || String.eqb outcome_str "yes"
      then Some "up"
      else if String.eqb outcome_str "down" || String.eqb outcome_str "no"
      then Some "down"
      else None
  | None => None
  end.

(** [r.outcome = o]. *)
Definition set_outcome (o : string) (r : TradeRecord) : TradeRecord :=
  mkTrade (trade_id r) (timestamp r) (market_condition_id r) (direction r)
    (confidence r) (entry_price r) (size_usd r) (oracle_price_at_entry r)
    (Some o) (pnl r) (order_id r) (tx_hashes r).

(** [r.pnl = p]. *)
Definition set_pnl (p : Q) (r : TradeRecord) : TradeRecord :=
  mkTrade (trade_id r) (timestamp r) (market_condition_id r) (direction r)
    (confidence r) (entry_price r) (size_usd r) (oracle_price_at_entry r)
    (outcome r) p (order_id r) (tx_hashes r).

(** The body of the loop of [check_resolutions] for one record: the
    record as the loop leaves it, and the winner when the record is
    appended to [resolved].  Every exception inside the body is caught
    and moves on to the next record; the division by a zero entry price
    raises after the outcome has been written. *)
Definition resolve_one (answer : string -> MarketAnswer) (r : TradeRecord)
  : TradeRecord * option string :=
  match outcome r with
  | Some _ => (r, None)
  | None =>
      match answer (market_condition_id r) with
      | MarketRaised => (r, None)
      | MarketReturned None => (r, None)
      | MarketReturned (Some clob_mkt) =>
          if negb (closed clob_mkt) then (r, None)
          else
            match winner_of (tokens clob_mkt) with
            | None => (r, None)
            | Some w =>
                if String.eqb (direction r) w then
                  let r := set_outcome "win" r in
                  match qdiv (size_usd r) (entry_price r) with
                  | None => (r, None)
                  | Some shares =>
                      (set_pnl (py_round (shares - size_usd r) 4) r, Some w)
                  end
                else
                  let r := set_outcome "loss" r in
                  (set_pnl (py_round (- size_usd r) 4) r, Some w)
            end
      end
  end.

(** [m.resolved = True; m.resolution = winner] on the cached market. *)
Definition mark_resolved (w : string) (m : BinaryMarket) : BinaryMarket :=
  mkMarket (condition_id m) (question m) (slug m) (token_id_up m)
    (token_id_down m) (price_up m) (price_down m) (volume m) (liquidity m)
    (created_at m) (end_date m) (status m) (neg_risk m) (tick_size m) true
    (Some w).

(** The loop of [check_resolutions]: the records after it, the list
    [resolved], and the market cache. *)
Fixpoint resolve_all (answer : string -> MarketAnswer)
  (records : list TradeRecord) (markets : gmap string BinaryMarket)
  : list TradeRecord * list TradeRecord * gmap string BinaryMarket :=
  match records with
  | [] => ([], [], markets)
  | r :: rest =>
      let '(r', won_by) := resolve_one answer r in
      let markets :=
        match won_by with
        | Some w =>
            match markets !! market_condition_id r with
            | Some m => <[market_condition_id r := mark_resolved w m]> markets
            | None => markets
            end
        | None => markets
        end in
      let '(rs, resolved, markets) := resolve_all answer rest markets in
      (r' :: rs,
       match won_by with Some _ => r' :: resolved | None => resolved end,
       markets)
  end.

(** [r.outcome is not None and r.timestamp < cutoff]. *)
Definition prunable (cutoff : Q) (r : TradeRecord) : bool :=
  match outcome r with
  | Some _ => Qltb (timestamp r) cutoff
  | None => false
  end.

(** [_prune_resolved]: the records kept and the archive. *)
Definition _prune_resolved (now : Q) (records archived : list TradeRecord)
  : list TradeRecord * list TradeRecord :=
  let cutoff := now - 3600 in
  (List.filter (fun r => negb (prunable cutoff r)) records,
   archived ++ List.filter (prunable cutoff) records).

(** [check_resolutions]. *)
Definition check_resolutions (v : Venue) (answer : string -> MarketAnswer)
  (now : Q) (l : Ledger) : Result (list TradeRecord) * Ledger :=
  match _ensure_clob v (client l) with
  | Raised e => (Raised e, l)
  | Ok c =>
      let '(rs, resolved, markets) :=
        resolve_all answer (_trade_records c) (_active_markets c) in
      let '(still_active, archived) :=
        _prune_resolved now rs (_archived_trades l) in
      (Ok resolved,
       mkLedger (mkClient (config c) (_clob_initialized c) markets
                   still_active) archived)
  end.

(** [sum(r.size_usd for r in all_trades)] of [get_stats], before
    rounding. *)
Definition total_wagered (l : Ledger) : Q :=
  fold_left Qplus
    (map size_usd (_trade_records (client l) ++ _archived_trades l)) 0.

(** [get_trade_records]. *)
Definition get_trade_records (l : Ledger) : list TradeRecord :=
  _archived_trades l ++ _trade_records (client l).

End Resolution.


(** ** core/polymarket_client.py: the window filter *)

Module Window.

Section Filter.

Context {Market : Type}.

(** [get_market_window_ts]: the timestamp at the end of the slug, when
    the slug has one. *)
Variable get_market_window_ts : Market -> option Z.

Definition in_next_window (next_boundary : Z) (m : Market) : bool :=
  match get_market_window_ts m with
  | None => true
  | Some ts => (ts =? next_boundary)%Z
  end.

Definition in_current_window (current_boundary next_boundary : Z)
  (m : Market) : bool :=
  match get_market_window_ts m with
  | None => false
  | Some ts => negb (ts =? next_boundary)%Z && (ts =? current_boundary)%Z
  end.

Definition nonempty {A} (l : list A) : bool :=
  match l with [] => false | _ => true end.

(** [filter_current_window]; [now] is [int(time.time())], and a zero
    interval is a [ZeroDivisionError]. *)
Definition filter_current_window (now : Z) (markets : list Market)
  (interval_minutes : Z) : option (list Market) :=
  let interval_secs := (interval_minutes * 60)%Z in
  if (interval_secs =? 0)%Z then None
  else
    let current_boundary := (now / interval_secs * interval_secs)%Z in
    let next_boundary := (current_boundary + interval_secs)%Z in
    let next_window := List.filter (in_next_window next_boundary) markets in
    let current_window :=
      List.filter (in_current_window current_boundary next_boundary)
        markets in
    let elapsed := (now - current_boundary)%Z in
    let close_to_boundary := (interval_secs - 90 <=? elapsed)%Z in
    if nonempty next_window && close_to_boundary then Some next_window
    else if nonempty current_window && negb close_to_boundary
    then Some current_window
    else if nonempty next_window then Some next_window
    else if nonempty current_window then Some current_window
    else Some markets.

End Filter.

End Window.

(** * Properties *)

(** ** Numeric helpers *)

Lemma Qltb_lt a b : Qltb a b = true <-> a < b.
Proof.
  unfold Qltb. rewrite Qlt_alt.
  destruct (Qcompare a b); split; intro H; try discriminate; auto.
Qed.

Lemma Qltb_ge a b : Qltb a b = false <-> b <= a.
Proof.
  split; intro H.
  - apply Qnot_lt_le. intro L. apply Qltb_lt in L. congruence.
  - destruct (Qltb a b) eqn:E; auto.
    apply Qltb_lt in E. exfalso. eapply Qlt_not_le; eauto.
Qed.

Lemma Qleb_le a b : Qleb a b = true <-> a <= b.
Proof. apply Qle_bool_iff. Qed.

Lemma Qleb_gt a b : Qleb a b = false <-> b < a.
Proof.
  split; intro H.
  - apply Qnot_le_lt. intro L. apply Qleb_le in L. congruence.
  - destruct (Qleb a b) eqn:E; auto.
    apply Qleb_le in E. exfalso. eapply Qlt_not_le; eauto.
Qed.

Lemma Qeqb_eq a b : Qeqb a b = true <-> a == b.
Proof. apply Qeq_bool_iff. Qed.

Lemma Qmin_le_r_of a b : Qmin a b <= b.
Proof. apply Q.le_min_r. Qed.

Lemma Qmin_le_l_of a b : Qmin a b <= a.
Proof. apply Q.le_min_l. Qed.

Lemma round_half_even_comp (x y : Q) :
  x == y -> round_half_even x = round_half_even y.
Proof.
  intro E. unfold round_half_even.
  rewrite <- (Qfloor_comp _ _ E).
  assert (C : Qcompare (x - inject_Z (Qfloor x)) (1 # 2)
            = Qcompare (y - inject_Z (Qfloor x)) (1 # 2))
    by (apply Qcompare_comp;
        [apply Qplus_comp; [exact E | reflexivity] | reflexivity]).
  rewrite C. reflexivity.
Qed.

Lemma py_round_comp (x y : Q) (n : nat) :
  x == y -> py_round x n == py_round y n.
Proof.
  intro E. unfold py_round.
  rewrite (round_half_even_comp (x * pow10 n) (y * pow10 n)).
  - reflexivity.
  - apply Qmult_comp; [exact E | reflexivity].
Qed.

(** Case analysis on every [min] and [max] in sight; the results are
    left to linear arithmetic. *)
Ltac name_min a b :=
  let m := fresh "m" in
  destruct (Q.min_spec a b) as [[? ?] | [? ?]];
  set (m := Qmin a b) in *; clearbody m.

Ltac name_max a b :=
  let m := fresh "m" in
  destruct (Q.max_spec a b) as [[? ?] | [? ?]];
  set (m := Qmax a b) in *; clearbody m.

Ltac split_minmax :=
  repeat match goal with
  | |- context [Qmin ?a ?b] => name_min a b
  | |- context [Qmax ?a ?b] => name_max a b
  | _ : context [Qmin ?a ?b] |- _ => name_min a b
  | _ : context [Qmax ?a ?b] |- _ => name_max a b
  end.

Lemma clamp_floor_commutes (raw P MT mt : Q) :
  mt <= P ->
  Qmax (Qmin (Qmin raw P) MT) mt == Qmin (Qmax mt (Qmin raw MT)) P.
Proof. intro L. split_minmax; lra. Qed.

Lemma floor_above_cap (raw P MT mt : Q) :
  P < mt -> Qmax (Qmin (Qmin raw P) MT) mt == mt.
Proof. intro L. split_minmax; lra. Qed.

(** ** Risk manager *)

Section PositionSizing.
Import Risk.

Variable rm : RiskManager.
Variable c : Q.

Let raw : Q := capital rm * (Qmax 0 (2 * c - 1) * kelly_fraction (config rm)).
Let pct_cap : Q := capital rm * (max_trade_pct (config rm) / 100).

Lemma position_size_no_capital :
  capital rm <= 0 -> calculate_position_size rm c = 0.
Proof.
  intro L. unfold calculate_position_size.
  apply Qleb_le in L. rewrite L. reflexivity.
Qed.

Lemma position_size_unfold :
  0 < capital rm ->
  calculate_position_size rm c =
  py_round
    (Qmin (Qmax (Qmin (Qmin raw pct_cap) (max_trade_size_usd (config rm)))
                (min_trade_size_usd (config rm)))
          (capital rm)) 2.
Proof.
  intro L. unfold calculate_position_size.
  apply Qleb_gt in L. rewrite L. reflexivity.
Qed.

Lemma spec_size_unfold :
  0 < capital rm ->
  spec_position_size rm c =
  py_round
    (Qmin (Qmin (Qmax (min_trade_size_usd (config rm))
                      (Qmin (capital rm * Qmax 0 (2 * c - 1)
                             * kelly_fraction (config rm))
                            (max_trade_size_usd (config rm))))
                (capital rm * max_trade_pct (config rm) / 100))
          (capital rm)) 2.
Proof.
  intro L. unfold spec_position_size.
  apply Qleb_gt in L. rewrite L. reflexivity.
Qed.

Lemma position_size_meets_spec :
  0 < capital rm ->
  min_trade_size_usd (config rm) <= pct_cap ->
  calculate_position_size rm c == spec_position_size rm c.
Proof.
  intros L F.
  rewrite position_size_unfold, spec_size_unfold by exact L.
  apply py_round_comp.
  apply Q.min_compat; [| reflexivity].
  rewrite clamp_floor_commutes by exact F.
  apply Q.min_compat.
  - apply Q.max_compat; [reflexivity |].
    apply Q.min_compat; [| reflexivity].
    unfold raw. ring.
  - unfold pct_cap. field.
Qed.

Lemma position_size_floor_wins :
  0 < capital rm ->
  pct_cap < min_trade_size_usd (config rm) ->
  calculate_position_size rm c
  == py_round (Qmin (min_trade_size_usd (config rm)) (capital rm)) 2.
Proof.
  intros L F.
  rewrite position_size_unfold by exact L.
  apply py_round_comp.
  apply Q.min_compat; [| reflexivity].
  apply floor_above_cap. exact F.
Qed.

Lemma position_size_scenario :
  capital rm == 500 -> c == 85 # 100 ->
  kelly_fraction (config rm) == 1 # 4 ->
  max_trade_pct (config rm) == 5 ->
  max_trade_size_usd (config rm) == 25 ->
  min_trade_size_usd (config rm) <= 25 ->
  calculate_position_size rm c == 25.
Proof.
  intros Hcap Hc Hk Hp Hm Hf.
  assert (L : 0 < capital rm) by (rewrite Hcap; reflexivity).
  rewrite position_size_unfold by exact L.
  assert (E : Qmin (Qmax (Qmin (Qmin raw pct_cap)
                                (max_trade_size_usd (config rm)))
                         (min_trade_size_usd (config rm)))
                   (capital rm) == 25).
  { assert (R : raw == 175 # 2).
    { unfold raw. rewrite Hcap, Hc, Hk.
      assert (K : Qmax 0 (2 * (85 # 100) - 1) == 7 # 10) by reflexivity.
      rewrite K. reflexivity. }
    assert (P : pct_cap == 25).
    { unfold pct_cap. rewrite Hcap, Hp. reflexivity. }
    rewrite R, P, Hm, Hcap.
    assert (A : Qmin (Qmin (175 # 2) 25) 25 == 25) by reflexivity.
    rewrite A.
    assert (B : Qmax 25 (min_trade_size_usd (config rm)) == 25)
      by (apply Q.max_l; exact Hf).
    rewrite B. reflexivity. }
  rewrite (py_round_comp _ _ 2 E). reflexivity.
Qed.

End PositionSizing.

(** C3, as stated, fails: with the default limits and a bankroll of 10 the
    percentage cap is 0.50, yet the code returns the 1.00 floor, which is
    neither the spec's clamp nor below the cap. *)
Lemma position_size_exceeds_pct_cap :
  let rm := Risk.init Risk.default_config 10 "2026-01-01" in
  ~ (Risk.calculate_position_size rm (85 # 100)
     == Risk.spec_position_size rm (85 # 100))
  /\ Risk.capital rm * (Risk.max_trade_pct (Risk.config rm) / 100)
     < Risk.calculate_position_size rm (85 # 100).
Proof.
  split.
  - vm_compute. intro H. discriminate H.
  - vm_compute. reflexivity.
Qed.

(** C3 (amended): [calculate_position_size] returns 0 without capital;
    with capital it agrees with the spec's clamp whenever the [min_trade]
    floor does not exceed the percentage cap, and otherwise returns
    [min(min_trade, capital)] rounded to cents; in the scenario of the
    spec (capital 500, confidence 0.85, quarter Kelly, 5%, max 25) the
    size is 25. *)
Theorem position_size_refines_spec (rm : Risk.RiskManager) (c : Q) :
  (Risk.capital rm <= 0 -> Risk.calculate_position_size rm c == 0)
  /\ (0 < Risk.capital rm ->
      Risk.min_trade_size_usd (Risk.config rm)
      <= Risk.capital rm * (Risk.max_trade_pct (Risk.config rm) / 100) ->
      Risk.calculate_position_size rm c == Risk.spec_position_size rm c)
  /\ (0 < Risk.capital rm ->
      Risk.capital rm * (Risk.max_trade_pct (Risk.config rm) / 100)
      < Risk.min_trade_size_usd (Risk.config rm) ->
      Risk.calculate_position_size rm c
      == py_round (Qmin (Risk.min_trade_size_usd (Risk.config rm))
                        (Risk.capital rm)) 2)
  /\ (Risk.capital rm == 500 -> c == 85 # 100 ->
      Risk.kelly_fraction (Risk.config rm) == 1 # 4 ->
      Risk.max_trade_pct (Risk.config rm) == 5 ->
      Risk.max_trade_size_usd (Risk.config rm) == 25 ->
      Risk.min_trade_size_usd (Risk.config rm) <= 25 ->
      Risk.calculate_position_size rm c == 25).
Proof.
  split; [| split; [| split]].
  - intro L. rewrite position_size_no_capital by exact L. reflexivity.
  - apply position_size_meets_spec.
  - apply position_size_floor_wins.
  - apply position_size_scenario.
Qed.

Lemma position_size_refines_spec_witness :
  let rm := Risk.init Risk.default_config 500 "2026-01-01" in
  Risk.calculate_position_size rm (85 # 100)
  == Risk.spec_position_size rm (85 # 100)
  /\ Risk.calculate_position_size rm (85 # 100) == 25.
Proof.
  set (rm := Risk.init Risk.default_config 500 "2026-01-01").
  pose proof (position_size_refines_spec rm (85 # 100)) as [_ [A [_ B]]].
  split.
  - apply A; vm_compute; [reflexivity | discriminate].
  - apply B; vm_compute; try reflexivity; discriminate.
Defined.

Section Rollover.
Import Risk.

Lemma reset_idempotent (today : string) (rm : RiskManager) :
  _reset_daily_if_needed today (_reset_daily_if_needed today rm)
  = _reset_daily_if_needed today rm.
Proof.
  unfold _reset_daily_if_needed at 2 3.
  destruct (String.eqb (date (_daily rm)) today) eqn:E; simpl.
  - unfold _reset_daily_if_needed. rewrite E. reflexivity.
  - unfold _reset_daily_if_needed. simpl. rewrite String.eqb_refl.
    reflexivity.
Qed.

Lemma reset_on_new_day (today : string) (rm : RiskManager) :
  date (_daily rm) <> today ->
  _reset_daily_if_needed today rm
  = set_daily (fresh_daily today (capital rm)) rm.
Proof.
  intro N. unfold _reset_daily_if_needed.
  apply String.eqb_neq in N. rewrite N. reflexivity.
Qed.

Lemma entry_point_resets_first (e : EntryPoint) (now : Q) (today : string)
  (rm : RiskManager) :
  resets_daily e = true ->
  state_after e now today rm
  = state_after e now today (_reset_daily_if_needed today rm).
Proof.
  destruct e; simpl; intro R; try discriminate R;
    unfold can_trade, record_trade, get_status, can_late_window_trade,
      record_late_window_trade, can_trade_5m, record_5m_trade;
    rewrite ?reset_idempotent; reflexivity.
Qed.

End Rollover.

(** C9, as stated, fails for the sizing methods: they are public entry
    points, yet on a new UTC date they leave yesterday's record (here with
    its one trade and one loss) in place. *)
Lemma rollover_skipped_by_sizing :
  let rm := Risk.record_trade 100 "2026-01-01" (-5)
              (Risk.init Risk.default_config 500 "2026-01-01") in
  let rm' := Risk.state_after (Risk.CalculatePositionSize (85 # 100))
               200 "2026-01-02" rm in
  Risk.date (Risk._daily rm) <> "2026-01-02"
  /\ Risk.date (Risk._daily rm') = "2026-01-01"
  /\ Risk.trades (Risk._daily rm') = 1%Z
  /\ Risk.losses (Risk._daily rm') = 1%Z.
Proof. simpl. repeat split; discriminate. Qed.

(** C9 (amended): every entry point that consults the daily record
    (can_trade, record_trade, get_status, can_late_window_trade,
    record_late_window_trade, can_trade_5m, record_5m_trade) first rolls it
    over when the UTC date differs: it then runs on a fresh record dated
    today whose counters are zero and whose start_of_day_capital is the
    current capital, and the rollover leaves capital and total_pnl
    unchanged.  The three sizing methods never roll over. *)
Theorem daily_rollover_frame (e : Risk.EntryPoint) (now : Q) (today : string)
  (rm : Risk.RiskManager) :
  Risk.resets_daily e = true ->
  Risk.date (Risk._daily rm) <> today ->
  let r := Risk._reset_daily_if_needed today rm in
  Risk.state_after e now today rm = Risk.state_after e now today r
  /\ Risk._daily r = Risk.fresh_daily today (Risk.capital rm)
  /\ Risk.date (Risk._daily r) = today
  /\ Risk.start_of_day_capital (Risk._daily r) = Risk.capital rm
  /\ Risk.trades (Risk._daily r) = 0%Z
  /\ Risk.wins (Risk._daily r) = 0%Z
  /\ Risk.losses (Risk._daily r) = 0%Z
  /\ Risk.total_pnl (Risk._daily r) = 0
  /\ Risk.consecutive_losses (Risk._daily r) = 0%Z
  /\ Risk.cooldown_until (Risk._daily r) = 0
  /\ Risk.late_window_trades (Risk._daily r) = 0%Z
  /\ Risk.late_window_spent (Risk._daily r) = 0
  /\ Risk.trades_5m (Risk._daily r) = 0%Z
  /\ Risk.spent_5m (Risk._daily r) = 0
  /\ Risk.consecutive_losses_5m (Risk._daily r) = 0%Z
  /\ Risk.cooldown_until_5m (Risk._daily r) = 0
  /\ Risk.capital r = Risk.capital rm
  /\ Risk._total_pnl r = Risk._total_pnl rm
  /\ Risk.config r = Risk.config rm.
Proof.
  intros R N r. split.
  - apply entry_point_resets_first. exact R.
  - subst r. rewrite (reset_on_new_day today rm N). simpl.
    repeat split; reflexivity.
Qed.

Lemma daily_rollover_frame_witness :
  let rm := Risk.record_trade 100 "2026-01-01" (-5)
              (Risk.init Risk.default_config 500 "2026-01-01") in
  let r := Risk._reset_daily_if_needed "2026-01-02" rm in
  Risk.state_after (Risk.RecordTrade 3) 200 "2026-01-02" rm
  = Risk.state_after (Risk.RecordTrade 3) 200 "2026-01-02" r
  /\ Risk._daily r = Risk.fresh_daily "2026-01-02" (Risk.capital rm).
Proof.
  intros rm r.
  pose proof (daily_rollover_frame (Risk.RecordTrade 3) 200 "2026-01-02" rm)
    as H.
  destruct H as [A [B _]].
  - reflexivity.
  - simpl. discriminate.
  - split; [exact A | exact B].
Defined.

(** ** Strategy engine *)

Section Analyze.
Import Signal.

Variable sqrt : Q -> Q.

(** What [analyze] returns: either an early HOLD with confidence 0, or
    the scored decision, which the agreement filter forbids to trade. *)
Lemma analyze_inv cfg history candles current_price open_price fee_pct d h :
  analyze sqrt cfg history candles current_price open_price fee_pct
  = Some (d, h) ->
  (d_direction d = HOLD /\ confidence d = 0 /\ should_trade d = false)
  \/ exists pvo inds up_score down_score,
      anchor_signal current_price open_price = Some pvo
      /\ indicators cfg candles = Some inds
      /\ score (weights_for cfg (anchor_present open_price))
               (option_list pvo ++ inds) = (up_score, down_score)
      /\ signals d = option_list pvo ++ inds
      /\ drift_pct d = raw_value <$> pvo
      /\ d_direction d = fst (choose up_score down_score)
      /\ confidence d = snd (choose up_score down_score)
      /\ (agreement_filter (anchor_present open_price) (d_direction d)
            (signals d) (drift_pct d) <> None ->
          should_trade d = false).
Proof.
  unfold analyze. intro H.
  destruct (length candles <? 30)%nat.
  { left. injection H as <- _. auto. }
  destruct (_volatility sqrt _) as [volatility|]; simpl in H;
    [| discriminate].
  destruct (Qltb volatility _).
  { left. injection H as <- _. auto. }
  destruct (Qltb _ volatility).
  { left. injection H as <- _. auto. }
  destruct (anchor_signal _ _) as [pvo|]; simpl in H; [| discriminate].
  destruct (indicators _ _) as [inds|]; simpl in H; [| discriminate].
  destruct (chop_filter _ _ _) as [chop|]; simpl in H; [| discriminate].
  destruct chop.
  { left. injection H as <- _. auto. }
  right. exists pvo, inds.
  destruct (score _ _) as [up_score down_score].
  exists up_score, down_score.
  destruct (choose up_score down_score) as [dir conf] eqn:C.
  destruct (agreement_filter _ dir _ _) as [why|] eqn:A.
  { injection H as <- _. simpl. rewrite A. repeat split; auto. }
  destruct (Qltb _ _ && _).
  { injection H as <- _. simpl. rewrite A. repeat split; auto.  }
  injection H as <- _. simpl. rewrite A.
  repeat split; auto. intro N. contradiction.
Qed.

End Analyze.

(** Splitting a successful run of option-valued code into its branches. *)
Ltac run_cases H :=
  repeat (match type of H with
          | context [mbind _ ?x] => destruct x eqn:?; simpl in H
          | context [fmap _ ?x] => destruct x eqn:?; simpl in H
          | context [if ?b then _ else _] => destruct b eqn:?
          | context [match ?x with _ => _ end] =>
              destruct x eqn:?; simpl in H
          end; try discriminate H).

Section SignalNames.
Import Signal.

Lemma price_vs_open_name cur p s :
  _signal_price_vs_open cur p = Some s -> name s = "price_vs_open".
Proof.
  unfold _signal_price_vs_open. intro H.
  run_cases H; injection H as <-; reflexivity.
Qed.

Lemma price_vs_open_raw cur p s :
  _signal_price_vs_open cur p = Some s -> drift_of cur p = Some (raw_value s).
Proof.
  unfold _signal_price_vs_open, drift_of. intro H.
  destruct (qdiv (cur - p) p); simpl in *; [| discriminate].
  injection H as <-. reflexivity.
Qed.

Lemma momentum_name cfg cs s :
  _signal_momentum cfg cs = Some s -> name s = "momentum".
Proof.
  unfold _signal_momentum. intro H. run_cases H;
    injection H as <-; reflexivity.
Qed.

Lemma rsi_name cfg cs s : _signal_rsi cfg cs = Some s -> name s = "rsi".
Proof.
  unfold _signal_rsi. intro H.
  destruct (_rsi _ _); simpl in H; [| discriminate].
  run_cases H; injection H as <-; reflexivity.
Qed.

Lemma macd_name cfg cs s : _signal_macd cfg cs = Some s -> name s = "macd".
Proof.
  unfold _signal_macd. intro H.
  destruct (_macd (map close cs) _ _ _) as [[[m sl] hist]|]; simpl in H;
    [| discriminate].
  destruct (qdiv _ _); simpl in H; [| discriminate].
  destruct (2 <? _)%nat.
  - destruct (_macd _ _ _ _); simpl in H; [| discriminate].
    destruct (Qltb _ _); injection H as <-; reflexivity.
  - injection H as <-; reflexivity.
Qed.

Lemma ema_cross_name cfg cs s :
  _signal_ema_cross cfg cs = Some s -> name s = "ema_cross".
Proof.
  unfold _signal_ema_cross. intro H.
  destruct (_ema _ (ema_fast cfg)) as [ef|]; simpl in H; [| discriminate].
  destruct (_ema _ (ema_slow cfg)) as [es|]; simpl in H; [| discriminate].
  destruct (last ef), (last es); try (injection H as <-; reflexivity).
  run_cases H; injection H as <-; reflexivity.
Qed.

(** None of the four indicators is called price_vs_open, so an indicator
    votes exactly when its direction is not HOLD. *)
Lemma indicators_vote cfg cs inds :
  indicators cfg cs = Some inds ->
  Forall (fun s => is_indicator_vote s = negb (dir_eqb (direction s) HOLD))
         inds.
Proof.
  unfold indicators. intro H.
  destruct (_signal_momentum _ _) as [a|] eqn:A; simpl in H; [| discriminate].
  destruct (_signal_rsi _ _) as [b|] eqn:B; simpl in H; [| discriminate].
  destruct (_signal_macd _ _) as [c|] eqn:C; simpl in H; [| discriminate].
  destruct (_signal_ema_cross _ _) as [e|] eqn:E; simpl in H;
    [| discriminate].
  injection H as <-.
  apply momentum_name in A. apply rsi_name in B.
  apply macd_name in C. apply ema_cross_name in E.
  unfold is_indicator_vote.
  repeat constructor; rewrite ?A, ?B, ?C, ?E; reflexivity.
Qed.

Lemma filter_votes (f : Signal -> bool) (inds : list Signal) :
  Forall (fun s => is_indicator_vote s = negb (dir_eqb (direction s) HOLD))
         inds ->
  List.filter f (List.filter is_indicator_vote inds)
  = List.filter (fun s => negb (dir_eqb (direction s) HOLD) && f s) inds.
Proof.
  induction 1 as [| s l V _ IH]; simpl; [reflexivity |].
  rewrite V. destruct (negb (dir_eqb (direction s) HOLD)); simpl.
  - rewrite IH. reflexivity.
  - exact IH.
Qed.

Lemma filter_length_le {A} (f : A -> bool) (l : list A) :
  (length (List.filter f l) <= length l)%nat.
Proof.
  induction l as [| x l IH]; simpl; [lia |].
  destruct (f x); simpl; lia.
Qed.

(** With the anchor signal in front, the count the filter uses is the
    number of opposing indicators. *)
Lemma disagree_count_opposing cfg cs inds pvo dir :
  indicators cfg cs = Some inds ->
  name pvo = "price_vs_open" ->
  opposing cfg cs dir = Some (disagree_count dir (pvo :: inds)).
Proof.
  intros I N. unfold opposing, disagree_count. rewrite I. simpl.
  unfold is_indicator_vote at 1. rewrite N. simpl.
  rewrite (filter_votes _ inds (indicators_vote _ _ _ I)). reflexivity.
Qed.

Lemma agreement_filter_fires dir sigs drift :
  dir <> HOLD ->
  ((2 <= disagree_count dir sigs)%nat /\ Qabs drift < 10 # 100
   \/ (3 <= disagree_count dir sigs)%nat) ->
  agreement_filter true dir sigs (Some drift) <> None.
Proof.
  intros D H. unfold agreement_filter.
  assert (E : dir_eqb dir HOLD = false) by (destruct dir; try reflexivity; congruence).
  rewrite E. cbn [negb andb].
  assert (L : (disagree_count dir sigs
               <= length (List.filter is_indicator_vote sigs))%nat)
    by apply filter_length_le.
  assert (G : (2 <=? length (List.filter is_indicator_vote sigs))%nat = true)
    by (apply Nat.leb_le; lia).
  rewrite G.
  destruct H as [[H2 Hd] | H3].
  - apply Qltb_lt in Hd. rewrite Hd.
    apply Nat.leb_le in H2. rewrite H2. simpl. discriminate.
  - destruct (Qltb _ _ && _); [discriminate |].
    apply Nat.leb_le in H3. rewrite H3. discriminate.
Qed.


End SignalNames.

Section AnalyzeClaims.
Import Signal.

Lemma positive_anchor p : 0 < p -> truthy p && Qltb 0 p = true.
Proof.
  intro P. unfold truthy.
  assert (E : Qeqb p 0 = false).
  { destruct (Qeqb p 0) eqn:E; [| reflexivity].
    apply Qeqb_eq in E. lra. }
  rewrite E. simpl. apply Qltb_lt. exact P.
Qed.

End AnalyzeClaims.

(** C7: with an anchor present and a weighted direction other than HOLD,
    [analyze] never sets should_trade when at least two of the four
    indicators oppose that direction on a drift below 0.10%, or when at
    least three oppose it at any drift. *)
Theorem agreement_filter_blocks (sqrt : Q -> Q) (cfg : Signal.StrategyConfig)
  (history : list Signal.StrategyDecision) (candles : list Signal.Candle)
  (current_price p : Q) (fee_pct : option Q)
  (d : Signal.StrategyDecision) (h : list Signal.StrategyDecision)
  (dir : Signal.MarketDirection) (n : nat) (drift : Q) :
  Signal.analyze sqrt cfg history candles current_price (Some p) fee_pct
  = Some (d, h) ->
  0 < p ->
  Signal.weighted_direction cfg candles current_price p = Some dir ->
  dir <> Signal.HOLD ->
  Signal.opposing cfg candles dir = Some n ->
  Signal.drift_of current_price p = Some drift ->
  ((2 <= n)%nat /\ Qabs drift < 10 # 100) \/ (3 <= n)%nat ->
  Signal.should_trade d = false.
Proof.
  intros A P W D O Dr C.
  apply analyze_inv in A
    as [[_ [_ S]] | (pvo & inds & up & down & AS & I & SC & Sg & Dp & Dd
                     & _ & F)];
    [exact S |].
  unfold Signal.anchor_signal in AS.
  unfold Signal.anchor_present in SC, F.
  rewrite (positive_anchor p P) in AS, SC, F.
  destruct (Signal._signal_price_vs_open current_price p) as [s|] eqn:PV;
    simpl in AS; [| discriminate].
  injection AS as <-. simpl in SC, Sg, Dp.
  unfold Signal.weighted_direction in W.
  rewrite PV, I in W. simpl in W. rewrite SC in W. injection W as W.
  apply F. rewrite Dd, Sg, Dp, W.
  apply agreement_filter_fires; [exact D |].
  rewrite (disagree_count_opposing cfg candles inds s dir I
             (price_vs_open_name _ _ _ PV)) in O.
  injection O as <-.
  rewrite (price_vs_open_raw _ _ _ PV) in Dr. injection Dr as <-.
  exact C.
Qed.

(** The sample run behind the witness below does return a decision. *)
Lemma step_sample_low_drift_runs :
  Signal.analyze Signal.sqrt_approx Samples.wide_config []
    Samples.step_candles 10009 (Some 10000) None <> None.
Proof. vm_compute. discriminate. Qed.

Lemma agreement_filter_blocks_witness :
  match Signal.analyze Signal.sqrt_approx Samples.wide_config []
          Samples.step_candles 10009 (Some 10000) None with
  | Some (d, _) => Signal.should_trade d = false
  | None => False
  end.
Proof.
  destruct (Signal.analyze Signal.sqrt_approx Samples.wide_config []
              Samples.step_candles 10009 (Some 10000) None)
    as [[d h]|] eqn:A.
  - apply (agreement_filter_blocks Signal.sqrt_approx Samples.wide_config
             [] Samples.step_candles 10009 10000 None d h
             Signal.UP 2 (900 # 10000) A).
    + reflexivity.
    + vm_compute. reflexivity.
    + discriminate.
    + vm_compute. reflexivity.
    + vm_compute. reflexivity.
    + left. split; [lia | vm_compute; reflexivity].
  - exact (step_sample_low_drift_runs A).
Defined.


Lemma step_sample_high_drift_runs :
  Signal.analyze Signal.sqrt_approx Samples.wide_config []
    Samples.step_candles 10020 (Some 10000) None <> None.
Proof. vm_compute. discriminate. Qed.


Section HoldStrength.
Import Signal.

Lemma sign_direction_hold x : sign_direction x = HOLD -> x == 0.
Proof.
  unfold sign_direction.
  destruct (Qltb 0 x) eqn:A; [discriminate |].
  destruct (Qltb x 0) eqn:B; [discriminate |].
  intros _. apply Qltb_ge in A. apply Qltb_ge in B. lra.
Qed.

Lemma qdiv_zero_num a b q : a == 0 -> qdiv a b = Some q -> q == 0.
Proof.
  unfold qdiv. intros Z H.
  destruct (Qeqb b 0); [discriminate |].
  injection H as <-. rewrite Z. unfold Qdiv. ring.
Qed.

Lemma Qabs_zero x : x == 0 -> Qabs x == 0.
Proof. intro Z. rewrite Z. reflexivity. Qed.

Lemma Qmin_one_zero x : x == 0 -> Qmin 1 x == 0.
Proof. intro Z. rewrite Z. reflexivity. Qed.

(** The momentum generator clears the strength when it holds. *)
Lemma momentum_hold_strength cfg cs s :
  _signal_momentum cfg cs = Some s -> direction s = HOLD -> strength s = 0.
Proof.
  unfold _signal_momentum. intro H.
  run_cases H; injection H as <-; simpl; intro D;
    try discriminate D; reflexivity.
Qed.

(** The RSI generator never holds. *)
Lemma rsi_never_holds cfg cs s :
  _signal_rsi cfg cs = Some s -> direction s <> HOLD.
Proof.
  unfold _signal_rsi. intro H.
  destruct (_rsi _ _); simpl in H; [| discriminate].
  run_cases H; injection H as <-; simpl; discriminate.
Qed.

(** MACD holds only on a zero histogram, whose strength is zero. *)
Lemma macd_hold_strength cfg cs s :
  _signal_macd cfg cs = Some s -> direction s = HOLD -> strength s == 0.
Proof.
  unfold _signal_macd. intro H.
  destruct (_macd (map close cs) _ _ _) as [[[m sl] hist]|]; simpl in H;
    [| discriminate].
  destruct (qdiv _ _) as [q|] eqn:Q; simpl in H; [| discriminate].
  assert (Z : sign_direction hist = HOLD -> Qmin 1 (q * 10000 / 10) == 0).
  { intro D. apply sign_direction_hold in D.
    apply Qmin_one_zero.
    rewrite (qdiv_zero_num _ _ _ (Qabs_zero _ D) Q). reflexivity. }
  destruct (2 <? _)%nat.
  - destruct (_macd _ _ _ _) as [prev|]; simpl in H; [| discriminate].
    destruct (Qltb _ _) eqn:B; injection H as <-; simpl; intro D.
    + exfalso. apply Qltb_lt in B. apply sign_direction_hold in D.
      rewrite D in B. ring_simplify in B. lra.
    + apply Z. exact D.
  - injection H as <-. simpl. exact Z.
Qed.

(** The EMA cross holds only on a zero spread, whose strength is zero. *)
Lemma ema_cross_hold_strength cfg cs s :
  _signal_ema_cross cfg cs = Some s -> direction s = HOLD ->
  strength s == 0.
Proof.
  unfold _signal_ema_cross. intro H.
  destruct (_ema _ (ema_fast cfg)) as [ef|]; simpl in H; [| discriminate].
  destruct (_ema _ (ema_slow cfg)) as [es|]; simpl in H; [| discriminate].
  destruct (last ef) as [f|], (last es) as [sl|];
    try (injection H as <-; simpl; reflexivity).
  destruct (last (map close cs)) as [c|]; simpl in H; [| discriminate].
  destruct (qdiv _ _) as [q|] eqn:Q; simpl in H; [| discriminate].
  assert (Z : sign_direction (f - sl) = HOLD ->
              Qmin 1 (q * 100 / (15 # 100)) == 0).
  { intro D. apply sign_direction_hold in D.
    apply Qmin_one_zero.
    rewrite (qdiv_zero_num _ _ _ (Qabs_zero _ D) Q). reflexivity. }
  destruct (_ && _).
  - destruct (ef !! _) as [f2|]; simpl in H; [| discriminate].
    destruct (es !! _) as [s2|]; simpl in H; [| discriminate].
    destruct (Qltb _ _) eqn:B; injection H as <-; simpl; intro D.
    + exfalso. apply Qltb_lt in B. apply sign_direction_hold in D.
      rewrite D in B. ring_simplify in B. lra.
    + apply Z. exact D.
  - injection H as <-. simpl. exact Z.
Qed.

(** [price_vs_open] holds exactly in the dead zone, and its strength is
    [min(1, |drift| / 0.15)] there as everywhere else. *)
Lemma price_vs_open_shape cur p s :
  _signal_price_vs_open cur p = Some s ->
  (direction s = HOLD <->
   - (4 # 100) <= raw_value s /\ raw_value s <= 4 # 100)
  /\ strength s = Qmin 1 (Qabs (raw_value s) / (15 # 100)).
Proof.
  unfold _signal_price_vs_open. intro H.
  destruct (qdiv _ _) as [r|]; simpl in H; [| discriminate].
  injection H as <-. simpl. split; [| reflexivity].
  destruct (Qltb (4 # 100) (r * 100)) eqn:A.
  - apply Qltb_lt in A. split; [discriminate | lra].
  - apply Qltb_ge in A.
    destruct (Qltb (r * 100) (- (4 # 100))) eqn:B.
    + apply Qltb_lt in B. split; [discriminate | lra].
    + apply Qltb_ge in B. split; auto.
Qed.

End HoldStrength.

(** C4 fails on the code: at a drift of +0.02% (inside the dead zone)
    [price_vs_open] holds, yet its strength is 2/15 and not 0. *)
Theorem price_vs_open_hold_keeps_strength :
  exists s,
    Signal._signal_price_vs_open (10002 # 100) 100 = Some s
    /\ Signal.direction s = Signal.HOLD
    /\ Signal.raw_value s == 2 # 100
    /\ Signal.strength s == 2 # 15
    /\ ~ Signal.strength s == 0.
Proof.
  eexists. split; [vm_compute; reflexivity |].
  repeat split; try (vm_compute; reflexivity).
  vm_compute. discriminate.
Qed.

(** ** Oracle engine *)

Section Anchors.
Import Oracle.

(** A cached anchor for the boundary is returned as it is, without a
    fetch. *)
Lemma capture_cached w now later fetched o a :
  cached_anchor (_current_window_boundary w now) o = Some a ->
  capture_window_open w now later fetched o = (Some a, o).
Proof. intro C. unfold capture_window_open. rewrite C. reflexivity. Qed.

Lemma capture_stores w now later fetched o a o' :
  capture_window_open w now later fetched o = (Some a, o') ->
  _window_anchor o' = Some a
  /\ boundary_time a == _current_window_boundary w now.
Proof.
  unfold capture_window_open, cached_anchor.
  destruct (_window_anchor o) as [c|] eqn:W.
  - destruct (Qeqb (boundary_time c) _) eqn:E.
    + intro H. injection H as <- <-. split; [exact W |].
      apply Qeqb_eq. exact E.
    + destruct fetched as [cons|]; simpl; [| discriminate].
      destruct (anchor_source cons); [| discriminate].
      intro H. injection H as <- <-. simpl. split; reflexivity.
  - destruct fetched as [cons|]; simpl; [| discriminate].
    destruct (anchor_source cons); [| discriminate].
    intro H. injection H as <- <-. simpl. split; reflexivity.
Qed.

(** As long as no call for another window length comes in between, the
    anchor of a boundary is returned unchanged and nothing is fetched. *)
Lemma anchor_kept_without_interleaving w now later fetched o a o'
  now2 later2 fetched2 :
  capture_window_open w now later fetched o = (Some a, o') ->
  _current_window_boundary w now2 == _current_window_boundary w now ->
  capture_window_open w now2 later2 fetched2 o' = (Some a, o').
Proof.
  intros C B. apply capture_stores in C as [S E].
  apply capture_cached. unfold cached_anchor. rewrite S.
  assert (Q : Qeqb (boundary_time a) (_current_window_boundary w now2)
              = true).
  { apply Qeqb_eq. rewrite E, B. reflexivity. }
  rewrite Q. reflexivity.
Qed.

End Anchors.

(** C2 fails on the code, which keeps one anchor slot for all window
    lengths: 15m capture at 12:07:00, 5m capture at 12:07:30, 15m capture
    at 12:08:00.  The third call is for the same 12:00 boundary as the
    first, yet it fetches again and returns another price and stamp. *)
Theorem anchor_refetched_after_other_window :
  let t1 := inject_Z (Samples.noon + 420) in
  let t2 := inject_Z (Samples.noon + 450) in
  let t3 := inject_Z (Samples.noon + 480) in
  let r1 := Oracle.capture_window_open 15 t1 (t1 + 1)
              (Some (Samples.chainlink_at 50000 t1)) Oracle.fresh in
  let r2 := Oracle.capture_window_open 5 t2 (t2 + 1)
              (Some (Samples.chainlink_at 50010 t2)) (snd r1) in
  let r3 := Oracle.capture_window_open 15 t3 (t3 + 1)
              (Some (Samples.chainlink_at 50020 t3)) (snd r2) in
  Oracle._current_window_boundary 15 t1 = inject_Z Samples.noon
  /\ Oracle._current_window_boundary 15 t3 = inject_Z Samples.noon
  /\ Oracle._current_window_boundary 5 t2 = inject_Z (Samples.noon + 300)
  /\ fst r1 = Some (Oracle.mkAnchor (inject_Z Samples.noon) 50000
                      "chainlink" (t1 + 1))
  /\ fst r3 = Some (Oracle.mkAnchor (inject_Z Samples.noon) 50020
                      "chainlink" (t3 + 1))
  /\ fst r3 <> fst r1
  /\ length (Oracle._price_history (snd r3)) = 3%nat.
Proof.
  vm_compute. repeat split; discriminate.
Qed.

(** ** Market maker *)

Section PreClosePull.
Import Py MarketMaker.

Lemma no_pulls_attribute s :
  stats_int s "pulls_before_close" = Raised (AttributeError "pulls_before_close").
Proof. reflexivity. Qed.

(** Whenever some active quote sits on a known market inside the pull
    window, the pull raises: the first market pulled is also the last. *)
Lemma pull_loop_raises now mm snapshot q info t :
  In q snapshot ->
  _known_markets mm !! condition_id q = Some info ->
  end_time info = Some t ->
  t - now <= inject_Z (pull_before_close_secs (config mm)) ->
  fst (pull_loop now snapshot [] mm)
  = Raised (AttributeError "pulls_before_close").
Proof.
  intros I K E L.
  induction snapshot as [| q' rest IH]; [destruct I |].
  simpl.
  destruct (_known_markets mm !! condition_id q') as [info'|] eqn:K'.
  - destruct (end_time info') as [t'|] eqn:E'.
    + destruct (Qleb (t' - now) _) eqn:W; simpl.
      * reflexivity.
      * destruct I as [-> | I]; [| exact (IH I)].
        rewrite K in K'. injection K' as <-.
        rewrite E in E'. injection E' as <-.
        apply Qleb_le in L. congruence.
    + destruct I as [-> | I]; [congruence | exact (IH I)].
  - destruct I as [-> | I]; [congruence | exact (IH I)].
Qed.

End PreClosePull.

(** C5 fails on the code: with quotes resting on two markets that both
    close within the pull window, the cycle cancels the first market's
    quotes, then raises [AttributeError] on the missing counter
    [pulls_before_close]; the quote on the second market stays active
    and uncancelled, and the cycle never reaches discovery. *)
Theorem pull_aborts_cycle :
  exists mm,
    MarketMaker.cycle_until_discovery Samples.all_open Samples.t0
      Samples.expiring_maker
    = MarketMaker.CycleAborted (Py.AttributeError "pulls_before_close") mm
    /\ MarketMaker._active_quotes mm = [Samples.quote_b1]
    /\ MarketMaker._cancelled_order_ids mm = ["a1"; "a2"]
    /\ MarketMaker.mem "b1" (MarketMaker._cancelled_order_ids mm) = false.
Proof.
  eexists. split; [vm_compute; reflexivity |].
  repeat split.
Qed.

(** ** Rounding keeps the sign *)

Lemma pow10_pos n : 0 < pow10 n.
Proof.
  unfold pow10. rewrite <- (Zlt_Qlt 0). apply Z.pow_pos_nonneg; lia.
Qed.

Lemma round_half_even_nonneg x : 0 <= x -> (0 <= round_half_even x)%Z.
Proof.
  intro P. unfold round_half_even.
  assert (F : (0 <= Qfloor x)%Z).
  { change 0%Z with (Qfloor 0). apply Qfloor_resp_le. exact P. }
  destruct (Qcompare _ _); [destruct (Z.even _) | |]; lia.
Qed.

Lemma round_half_even_nonpos x : x <= 0 -> (round_half_even x <= 0)%Z.
Proof.
  intro P. unfold round_half_even.
  pose proof (Qfloor_le x) as L.
  assert (F : (Qfloor x <= 0)%Z).
  { change 0%Z with (Qfloor 0). apply Qfloor_resp_le. exact P. }
  destruct (Qcompare_spec (x - inject_Z (Qfloor x)) (1 # 2)) as [E | E | E].
  - assert (N : (Qfloor x < 0)%Z).
    { rewrite Zlt_Qlt. change (inject_Z 0) with 0. lra. }
    destruct (Z.even _); lia.
  - exact F.
  - assert (N : (Qfloor x < 0)%Z).
    { rewrite Zlt_Qlt. change (inject_Z 0) with 0. lra. }
    lia.
Qed.

Lemma py_round_nonneg x n : 0 <= x -> 0 <= py_round x n.
Proof.
  intro P. unfold py_round.
  pose proof (pow10_pos n) as T.
  apply Qle_shift_div_l; [exact T |]. ring_simplify.
  change 0 with (inject_Z 0). rewrite <- Zle_Qle.
  apply round_half_even_nonneg.
  apply Qmult_le_0_compat; [exact P | apply Qlt_le_weak; exact T].
Qed.

Lemma py_round_nonpos x n : x <= 0 -> py_round x n <= 0.
Proof.
  intro P. unfold py_round.
  pose proof (pow10_pos n) as T.
  apply Qle_shift_div_r; [exact T |]. ring_simplify.
  change 0 with (inject_Z 0). rewrite <- Zle_Qle.
  apply round_half_even_nonpos.
  apply Qle_trans with (0 * pow10 n); [| rewrite Qmult_0_l; apply Qle_refl].
  apply Qmult_le_compat_r; [exact P | apply Qlt_le_weak; exact T].
Qed.

(** ** Rounding errors *)

Section RoundingError.

Lemma round_half_even_upper x : inject_Z (round_half_even x) <= x + (1 # 2).
Proof.
  unfold round_half_even.
  pose proof (Qfloor_le x) as F.
  destruct (Qcompare_spec (x - inject_Z (Qfloor x)) (1 # 2)) as [A | A | A].
  - destruct (Z.even _); [lra |]. rewrite inject_Z_plus.
    change (inject_Z 1) with 1. lra.
  - lra.
  - rewrite inject_Z_plus. change (inject_Z 1) with 1. lra.
Qed.

Lemma round_half_even_lower x : x - (1 # 2) <= inject_Z (round_half_even x).
Proof.
  unfold round_half_even.
  pose proof (Qlt_floor x) as F. rewrite inject_Z_plus in F.
  change (inject_Z 1) with 1 in F.
  destruct (Qcompare_spec (x - inject_Z (Qfloor x)) (1 # 2)) as [A | A | A].
  - destruct (Z.even _); [lra |]. rewrite inject_Z_plus.
    change (inject_Z 1) with 1. lra.
  - lra.
  - rewrite inject_Z_plus. change (inject_Z 1) with 1. lra.
Qed.

Lemma round_half_even_whole (z : Z) : round_half_even (inject_Z z) = z.
Proof.
  pose proof (round_half_even_upper (inject_Z z)) as U.
  pose proof (round_half_even_lower (inject_Z z)) as L.
  set (k := round_half_even (inject_Z z)) in *.
  assert (A : inject_Z k < inject_Z (z + 1))
    by (rewrite inject_Z_plus; change (inject_Z 1) with 1; lra).
  assert (B : inject_Z (z - 1) < inject_Z k).
  { unfold Z.sub. rewrite inject_Z_plus, inject_Z_opp.
    change (inject_Z 1) with 1. lra. }
  rewrite <- Zlt_Qlt in A, B. lia.
Qed.

Lemma py_round_cents_upper x : py_round x 2 <= x + (1 # 200).
Proof.
  unfold py_round.
  pose proof (round_half_even_upper (x * pow10 2)) as U.
  change (pow10 2) with 100 in *.
  apply Qle_shift_div_r; [reflexivity |].
  apply Qle_trans with (x * 100 + (1 # 2)); [exact U |].
  apply Qle_lteq. right. ring.
Qed.

Lemma py_round_4_lower x : x - (1 # 20000) <= py_round x 4.
Proof.
  unfold py_round.
  pose proof (round_half_even_lower (x * pow10 4)) as L.
  change (pow10 4) with 10000 in *.
  apply Qle_shift_div_l; [reflexivity |]. lra.
Qed.

(** The microsecond reading that [datetime.fromtimestamp] keeps is within
    half a microsecond of the clock. *)
Lemma reading_near (now : Q) :
  now - (1 # 2000000) <= py_round now 6
  /\ py_round now 6 <= now + (1 # 2000000).
Proof.
  unfold py_round.
  pose proof (round_half_even_upper (now * pow10 6)) as U.
  pose proof (round_half_even_lower (now * pow10 6)) as L.
  change (pow10 6) with 1000000 in *.
  split.
  - apply Qle_shift_div_l; [reflexivity |]. lra.
  - apply Qle_shift_div_r; [reflexivity |]. lra.
Qed.

(** Its whole second is not after the reading, and the clock itself is
    before the next whole second. *)
Lemma reading_second (now : Q) :
  inject_Z (fromtimestamp_second now) <= py_round now 6
  /\ now < inject_Z (fromtimestamp_second now + 1).
Proof.
  unfold fromtimestamp_second.
  split; [apply Qfloor_le |].
  pose proof (Qlt_floor (py_round now 6)) as F.
  set (f := Qfloor (py_round now 6)) in *.
  unfold py_round in F.
  pose proof (round_half_even_lower (now * pow10 6)) as L.
  set (k := round_half_even (now * pow10 6)) in *.
  change (pow10 6) with 1000000 in *.
  assert (K : inject_Z k < inject_Z ((f + 1) * 1000000)).
  { rewrite inject_Z_mult. change (inject_Z 1000000) with 1000000.
    apply Qle_lt_trans with (inject_Z k / 1000000 * 1000000).
    - apply Qle_lteq. right. field.
    - apply Qmult_lt_compat_r; [reflexivity | exact F]. }
  rewrite <- Zlt_Qlt in K.
  assert (K' : inject_Z k <= inject_Z ((f + 1) * 1000000 - 1))
    by (rewrite <- Zle_Qle; lia).
  unfold Z.sub in K'. rewrite inject_Z_plus, inject_Z_opp, inject_Z_mult in K'.
  change (inject_Z 1000000) with 1000000 in K'.
  change (inject_Z 1) with 1 in K'.
  lra.
Qed.

Lemma reading_of_second (z : Z) : fromtimestamp_second (inject_Z z) = z.
Proof.
  unfold fromtimestamp_second, py_round.
  rewrite (round_half_even_comp (inject_Z z * pow10 6)
             (inject_Z (z * 10 ^ Z.of_nat 6)))
    by (unfold pow10; rewrite inject_Z_mult; reflexivity).
  rewrite round_half_even_whole.
  rewrite <- (Qfloor_Z z) at 2. apply Qfloor_comp.
  unfold pow10. rewrite inject_Z_mult. field.
  change 0 with (inject_Z 0). rewrite inject_Z_injective. discriminate.
Qed.

End RoundingError.

(** ** Arbitrage scanner *)

Section FeePositive.
Import Py Arb.

Lemma fee_nonneg p : 0 <= _estimate_taker_fee_pct p.
Proof.
  unfold _estimate_taker_fee_pct.
  destruct (Qleb p 0) eqn:A; simpl; [apply Qle_refl |].
  destruct (Qleb 1 p) eqn:B; [apply Qle_refl |].
  apply Qleb_gt in A. apply Qleb_gt in B.
  apply py_round_nonneg.
  apply Qmult_le_0_compat; [| lra].
  apply Qmult_le_0_compat; lra.
Qed.

(** A positive net edge is a positive edge on the quoted prices. *)
Lemma net_edge_on_prices m :
  0 < net_edge_pct m ->
  0 < (1 - (price_yes m + price_no m)) * 100
      - _estimate_taker_fee_pct (price_yes m)
      - _estimate_taker_fee_pct (price_no m).
Proof.
  unfold net_edge_pct, edge_pct, combined. intro N.
  pose proof (fee_nonneg (price_yes m)) as Fy.
  pose proof (fee_nonneg (price_no m)) as Fn.
  destruct (Qltb (price_yes m + price_no m) 1); lra.
Qed.

Lemma note_near_miss_frame now m sc :
  _executions (note_near_miss now m sc) = _executions sc
  /\ config (note_near_miss now m sc) = config sc.
Proof. unfold note_near_miss. destruct (_ && _); split; reflexivity. Qed.

Lemma note_best_edge_frame net sc :
  _executions (note_best_edge net sc) = _executions sc
  /\ config (note_best_edge net sc) = config sc.
Proof. unfold note_best_edge. destruct (Qltb _ _); split; reflexivity. Qed.

Lemma consider_keeps now m sc sc' keep :
  consider now m sc = (sc', keep) ->
  _executions sc' = _executions sc
  /\ config sc' = config sc
  /\ (keep = true -> 0 < net_edge_pct m).
Proof.
  unfold consider. intro H.
  destruct (note_near_miss_frame now m sc) as [S1 S2].
  destruct (note_best_edge_frame (net_edge_pct m) (note_near_miss now m sc))
    as [T1 T2].
  destruct (Qeqb (combined m) 0 || _).
  { injection H as <- <-. repeat split; discriminate. }
  destruct (Qleb (arb_threshold _) _).
  { injection H as <- <-. repeat split; auto; discriminate. }
  destruct (Qltb (edge_pct m) _).
  { injection H as <- <-. repeat split; auto; discriminate. }
  destruct (Qleb (net_edge_pct m) 0) eqn:N.
  { injection H as <- <-. repeat split; auto; discriminate. }
  apply Qleb_gt in N.
  destruct (Qltb (now - _) _).
  { injection H as <- <-. repeat split; try congruence. }
  destruct (Qltb (liquidity m) _); injection H as <- <-;
    repeat split; try congruence; auto.
Qed.

(** [_find_opportunities] returns only markets whose net edge is
    positive, and records no execution. *)
Lemma find_opportunities_sound now markets sc opps sc' :
  _find_opportunities now markets sc = (opps, sc') ->
  Forall (fun m => 0 < net_edge_pct m) opps
  /\ _executions sc' = _executions sc
  /\ config sc' = config sc.
Proof.
  revert sc opps sc'.
  induction markets as [| m rest IH]; intros sc opps sc' H; simpl in H.
  - injection H as <- <-. repeat split; constructor.
  - destruct (consider now m sc) as [sc1 keep] eqn:C.
    destruct (_find_opportunities now rest sc1) as [opps1 sc2] eqn:F.
    injection H as <- <-.
    apply consider_keeps in C as (E1 & C1 & K).
    apply IH in F as (A & E2 & C2).
    repeat split; try congruence.
    destruct keep; [constructor; auto | exact A].
Qed.

Lemma insert_by_edge_keeps (P : ArbMarket -> Prop) m sorted :
  P m -> Forall P sorted -> Forall P (insert_by_edge m sorted).
Proof.
  intros Pm. induction 1 as [| x l Px Pl IH]; simpl.
  - constructor; [exact Pm | constructor].
  - destruct (Qltb _ _).
    + constructor; [exact Px | exact IH].
    + constructor; [exact Pm |]. constructor; [exact Px | exact Pl].
Qed.

Lemma sort_by_edge_keeps (P : ArbMarket -> Prop) opps :
  Forall P opps -> Forall P (sort_by_edge opps).
Proof.
  induction 1 as [| m l Pm _ IH]; simpl; [constructor |].
  apply insert_by_edge_keeps; assumption.
Qed.

(** [_execute_arb] either leaves the executions alone or appends one
    that records the prices of the market. *)
Lemma execute_arb_appends now client m sc r sc' :
  _execute_arb now client m sc = (r, sc') ->
  config sc' = config sc
  /\ (_executions sc' = _executions sc
      \/ exists e, _executions sc' = _executions sc ++ [e]
                   /\ r = Ok (Some e)
                   /\ ex_price_yes e = price_yes m
                   /\ ex_price_no e = price_no m).
Proof.
  unfold _execute_arb. intro H.
  destruct (_ <=? _)%Z; [injection H as <- <-; auto |].
  destruct (Qltb _ _); [injection H as <- <-; auto |].
  destruct (qdiv 1 (combined m)) as [inv|]; [| injection H as <- <-; auto].
  destruct (Qleb _ 0); [injection H as <- <-; auto |].
  destruct (place_both client m) as [[id_yes id_no] st].
  injection H as <- <-. simpl. split; [reflexivity |].
  right. eexists. repeat split.
Qed.

Lemma execute_all_fee_positive now client opps :
  Forall (fun m => 0 < net_edge_pct m) opps ->
  forall sc r sc',
    execute_all now client opps sc = (r, sc') ->
    exists new, _executions sc' = _executions sc ++ new
                /\ Forall fee_positive new.
Proof.
  induction 1 as [| m rest Pm _ IH]; intros sc r sc' H; simpl in H.
  - injection H as <- <-. exists []. rewrite app_nil_r.
    split; [reflexivity | constructor].
  - destruct (_execute_arb now client m sc) as [r1 sc1] eqn:X.
    apply execute_arb_appends in X as [_ X].
    assert (S : exists one, _executions sc1 = _executions sc ++ one
                            /\ Forall fee_positive one).
    { destruct X as [X | (e & X & _ & Py & Pn)].
      - exists []. rewrite app_nil_r. split; [exact X | constructor].
      - exists [e]. split; [exact X |].
        constructor; [| constructor].
        unfold fee_positive. rewrite Py, Pn.
        apply net_edge_on_prices. exact Pm. }
    destruct S as (one & S1 & S2).
    destruct r1 as [v | e].
    + destruct (_ || _).
      * injection H as <- <-. exists one. split; assumption.
      * apply IH in H as (more & M1 & M2).
        exists (one ++ more). rewrite M1, S1, app_assoc.
        split; [reflexivity | apply Forall_app; split; assumption].
    + injection H as <- <-. exists one. split; assumption.
Qed.

(** A non-positive dollar profit is declined. *)
Lemma execute_arb_declines now client m sc inv :
  qdiv 1 (combined m) = Some inv ->
  size_per_side_usd (config sc) * (inv - 1)
  - (size_per_side_usd (config sc) * _estimate_taker_fee_pct (price_yes m)
     / 100
     + size_per_side_usd (config sc) * _estimate_taker_fee_pct (price_no m)
       / 100) <= 0 ->
  _execute_arb now client m sc = (Ok None, sc).
Proof.
  intros D L. unfold _execute_arb. rewrite D.
  destruct (_ <=? _)%Z; [reflexivity |].
  destruct (Qltb _ _); [reflexivity |].
  apply (py_round_nonpos _ 2) in L. apply Qleb_le in L.
  rewrite L. reflexivity.
Qed.

(** The estimate the code uses is the spec's parabola rounded to four
    decimals inside (0, 1), and 0 where the parabola is not positive. *)
Lemma fee_estimate_near p :
  spec_fee_pct p <= _estimate_taker_fee_pct p + (1 # 20000).
Proof.
  unfold _estimate_taker_fee_pct, spec_fee_pct.
  destruct (Qleb p 0) eqn:A; cbn [orb].
  { apply Qleb_le in A.
    assert (Y : 0 <= (- p) * (1 - p)) by (apply Qmult_le_0_compat; lra).
    lra. }
  destruct (Qleb 1 p) eqn:B.
  { apply Qleb_le in B.
    assert (Y : 0 <= p * (p - 1)) by (apply Qmult_le_0_compat; lra).
    lra. }
  pose proof (py_round_4_lower ((156 # 100) * 4 * p * (1 - p))). lra.
Qed.

Lemma fee_positive_exact e : fee_positive e -> - (1 # 10000) < spec_net_edge e.
Proof.
  unfold fee_positive, spec_net_edge. intro P.
  pose proof (fee_estimate_near (ex_price_yes e)).
  pose proof (fee_estimate_near (ex_price_no e)).
  lra.
Qed.

End FeePositive.

(** C6, as stated, fails twice.  With each fee taken as the unrounded
    parabola, a pass of the scanner books the pair quoted at 0.4002 and
    0.5695232, whose net edge is then negative: the code rounds each fee
    to four decimals.  And [_execute_arb] on its own books the pair
    quoted at 0.4845 and 0.4845, which detection rejects for a net edge
    of -0.017: execution only tests the rounded dollar profit. *)
Lemma arb_booked_below_exact_fee :
  let sc := Arb.init Arb.default_config in
  (exists e,
     Arb._executions
       (snd (Arb.scan Samples.t0 None [Samples.rounded_pair] sc)) = [e]
     /\ Arb.ex_price_yes e = 4002 # 10000
     /\ Arb.ex_price_no e = 5695232 # 10000000
     /\ Arb.spec_net_edge e < 0)
  /\ (exists e,
        Arb._executions
          (snd (Arb._execute_arb Samples.t0 None Samples.thin_pair sc))
        = [e]
        /\ fst (Arb._find_opportunities Samples.t0 [Samples.thin_pair] sc)
           = []
        /\ Arb.net_edge_pct Samples.thin_pair < 0
        /\ ~ Arb.fee_positive e).
Proof.
  cbv zeta. split.
  - eexists. split; [vm_compute; reflexivity |].
    split; [reflexivity |]. split; [reflexivity |].
    vm_compute. reflexivity.
  - eexists. split; [vm_compute; reflexivity |].
    split; [vm_compute; reflexivity |].
    split; [vm_compute; reflexivity |].
    intro P. vm_compute in P. discriminate P.
Qed.

(** C6 (amended): every execution a pass of the scanner appends
    (detection, then execution of what detection returned) is
    fee-positive on its recorded prices with the fees the code
    estimates, the parabola rounded to four decimals: gross edge
    (1 - (yes + no)) * 100 less the two estimated fees is > 0;
    [_find_opportunities] returns only markets with such a positive net
    edge; [_execute_arb] on its own declines whenever the fee-adjusted
    dollar profit is <= 0; and with the unrounded parabola of the spec
    the net edge of a fee-positive execution is above -0.0001. *)
Theorem arb_fee_positive (now : Q) (client : option Arb.PlaceOrder)
  (markets : list Arb.ArbMarket) (sc : Arb.ArbScanner) :
  (forall r sc',
      Arb.scan now client markets sc = (r, sc') ->
      exists new, Arb._executions sc' = Arb._executions sc ++ new
                  /\ Forall Arb.fee_positive new)
  /\ (forall opps sc',
         Arb._find_opportunities now markets sc = (opps, sc') ->
         Forall (fun m => 0 < Arb.net_edge_pct m) opps)
  /\ (forall m inv,
         qdiv 1 (Arb.combined m) = Some inv ->
         Arb.size_per_side_usd (Arb.config sc) * (inv - 1)
         - (Arb.size_per_side_usd (Arb.config sc)
            * Arb._estimate_taker_fee_pct (Arb.price_yes m) / 100
            + Arb.size_per_side_usd (Arb.config sc)
              * Arb._estimate_taker_fee_pct (Arb.price_no m) / 100) <= 0 ->
         Arb._execute_arb now client m sc = (Py.Ok None, sc))
  /\ (forall e, Arb.fee_positive e -> - (1 # 10000) < Arb.spec_net_edge e).
Proof.
  split; [| split; [| split]].
  - intros r sc' H. unfold Arb.scan in H.
    destruct (Arb._find_opportunities now markets sc) as [opps sc1] eqn:F.
    apply find_opportunities_sound in F as (A & E & _).
    apply (execute_all_fee_positive now client _
             (sort_by_edge_keeps _ _ A)) in H.
    destruct H as (new & H1 & H2). exists new.
    rewrite H1, E. split; [reflexivity | exact H2].
  - intros opps sc' F.
    apply find_opportunities_sound in F as (A & _). exact A.
  - intros m inv. apply execute_arb_declines.
  - apply fee_positive_exact.
Qed.

Lemma arb_fee_positive_witness :
  let sc := Arb.init Arb.default_config in
  let out := Arb.scan Samples.t0 None [Samples.cheap_pair] sc in
  exists e, Arb._executions (snd out) = [e]
            /\ Arb.fee_positive e
            /\ Arb.guaranteed_profit e == 11 # 100.
Proof.
  intros sc out.
  pose proof (arb_fee_positive Samples.t0 None [Samples.cheap_pair] sc)
    as [A _].
  destruct (A (fst out) (snd out)) as (new & N & P).
  - apply surjective_pairing.
  - destruct new as [| e [| e' rest]].
    + vm_compute in N. discriminate N.
    + exists e. split; [exact N |]. split.
      * inversion P; assumption.
      * vm_compute in N. injection N as <-. vm_compute. reflexivity.
    + vm_compute in N. discriminate N.
Defined.

(** ** Exchange client *)

Section PlaceOrder.
Import Py Client.

Variable v : Venue.






Lemma body_rejects_price c now trade_id market direction size_usd price
  oracle_price confidence :
  exec_price_of v market direction price < 1 # 100
  \/ 99 # 100 < exec_price_of v market direction price ->
  place_order_body v c now trade_id market direction size_usd price
    oracle_price confidence = (None, c).
Proof.
  intro B. unfold place_order_body.
  assert (E : Qltb (exec_price_of v market direction price) (1 # 100)
              || Qltb (99 # 100) (exec_price_of v market direction price)
              = true).
  { apply orb_true_iff. destruct B as [B | B]; [left | right];
      apply Qltb_lt; exact B. }
  rewrite E. reflexivity.
Qed.

Lemma ensure_clob_frame c c' :
  _ensure_clob v c = Ok c' ->
  _trade_records c' = _trade_records c
  /\ _active_markets c' = _active_markets c.
Proof.
  unfold _ensure_clob. intro H.
  destruct (_clob_initialized c); [injection H as <-; auto |].
  destruct (init_ok v); [injection H as <-; auto | discriminate].
Qed.

End PlaceOrder.




(** C10: [place_order] returns None and stores nothing when the size is
    below 0.50, and likewise when the execution price it derives (the
    live order-book price, else the quoted price) is below 0.01 or above
    0.99; active markets and trade records are unchanged in both cases. *)
Theorem small_or_mispriced_order_rejected (v : Client.Venue)
  (c : Client.PolymarketClient) (now_ms : Z) (now : Q)
  (market : Client.BinaryMarket) (direction : string) (size_usd : Q)
  (price : option Q) (oracle_price confidence : Q) :
  let out := Client.place_order v c now_ms now market direction size_usd
               price oracle_price confidence in
  (size_usd < 1 # 2 -> out = (Py.Ok None, c))
  /\ (forall p,
         Client.derived_exec_price v c now_ms market direction size_usd price
         = Some p ->
         p < 1 # 100 \/ 99 # 100 < p ->
         fst out = Py.Ok None
         /\ Client._trade_records (snd out) = Client._trade_records c
         /\ Client._active_markets (snd out) = Client._active_markets c).
Proof.
  intro out. subst out.
  unfold Client.place_order, Client.derived_exec_price. split.
  - intro L. apply Qltb_lt in L. rewrite L. reflexivity.
  - intros p D B.
    destruct (Qltb size_usd (1 # 2)); [discriminate |].
    destruct (Client.make_trade_id now_ms direction) as [tid | e];
      [| discriminate].
    destruct (Client._ensure_clob v c) as [c1 | e] eqn:E; [| discriminate].
    injection D as <-.
    rewrite (body_rejects_price v c1 now tid market direction size_usd price
               oracle_price confidence B).
    simpl. apply ensure_clob_frame in E. tauto.
Qed.

Lemma small_or_mispriced_order_rejected_witness :
  Client.place_order Samples.phantom_venue Samples.ready_client
    1767268800000 Samples.t0 Samples.even_market "up" (40 # 100) None
    50000 (85 # 100) = (Py.Ok None, Samples.ready_client)
  /\ fst (Client.place_order Samples.lopsided_venue Samples.ready_client
            1767268800000 Samples.t0 Samples.even_market "up" 10 None
            50000 (85 # 100)) = Py.Ok None.
Proof.
  split.
  - apply (small_or_mispriced_order_rejected Samples.phantom_venue
             Samples.ready_client 1767268800000 Samples.t0
             Samples.even_market "up" (40 # 100) None 50000 (85 # 100)).
    reflexivity.
  - apply (small_or_mispriced_order_rejected Samples.lopsided_venue
             Samples.ready_client 1767268800000 Samples.t0
             Samples.even_market "up" 10 None 50000 (85 # 100))
      with (p := 995 # 1000).
    + reflexivity.
    + right. reflexivity.
Defined.

(** ** Division that may raise *)

Lemma qdiv_some (a b : Q) : ~ b == 0 -> qdiv a b = Some (a / b).
Proof.
  intro N. unfold qdiv. destruct (Qeqb b 0) eqn:E; [| reflexivity].
  apply Qeqb_eq in E. contradiction.
Qed.

Lemma qdiv_none (a b : Q) : b == 0 -> qdiv a b = None.
Proof.
  intro N. unfold qdiv. apply Qeqb_eq in N. rewrite N. reflexivity.
Qed.


(** ** Ranges of the indicators *)

Section IndicatorRanges.
Import Signal.

Lemma Qdiv_nonneg (a b : Q) : 0 <= a -> 0 < b -> 0 <= a / b.
Proof.
  intros A B. apply Qle_shift_div_l; [exact B |]. rewrite Qmult_0_l. exact A.
Qed.

Lemma Qdiv_le_one (a b : Q) : 0 < b -> a <= b -> a / b <= 1.
Proof.
  intros B L. apply Qle_shift_div_r; [exact B |]. rewrite Qmult_1_l. exact L.
Qed.

Lemma Qmin_one_unit (x : Q) : 0 <= x -> 0 <= Qmin 1 x /\ Qmin 1 x <= 1.
Proof.
  intro X. split; [| apply Q.le_min_l].
  apply Q.min_glb; [discriminate | exact X].
Qed.

Lemma qdiv_inv (a b q : Q) : qdiv a b = Some q -> ~ b == 0 /\ q = a / b.
Proof.
  unfold qdiv. destruct (Qeqb b 0) eqn:E; [discriminate |].
  intro H. injection H as <-. split; [| reflexivity].
  intro Z. apply Qeqb_eq in Z. congruence.
Qed.

Lemma fold_plus_nonneg (xs : list Q) (a : Q) :
  0 <= a -> Forall (fun x => 0 <= x) xs -> 0 <= fold_left Qplus xs a.
Proof.
  revert a. induction xs as [| x xs IH]; intros a A F; simpl; [exact A |].
  inversion F; subst. apply IH; [| assumption].
  apply Qle_trans with (0 + 0); [discriminate |].
  apply Qplus_le_compat; assumption.
Qed.

Lemma sumQ_nonneg (xs : list Q) :
  Forall (fun x => 0 <= x) xs -> 0 <= sumQ xs.
Proof. apply fold_plus_nonneg. discriminate. Qed.

Lemma wilder_nonneg (p avg : Q) (xs : list Q) :
  1 <= p -> 0 <= avg -> Forall (fun x => 0 <= x) xs -> 0 <= wilder p avg xs.
Proof.
  intro P. unfold wilder. revert avg.
  induction xs as [| x xs IH]; intros avg A F; simpl; [exact A |].
  inversion F; subst. apply IH; [| assumption].
  apply Qdiv_nonneg; [| lra].
  apply Qle_trans with (0 + 0); [discriminate |].
  apply Qplus_le_compat; [| assumption].
  apply Qmult_le_0_compat; [exact A | lra].
Qed.

Lemma gains_nonneg (ds : list Q) :
  Forall (fun x => 0 <= x) (map (fun d => if Qltb 0 d then d else 0) ds).
Proof.
  induction ds as [| d ds IH]; simpl; constructor; [| exact IH].
  destruct (Qltb 0 d) eqn:E; [| discriminate].
  apply Qltb_lt in E. lra.
Qed.

Lemma losses_nonneg (ds : list Q) :
  Forall (fun x => 0 <= x) (map (fun d => if Qltb d 0 then - d else 0) ds).
Proof.
  induction ds as [| d ds IH]; simpl; constructor; [| exact IH].
  destruct (Qltb d 0) eqn:E; [| discriminate].
  apply Qltb_lt in E. lra.
Qed.

Lemma period_ge_one (period : nat) :
  (1 <= period)%nat -> 1 <= inject_Z (Z.of_nat period).
Proof.
  intro P. change 1 with (inject_Z 1). rewrite <- Zle_Qle. lia.
Qed.

End IndicatorRanges.

(** X8: for a period of at least 1, [_rsi] never raises and its value
    lies between 0 and 100. *)
Theorem rsi_in_range (closes : list Q) (period : nat) :
  (1 <= period)%nat ->
  exists v, Signal._rsi closes period = Some v /\ 0 <= v /\ v <= 100.
Proof.
  intro P. apply period_ge_one in P.
  unfold Signal._rsi.
  destruct (length closes <? period + 1)%nat.
  { exists 50. split; [reflexivity | split; discriminate]. }
  cbv zeta.
  set (p := inject_Z (Z.of_nat period)) in *.
  set (gains := map (fun d => if Qltb 0 d then d else 0)
                  (Signal.deltas closes)).
  set (losses := map (fun d => if Qltb d 0 then - d else 0)
                   (Signal.deltas closes)).
  assert (G : Forall (fun x => 0 <= x) gains) by apply gains_nonneg.
  assert (L : Forall (fun x => 0 <= x) losses) by apply losses_nonneg.
  rewrite !qdiv_some by (intro E; lra). cbn [mbind option_bind].
  set (g := Signal.wilder p _ (drop period gains)).
  set (l := Signal.wilder p _ (drop period losses)).
  assert (G0 : 0 <= g).
  { apply wilder_nonneg; [exact P | | apply Forall_drop; exact G].
    apply Qdiv_nonneg; [| lra].
    apply sumQ_nonneg, Forall_take, G. }
  assert (L0 : 0 <= l).
  { apply wilder_nonneg; [exact P | | apply Forall_drop; exact L].
    apply Qdiv_nonneg; [| lra].
    apply sumQ_nonneg, Forall_take, L. }
  destruct (Qeqb l 0) eqn:Z.
  { exists 100. split; [reflexivity | split; discriminate]. }
  assert (Lp : 0 < l).
  { apply Qle_lteq in L0 as [L0 | L0]; [exact L0 |].
    symmetry in L0. apply Qeqb_eq in L0. congruence. }
  rewrite qdiv_some by (intro E; lra). cbn [mbind option_bind].
  assert (R : 0 <= g / l) by (apply Qdiv_nonneg; assumption).
  rewrite qdiv_some by (intro E; lra). cbn [mbind option_bind].
  eexists. split; [reflexivity |].
  assert (A : 0 <= 100 / (1 + g / l))
    by (apply Qdiv_nonneg; [discriminate | lra]).
  assert (B : 100 / (1 + g / l) <= 100).
  { apply Qle_shift_div_r; lra. }
  split; lra.
Qed.

Lemma rsi_in_range_witness :
  exists v, Signal._rsi [10; 11; 10; 12] 2 = Some v /\ 0 <= v /\ v <= 100.
Proof. apply rsi_in_range. lia. Defined.

(** ** More on rounding *)

Lemma round_half_even_mono x y :
  x <= y -> (round_half_even x <= round_half_even y)%Z.
Proof.
  intro L. unfold round_half_even.
  pose proof (Qfloor_resp_le x y L) as F.
  pose proof (Qfloor_le x) as Fx. pose proof (Qlt_floor x) as Gx.
  pose proof (Qfloor_le y) as Fy. pose proof (Qlt_floor y) as Gy.
  destruct (Z.eq_dec (Qfloor x) (Qfloor y)) as [E | N].
  - rewrite <- E in *.
    destruct (Qcompare_spec (x - inject_Z (Qfloor x)) (1 # 2)) as [A | A | A];
      destruct (Qcompare_spec (y - inject_Z (Qfloor x)) (1 # 2))
        as [B | B | B];
      try (destruct (Z.even _)); try lia; exfalso; lra.
  - assert (S : (Qfloor x + 1 <= Qfloor y)%Z) by lia.
    destruct (Qcompare _ _); destruct (Qcompare _ _);
      repeat (destruct (Z.even _)); lia.
Qed.

Lemma py_round_mono x y n : x <= y -> py_round x n <= py_round y n.
Proof.
  intro L. unfold py_round.
  pose proof (pow10_pos n) as T.
  apply Qmult_le_compat_r.
  - rewrite <- Zle_Qle. apply round_half_even_mono.
    apply Qmult_le_compat_r; [exact L | apply Qlt_le_weak; exact T].
  - apply Qlt_le_weak. apply Qinv_lt_0_compat. exact T.
Qed.

(** ** Risk manager: ledger, streak, sizing caps *)

Section RiskLedger.
Import Risk.

Lemma sum_from (l : list Q) (a : Q) :
  fold_left Qplus l a == a + fold_left Qplus l 0.
Proof.
  revert a. induction l as [| x l IH]; intro a; simpl.
  - ring.
  - rewrite (IH (a + x)), (IH (0 + x)). ring.
Qed.

Lemma reset_same_day today rm :
  date (_daily rm) = today -> _reset_daily_if_needed today rm = rm.
Proof.
  intro D. unfold _reset_daily_if_needed.
  apply String.eqb_eq in D. rewrite D. reflexivity.
Qed.

Lemma reset_dates today rm :
  date (_daily (_reset_daily_if_needed today rm)) = today.
Proof.
  unfold _reset_daily_if_needed.
  destruct (String.eqb (date (_daily rm)) today) eqn:E; simpl.
  - apply String.eqb_eq. exact E.
  - reflexivity.
Qed.

(** One [record_trade] on today's record. *)
Lemma record_trade_step now today pnl rm :
  let rm' := record_trade now today pnl rm in
  capital rm' = capital rm + pnl
  /\ _total_pnl rm' = _total_pnl rm + pnl
  /\ config rm' = config rm
  /\ date (_daily rm') = today
  /\ (date (_daily rm) = today ->
      trades (_daily rm') = (trades (_daily rm) + 1)%Z
      /\ total_pnl (_daily rm') = total_pnl (_daily rm) + pnl
      /\ (wins (_daily rm') + losses (_daily rm')
          = wins (_daily rm) + losses (_daily rm) + 1)%Z
      /\ (pnl < 0 ->
          consecutive_losses (_daily rm')
          = (consecutive_losses (_daily rm) + 1)%Z)
      /\ (0 <= pnl -> consecutive_losses (_daily rm') = 0%Z)).
Proof.
  intro rm'. subst rm'. unfold record_trade.
  pose proof (reset_dates today rm) as RD.
  assert (RC : capital (_reset_daily_if_needed today rm) = capital rm
               /\ _total_pnl (_reset_daily_if_needed today rm) = _total_pnl rm
               /\ config (_reset_daily_if_needed today rm) = config rm).
  { unfold _reset_daily_if_needed. destruct (negb _); auto. }
  destruct RC as (RC1 & RC2 & RC3).
  destruct (Qleb 0 pnl) eqn:W; simpl; rewrite ?RC1, ?RC2, ?RC3;
    repeat split; try assumption; try reflexivity;
    try (rewrite (reset_same_day today rm) by assumption);
    try (intros; reflexivity); try lia; intro N.
  - apply Qleb_le in W. exfalso. lra.
  - apply Qleb_gt in W. exfalso. lra.
Qed.

End RiskLedger.

(** X1: recording a series of resolved trades on one UTC day moves the
    bankroll and the lifetime PnL by exactly the sum of the PnLs, and
    counts every trade once, as a win or as a loss. *)
Theorem record_trade_ledger (now : Q) (today : string) (pnls : list Q)
  (rm : Risk.RiskManager) :
  let rm' := fold_left (fun r p => Risk.record_trade now today p r) pnls rm in
  Risk.capital rm' == Risk.capital rm + fold_left Qplus pnls 0
  /\ Risk._total_pnl rm' == Risk._total_pnl rm + fold_left Qplus pnls 0
  /\ (Risk.date (Risk._daily rm) = today ->
      Risk.trades (Risk._daily rm')
      = (Risk.trades (Risk._daily rm) + Z.of_nat (length pnls))%Z
      /\ (Risk.wins (Risk._daily rm') + Risk.losses (Risk._daily rm')
          = Risk.wins (Risk._daily rm) + Risk.losses (Risk._daily rm)
            + Z.of_nat (length pnls))%Z
      /\ Risk.total_pnl (Risk._daily rm')
         == Risk.total_pnl (Risk._daily rm) + fold_left Qplus pnls 0).
Proof.
  revert rm. induction pnls as [| p rest IH]; intro rm; cbn zeta.
  - simpl. repeat split; try ring; try lia.
  - simpl fold_left at 1.
    destruct (record_trade_step now today p rm) as (C & T & _ & D & S).
    specialize (IH (Risk.record_trade now today p rm)). cbn zeta in IH.
    destruct IH as (IC & IT & ID).
    cbn [fold_left].
    split; [| split].
    + rewrite IC, C, (sum_from rest (0 + p)). ring.
    + rewrite IT, T, (sum_from rest (0 + p)). ring.
    + intro E. destruct (S E) as (S1 & S2 & S3 & _).
      destruct (ID D) as (I1 & I2 & I3).
      rewrite I1, I2, I3, S1, S2, S3, (sum_from rest (0 + p)).
      cbn [length]. repeat split; try lia. ring.
Qed.

Lemma record_trade_ledger_witness :
  let rm := Risk.init Risk.default_config 500 "2026-01-01" in
  let rm' := fold_left (fun r p => Risk.record_trade 0 "2026-01-01" p r)
               [3; -5; 2] rm in
  Risk.capital rm' == 500
  /\ Risk.trades (Risk._daily rm') = 3%Z.
Proof.
  intros rm rm'. subst rm'.
  pose proof (record_trade_ledger 0 "2026-01-01" [3; -5; 2] rm)
    as (C & _ & D).
  destruct (D eq_refl) as (T & _).
  split.
  - rewrite C. reflexivity.
  - exact T.
Defined.

Section RiskGates.
Import Risk.

Lemma record_losses_streak now today pnls rm :
  date (_daily rm) = today ->
  Forall (fun p => p < 0) pnls ->
  let rm' := fold_left (fun r p => record_trade now today p r) pnls rm in
  date (_daily rm') = today
  /\ config rm' = config rm
  /\ consecutive_losses (_daily rm')
     = (consecutive_losses (_daily rm) + Z.of_nat (length pnls))%Z.
Proof.
  intros D F. revert rm D.
  induction F as [| p rest N _ IH]; intros rm D; cbn zeta.
  - simpl. repeat split; auto; lia.
  - cbn [fold_left].
    destruct (record_trade_step now today p rm) as (_ & _ & C & D1 & S).
    destruct (S D) as (_ & _ & _ & L & _).
    specialize (IH (record_trade now today p rm) D1). cbn zeta in IH.
    destruct IH as (I1 & I2 & I3).
    rewrite I1, I2, I3, C, (L N). cbn [length].
    repeat split; lia.
Qed.

Lemma streak_refuses now today rm :
  date (_daily rm) = today ->
  (max_consecutive_losses (config rm) <= consecutive_losses (_daily rm))%Z ->
  fst (fst (can_trade now today rm)) = false.
Proof.
  intros D S. unfold can_trade. rewrite (reset_same_day today rm D).
  destruct (Qltb now _); [reflexivity |].
  destruct (_ <=? trades _)%Z; [reflexivity |].
  destruct (_ && _); [reflexivity |].
  apply Z.leb_le in S. rewrite S. reflexivity.
Qed.

End RiskGates.

(** X2: after a run of losing trades at least as long as
    max_consecutive_losses, recorded on one UTC day, [can_trade] refuses
    at any time of that day. *)
Theorem loss_streak_blocks (now later : Q) (today : string) (pnls : list Q)
  (rm : Risk.RiskManager) :
  Risk.date (Risk._daily rm) = today ->
  (0 <= Risk.consecutive_losses (Risk._daily rm))%Z ->
  Forall (fun p => p < 0) pnls ->
  (Risk.max_consecutive_losses (Risk.config rm)
   <= Z.of_nat (length pnls))%Z ->
  fst (fst (Risk.can_trade later today
              (fold_left (fun r p => Risk.record_trade now today p r)
                 pnls rm))) = false.
Proof.
  intros D P F L.
  destruct (record_losses_streak now today pnls rm D F) as (D' & C & S).
  apply streak_refuses; [exact D' |].
  rewrite C, S. lia.
Qed.

Lemma loss_streak_blocks_witness :
  fst (fst (Risk.can_trade 500 "2026-01-01"
              (fold_left (fun r p => Risk.record_trade 100 "2026-01-01" p r)
                 [-1; -2; -1; -3; -1]
                 (Risk.init Risk.default_config 500 "2026-01-01")))) = false.
Proof.
  apply (loss_streak_blocks 100 500 "2026-01-01" [-1; -2; -1; -3; -1]
           (Risk.init Risk.default_config 500 "2026-01-01")).
  - reflexivity.
  - simpl. lia.
  - repeat constructor.
  - simpl. lia.
Defined.

(** X3: when the loss streak trips [can_trade] at time [now], every call
    on the same day before [now + cooldown] answers "cooldown" and leaves
    the state as it is. *)
Theorem cooldown_holds (now later : Q) (today : string)
  (rm rm1 : Risk.RiskManager) (k : Z) :
  Risk.can_trade now today rm = ((false, Risk.LossStreak k), rm1) ->
  later < now + inject_Z (Risk.loss_streak_cooldown_mins (Risk.config rm) * 60)
  ->
  exists remaining,
    Risk.can_trade later today rm1 = ((false, Risk.Cooldown remaining), rm1).
Proof.
  intros T L. unfold Risk.can_trade in T.
  pose proof (reset_dates today rm) as D.
  assert (C : Risk.config (Risk._reset_daily_if_needed today rm)
              = Risk.config rm)
    by (unfold Risk._reset_daily_if_needed; destruct (negb _); reflexivity).
  set (r := Risk._reset_daily_if_needed today rm) in *.
  destruct (Qltb now _); [discriminate |].
  destruct (_ <=? Risk.trades _)%Z; [discriminate |].
  destruct (_ && _); [discriminate |].
  destruct (_ <=? Risk.consecutive_losses _)%Z.
  - injection T as _ <-.
    unfold Risk.can_trade.
    rewrite reset_same_day by exact D. simpl.
    rewrite C. apply Qltb_lt in L. rewrite L. eexists. reflexivity.
  - destruct (Qleb _ 0); discriminate.
Qed.

Lemma cooldown_holds_witness :
  let rm := Risk.set_daily
              (Risk.set_consecutive_losses 5
                 (Risk.fresh_daily "2026-01-01" 500))
              (Risk.init Risk.default_config 500 "2026-01-01") in
  let rm1 := Risk.set_daily
               (Risk.set_cooldown_until (200 + inject_Z (60 * 60))
                  (Risk._daily rm)) rm in
  exists remaining,
    Risk.can_trade 1000 "2026-01-01" rm1
    = ((false, Risk.Cooldown remaining), rm1).
Proof.
  intros rm rm1.
  apply (cooldown_holds 200 1000 "2026-01-01" rm rm1 5).
  - vm_compute. reflexivity.
  - vm_compute. reflexivity.
Defined.

Section SizingCaps.
Import Risk.

Lemma kelly_size_capped (raw cap_usd floor_usd capital_usd : Q) :
  py_round (Qmin (Qmax (Qmin raw cap_usd) floor_usd) capital_usd) 2
  <= py_round capital_usd 2
  /\ py_round (Qmin (Qmax (Qmin raw cap_usd) floor_usd) capital_usd) 2
     <= py_round (Qmax cap_usd floor_usd) 2.
Proof.
  split; apply py_round_mono.
  - apply Q.le_min_r.
  - split_minmax; lra.
Qed.

End SizingCaps.

(** X4: none of the three sizing methods ever returns more than the
    bankroll (rounded to cents); the late-window and 5m sizes also stay
    within the larger of the engine's max trade and the min trade; all
    are 0 without capital. *)
Theorem sizing_never_exceeds (rm : Risk.RiskManager) (c : Q) :
  (Risk.capital rm <= 0 ->
   Risk.calculate_position_size rm c = 0
   /\ Risk.calculate_late_window_size rm c = 0
   /\ Risk.calculate_5m_size rm c = 0)
  /\ (0 < Risk.capital rm ->
      Risk.calculate_position_size rm c <= py_round (Risk.capital rm) 2
      /\ Risk.calculate_late_window_size rm c <= py_round (Risk.capital rm) 2
      /\ Risk.calculate_5m_size rm c <= py_round (Risk.capital rm) 2
      /\ Risk.calculate_late_window_size rm c
         <= py_round (Qmax (Risk.late_window_max_trade_usd rm)
                           (Risk.min_trade_size_usd (Risk.config rm))) 2
      /\ Risk.calculate_5m_size rm c
         <= py_round (Qmax (Risk.fivem_max_trade_usd rm)
                          (Risk.min_trade_size_usd (Risk.config rm))) 2).
Proof.
  unfold Risk.calculate_position_size, Risk.calculate_late_window_size,
    Risk.calculate_5m_size.
  split; intro L.
  - apply Qleb_le in L. rewrite L. auto.
  - apply Qleb_gt in L. rewrite L.
    repeat split; try apply kelly_size_capped;
      apply py_round_mono; apply Q.le_min_r.
Qed.

Lemma sizing_never_exceeds_witness :
  let rm := Risk.init Risk.default_config 3 "2026-01-01" in
  Risk.calculate_5m_size rm (99 # 100) <= py_round 3 2.
Proof.
  intro rm.
  apply (sizing_never_exceeds rm (99 # 100)). reflexivity.
Defined.

(** ** Strategy engine: what a decision guarantees *)

(** X5: [analyze] sets should_trade only for a non-HOLD direction whose
    confidence reaches the threshold and whose edge covers the fee, and
    only such a decision (or a scored hold) enters the history;
    position_size_pct is 0 unless it trades and never above 10. *)
Theorem should_trade_sound (sqrt : Q -> Q) (cfg : Signal.StrategyConfig)
  (history : list Signal.StrategyDecision) (candles : list Signal.Candle)
  (current_price : Q) (open_price fee_pct : option Q)
  (d : Signal.StrategyDecision) (h : list Signal.StrategyDecision) :
  Signal.analyze sqrt cfg history candles current_price open_price fee_pct
  = Some (d, h) ->
  (Signal.should_trade d = true ->
   Signal.d_direction d <> Signal.HOLD
   /\ Signal.confidence_threshold cfg <= Signal.confidence d
   /\ default (156 # 100) fee_pct
      <= Qabs (Signal.confidence d - (1 # 2)) * 2 * 100
   /\ h = history ++ [d])
  /\ (Signal.should_trade d = false -> Signal.position_size_pct d = 0)
  /\ Signal.position_size_pct d <= 10
  /\ (h = history \/ h = history ++ [d]).
Proof.
  unfold Signal.analyze. intro H.
  assert (Z10 : (0 : Q) <= 10) by discriminate.
  destruct (length candles <? 30)%nat.
  { injection H as <- <-. simpl. repeat split; auto; discriminate. }
  destruct (Signal._volatility sqrt _) as [volatility|]; simpl in H;
    [| discriminate].
  destruct (Qltb volatility _).
  { injection H as <- <-. simpl. repeat split; auto; discriminate. }
  destruct (Qltb _ volatility).
  { injection H as <- <-. simpl. repeat split; auto; discriminate. }
  destruct (Signal.anchor_signal _ _) as [pvo|]; simpl in H; [| discriminate].
  destruct (Signal.indicators _ _) as [inds|]; simpl in H; [| discriminate].
  destruct (Signal.chop_filter _ _ _) as [chop|]; simpl in H;
    [| discriminate].
  destruct chop.
  { injection H as <- <-. simpl. repeat split; auto; discriminate. }
  destruct (Signal.score _ _) as [up_score down_score].
  destruct (Signal.choose up_score down_score) as [dir conf].
  destruct (Signal.agreement_filter _ dir _ _) as [why|].
  { injection H as <- <-. simpl. repeat split; auto; discriminate. }
  destruct (Qltb _ _ && negb (Signal.dir_eqb dir Signal.HOLD)) eqn:E.
  { injection H as <- <-. simpl. repeat split; auto; discriminate. }
  injection H as <- <-. simpl.
  destruct (negb (Signal.dir_eqb dir Signal.HOLD)) eqn:D; simpl.
  - rewrite andb_true_r in E. apply Qltb_ge in E.
    destruct (Qleb (Signal.confidence_threshold cfg) conf) eqn:T.
    + repeat split; auto; try discriminate.
      * intro X. subst dir. discriminate D.
      * apply Qleb_le. exact T.
      * apply Q.le_min_r.
    + repeat split; auto; discriminate.
  - repeat split; auto; discriminate.
Qed.

Lemma should_trade_sound_witness :
  match Signal.analyze Signal.sqrt_approx Samples.wide_config []
          Samples.step_candles 10020 (Some 10000) None with
  | Some (d, h) =>
      Signal.position_size_pct d <= 10 /\ (h = [] \/ h = [] ++ [d])
  | None => False
  end.
Proof.
  destruct (Signal.analyze Signal.sqrt_approx Samples.wide_config []
              Samples.step_candles 10020 (Some 10000) None)
    as [[d h]|] eqn:A.
  - exact (proj2 (proj2 (should_trade_sound _ _ _ _ _ _ _ d h A))).
  - exact (step_sample_high_drift_runs A).
Defined.

(** ** Late-window decisions *)

(** X6: [analyze_late_window] raises (a ZeroDivisionError) exactly when
    the anchor is positive, drift_scale_pct is 0 and the drift reaches
    min_drift_pct; on every other input it returns a decision. *)
Theorem late_window_raises_iff (p : LateWindow.Params)
  (history : list LateWindow.StrategyDecision)
  (current_price anchor_price time_remaining_secs : Q) :
  LateWindow.analyze_late_window p history current_price anchor_price
    time_remaining_secs = None
  <-> 0 < anchor_price
      /\ LateWindow.drift_scale_pct p == 0
      /\ LateWindow.min_drift_pct p
         <= Qabs ((current_price - anchor_price) / anchor_price * 100).
Proof.
  unfold LateWindow.analyze_late_window.
  destruct (Qleb anchor_price 0) eqn:A.
  { apply Qleb_le in A. split; [discriminate |].
    intros (P & _). exfalso. apply (Qlt_irrefl 0).
    apply Qlt_le_trans with anchor_price; assumption. }
  apply Qleb_gt in A.
  rewrite qdiv_some by (intro E; rewrite E in A; discriminate A).
  cbn [mbind option_bind].
  set (drift := (current_price - anchor_price) / anchor_price * 100).
  destruct (Qltb (Qabs drift) _) eqn:M.
  { apply Qltb_lt in M. split; [discriminate |].
    intros (_ & _ & L). exfalso. apply (Qlt_irrefl (Qabs drift)).
    apply Qlt_le_trans with (LateWindow.min_drift_pct p); assumption. }
  apply Qltb_ge in M.
  destruct (Qleb (LateWindow.drift_scale_pct p) (Qabs drift)) eqn:S; cbn [mbind option_bind].
  - destruct (Qeqb (LateWindow.drift_scale_pct p) 0) eqn:Z.
    + apply Qeqb_eq in Z. rewrite (qdiv_none _ _ Z). cbn [mbind option_bind].
      split; auto.
    + rewrite qdiv_some by (intro E; apply Qeqb_eq in E; congruence).
      cbn [mbind option_bind]. split; [discriminate |].
      intros (_ & E & _). apply Qeqb_eq in E. congruence.
  - apply Qleb_gt in S.
    assert (P : 0 < LateWindow.drift_scale_pct p)
      by (apply Qle_lt_trans with (Qabs drift);
          [apply Qabs_nonneg | exact S]).
    rewrite qdiv_some by (intro E; lra). cbn [mbind option_bind].
    rewrite qdiv_some by (intro E; lra). cbn [mbind option_bind].
    split; [discriminate |].
    intros (_ & E & _). lra.
Qed.

(** X7: a decision of [analyze_late_window] either trades or holds.  A
    trading decision is appended to the history, has a drift of at least
    min_drift_pct, points UP exactly when the drift is positive and DOWN
    otherwise, has a confidence of at most max_confidence (and at least
    base_confidence when base <= max) and asks for at most 10 percent;
    a holding decision has confidence 0 and size 0 and is not appended. *)
Theorem late_window_decision (p : LateWindow.Params)
  (history : list LateWindow.StrategyDecision)
  (current_price anchor_price time_remaining_secs : Q)
  (d : LateWindow.StrategyDecision) (h : list LateWindow.StrategyDecision) :
  LateWindow.analyze_late_window p history current_price anchor_price
    time_remaining_secs = Some (d, h) ->
  if LateWindow.should_trade d then
    h = history ++ [d]
    /\ (exists drift,
          LateWindow.drift_pct d = Some drift
          /\ LateWindow.min_drift_pct p <= Qabs drift
          /\ LateWindow.d_direction d
             = if Qltb 0 drift then Signal.UP else Signal.DOWN)
    /\ LateWindow.confidence d <= LateWindow.max_confidence p
    /\ (LateWindow.base_confidence p <= LateWindow.max_confidence p ->
        LateWindow.base_confidence p <= LateWindow.confidence d)
    /\ LateWindow.position_size_pct d <= 10
  else
    h = history
    /\ LateWindow.d_direction d = Signal.HOLD
    /\ LateWindow.confidence d = 0
    /\ LateWindow.position_size_pct d = 0.
Proof.
  unfold LateWindow.analyze_late_window.
  destruct (Qleb anchor_price 0).
  { intro H. injection H as <- <-. simpl. auto. }
  destruct (qdiv (current_price - anchor_price) anchor_price) as [r|];
    cbn [mbind option_bind]; [| discriminate].
  destruct (Qltb (Qabs (r * 100)) _) eqn:M.
  { intro H. injection H as <- <-. simpl. auto. }
  apply Qltb_ge in M.
  match goal with
  | |- context [mbind _ ?c] => destruct c as [c0|]
  end; cbn [mbind option_bind]; [| discriminate].
  destruct (qdiv (Qabs (r * 100)) _) as [s|]; cbn [mbind option_bind];
    [| discriminate].
  intro H. injection H as <- <-. simpl.
  set (lo := LateWindow.base_confidence p).
  set (hi := LateWindow.max_confidence p).
  assert (C1 : Qmin hi (Qmax lo c0) <= hi) by apply Q.le_min_l.
  assert (C2 : lo <= hi -> lo <= Qmin hi (Qmax lo c0)).
  { intro L. apply Q.min_glb; [exact L | apply Q.le_max_l]. }
  split; [reflexivity |]. split.
  { exists (r * 100). auto. }
  destruct (Qltb time_remaining_secs 60).
  - split; [apply Q.le_min_l |]. split; [| apply Q.le_min_r].
    intro L. apply Q.min_glb; [exact L |].
    apply Qle_trans with (Qmin hi (Qmax lo c0)); [auto |].
    rewrite <- (Qplus_0_r (Qmin hi (Qmax lo c0))) at 1.
    apply Qplus_le_r. discriminate.
  - split; [exact C1 |]. split; [exact C2 | apply Q.le_min_r].
Qed.

Lemma late_window_decision_witness :
  match LateWindow.analyze_late_window LateWindow.default_params [] 101 100
          30 with
  | Some (d, h) =>
      LateWindow.should_trade d = true
      /\ LateWindow.confidence d <= 95 # 100 /\ h = [d]
  | None => False
  end.
Proof.
  destruct (LateWindow.analyze_late_window LateWindow.default_params [] 101
              100 30) as [[d h]|] eqn:A.
  - pose proof (late_window_decision _ _ _ _ _ d h A) as B.
    assert (T : LateWindow.should_trade d = true).
    { revert A. vm_compute. intro A. injection A as <- _. reflexivity. }
    rewrite T in B. destruct B as (Hh & _ & C & _).
    repeat split; assumption.
  - revert A. vm_compute. discriminate.
Defined.

(** ** Strengths of the signals *)

Ltac bind_in H := cbn [mbind option_bind fmap option_fmap option_map] in H.
Ltac some_eq H := apply (inj Some) in H; subst.

Section SignalStrengths.
Import Signal.

Lemma price_vs_open_unit cur p s :
  _signal_price_vs_open cur p = Some s ->
  0 <= strength s /\ strength s <= 1.
Proof.
  unfold _signal_price_vs_open. intro H.
  destruct (qdiv _ _) as [r|]; bind_in H; [| discriminate].
  some_eq H. cbn [strength]. apply Qmin_one_unit.
  apply Qdiv_nonneg; [apply Qabs_nonneg | reflexivity].
Qed.

Lemma zero_unit : 0 <= 0 /\ 0 <= 1.
Proof. split; discriminate. Qed.

Lemma momentum_unit cfg cs s :
  _signal_momentum cfg cs = Some s -> 0 <= strength s /\ strength s <= 1.
Proof.
  unfold _signal_momentum. intro H. cbv zeta in H.
  destruct (_ <? 1)%nat.
  { some_eq H. apply zero_unit. }
  destruct (last cs) as [c|]; bind_in H; [| discriminate].
  destruct (cs !! _) as [c0|]; bind_in H; [| discriminate].
  destruct (qdiv _ _) as [r|]; bind_in H; [| discriminate].
  assert (U : 0 <= Qmin 1 (Qabs (r * 100) / (5 # 10))
              /\ Qmin 1 (Qabs (r * 100) / (5 # 10)) <= 1).
  { apply Qmin_one_unit.
    apply Qdiv_nonneg; [apply Qabs_nonneg | reflexivity]. }
  destruct (Qltb (2 # 100) _); [some_eq H; exact U |].
  destruct (Qltb _ _); some_eq H; [exact U | apply zero_unit].
Qed.

Lemma rsi_unit cfg cs s :
  _signal_rsi cfg cs = Some s -> 0 <= strength s /\ strength s <= 1.
Proof.
  unfold _signal_rsi. intro H. cbv zeta in H.
  destruct (_rsi _ _) as [rsi|]; bind_in H; [| discriminate].
  destruct (Qltb (rsi_overbought cfg) rsi) eqn:A.
  { some_eq H. apply Qltb_lt in A. cbn [strength].
    apply Qmin_one_unit.
    apply Qdiv_nonneg; [lra | reflexivity]. }
  apply Qltb_ge in A.
  destruct (Qltb rsi (rsi_oversold cfg)) eqn:B.
  { some_eq H. apply Qltb_lt in B. cbn [strength].
    apply Qmin_one_unit.
    apply Qdiv_nonneg; [lra | reflexivity]. }
  apply Qltb_ge in B.
  destruct (Qltb 50 rsi) eqn:C.
  - apply Qltb_lt in C.
    destruct (qdiv _ _) as [q|] eqn:D; bind_in H; [| discriminate].
    apply qdiv_inv in D as (_ & ->). some_eq H.
    cbn [strength].
    assert (0 <= (rsi - 50) / (rsi_overbought cfg - 50))
      by (apply Qdiv_nonneg; lra).
    assert ((rsi - 50) / (rsi_overbought cfg - 50) <= 1)
      by (apply Qdiv_le_one; lra).
    set (q := (rsi - 50) / (rsi_overbought cfg - 50)) in *. lra.
  - apply Qltb_ge in C.
    destruct (qdiv _ _) as [q|] eqn:D; bind_in H; [| discriminate].
    apply qdiv_inv in D as (N & ->). some_eq H.
    cbn [strength].
    assert (P : 0 < 50 - rsi_oversold cfg).
    { apply Qnot_le_lt. intro L. apply N. lra. }
    assert (0 <= (50 - rsi) / (50 - rsi_oversold cfg))
      by (apply Qdiv_nonneg; lra).
    assert ((50 - rsi) / (50 - rsi_oversold cfg) <= 1)
      by (apply Qdiv_le_one; lra).
    set (q := (50 - rsi) / (50 - rsi_oversold cfg)) in *. lra.
Qed.

Lemma boosted_unit (x k : Q) :
  0 <= k -> 0 <= x -> 0 <= Qmin 1 (x * k) /\ Qmin 1 (x * k) <= 1.
Proof.
  intros K X. apply Qmin_one_unit. apply Qmult_le_0_compat; assumption.
Qed.

Lemma macd_unit cfg cs s :
  (forall c, last (map close cs) = Some c -> 0 < c) ->
  _signal_macd cfg cs = Some s -> 0 <= strength s /\ strength s <= 1.
Proof.
  intros L. unfold _signal_macd. intro H. cbv zeta in H.
  destruct (_macd (map close cs) _ _ _) as [[[m sl] hist]|]; bind_in H;
    [| discriminate].
  destruct (qdiv _ _) as [q|] eqn:D; bind_in H; [| discriminate].
  apply qdiv_inv in D as (_ & ->).
  assert (P : 0 < default 1 (last (map close cs))).
  { destruct (last (map close cs)) as [c|]; simpl; [auto | reflexivity]. }
  set (c := default 1 (last (map close cs))) in *.
  assert (Q0 : 0 <= Qabs hist / c)
    by (apply Qdiv_nonneg; [apply Qabs_nonneg | exact P]).
  assert (N : 0 <= Qabs hist / c * 10000 / 10).
  { apply Qdiv_nonneg; [| reflexivity].
    apply Qmult_le_0_compat; [exact Q0 | discriminate]. }
  pose proof (Qmin_one_unit _ N) as U.
  destruct (2 <? _)%nat.
  - destruct (_macd _ _ _ _) as [prev|]; bind_in H; [| discriminate].
    destruct (Qltb _ _); some_eq H; cbn [strength]; [| exact U].
    apply boosted_unit; [discriminate | apply U].
  - some_eq H. exact U.
Qed.

Lemma ema_cross_unit cfg cs s :
  (forall c, last (map close cs) = Some c -> 0 < c) ->
  _signal_ema_cross cfg cs = Some s -> 0 <= strength s /\ strength s <= 1.
Proof.
  intros L. unfold _signal_ema_cross. intro H. cbv zeta in H.
  destruct (_ema _ (ema_fast cfg)) as [ef|]; bind_in H; [| discriminate].
  destruct (_ema _ (ema_slow cfg)) as [es|]; bind_in H; [| discriminate].
  destruct (last ef) as [f|], (last es) as [sl|];
    try (some_eq H; apply zero_unit).
  destruct (last (map close cs)) as [c|]; bind_in H; [| discriminate].
  specialize (L c eq_refl).
  destruct (qdiv _ _) as [q|] eqn:D; bind_in H; [| discriminate].
  apply qdiv_inv in D as (_ & ->).
  assert (Q0 : 0 <= Qabs (f - sl) / c)
    by (apply Qdiv_nonneg; [apply Qabs_nonneg | exact L]).
  assert (N : 0 <= Qabs (f - sl) / c * 100 / (15 # 100)).
  { apply Qdiv_nonneg; [| reflexivity].
    apply Qmult_le_0_compat; [exact Q0 | discriminate]. }
  pose proof (Qmin_one_unit _ N) as U.
  destruct (_ && _).
  - destruct (ef !! _) as [f2|]; bind_in H; [| discriminate].
    destruct (es !! _) as [s2|]; bind_in H; [| discriminate].
    destruct (Qltb _ _); some_eq H; cbn [strength]; [| exact U].
    apply boosted_unit; [discriminate | apply U].
  - some_eq H. exact U.
Qed.

Lemma indicators_unit cfg cs inds :
  (forall c, last (map close cs) = Some c -> 0 < c) ->
  indicators cfg cs = Some inds ->
  Forall (fun s => 0 <= strength s /\ strength s <= 1) inds.
Proof.
  intros L H. unfold indicators in H.
  destruct (_signal_momentum cfg cs) as [s1|] eqn:E1; bind_in H;
    [| discriminate].
  destruct (_signal_rsi cfg cs) as [s2|] eqn:E2; bind_in H;
    [| discriminate].
  destruct (_signal_macd cfg cs) as [s3|] eqn:E3; bind_in H;
    [| discriminate].
  destruct (_signal_ema_cross cfg cs) as [s4|] eqn:E4; bind_in H;
    [| discriminate].
  injection H as <-.
  repeat constructor.
  - apply (momentum_unit _ _ _ E1).
  - apply (momentum_unit _ _ _ E1).
  - apply (rsi_unit _ _ _ E2).
  - apply (rsi_unit _ _ _ E2).
  - apply (macd_unit _ _ _ L E3).
  - apply (macd_unit _ _ _ L E3).
  - apply (ema_cross_unit _ _ _ L E4).
  - apply (ema_cross_unit _ _ _ L E4).
Qed.

Lemma anchor_signal_unit cur op pvo :
  anchor_signal cur op = Some pvo ->
  Forall (fun s => 0 <= strength s /\ strength s <= 1) (option_list pvo).
Proof.
  unfold anchor_signal. intro H.
  destruct op as [p|]; [| injection H as <-; constructor].
  destruct (truthy p && Qltb 0 p); [| injection H as <-; constructor].
  destruct (_signal_price_vs_open cur p) as [s|] eqn:E; bind_in H;
    [| discriminate].
  injection H as <-. simpl. constructor; [| constructor].
  apply (price_vs_open_unit _ _ _ E).
Qed.

Lemma score_nonneg (weights : gmap string Q) (sigs : list Signal) :
  (forall k w, weights !! k = Some w -> 0 <= w) ->
  Forall (fun s => 0 <= strength s /\ strength s <= 1) sigs ->
  0 <= fst (score weights sigs) /\ 0 <= snd (score weights sigs).
Proof.
  intros W. unfold score.
  assert (G : forall acc : Q * Q,
            0 <= fst acc /\ 0 <= snd acc ->
            Forall (fun s => 0 <= strength s /\ strength s <= 1) sigs ->
            let r := fold_left
              (fun acc sig =>
                 let w := default 0 (weights !! name sig) in
                 match direction sig with
                 | UP => (fst acc + strength sig * w, snd acc)
                 | DOWN => (fst acc, snd acc + strength sig * w)
                 | HOLD => acc
                 end) sigs acc in
            0 <= fst r /\ 0 <= snd r).
  { induction sigs as [| s sigs IH]; intros acc A F; simpl; [exact A |].
    inversion F as [| ? ? [S0 _] F']; subst.
    apply IH; [| exact F'].
    assert (P : 0 <= strength s * default 0 (weights !! name s)).
    { apply Qmult_le_0_compat; [exact S0 |].
      destruct (weights !! name s) as [w|] eqn:E; simpl;
        [apply (W _ _ E) | discriminate]. }
    destruct A as [A1 A2].
    destruct (direction s); simpl; split; auto;
      (apply Qle_trans with (0 + 0); [discriminate |];
       apply Qplus_le_compat; assumption). }
  intro F. apply (G (0, 0)); [split; discriminate | exact F].
Qed.

Lemma choose_nonneg (up down : Q) :
  0 <= up -> 0 <= down -> 0 <= snd (choose up down).
Proof.
  intros U D. unfold choose.
  assert (M : 0 <= Qmin 1 ((up + down) / (5 # 10))).
  { apply Qmin_one_unit. apply Qdiv_nonneg; [lra | reflexivity]. }
  destruct (Qeqb (up + down) 0) eqn:Z.
  { cbn [snd]. apply Q.min_glb; [| discriminate].
    rewrite Qmult_0_l. discriminate. }
  assert (T : 0 < up + down).
  { apply Qnot_le_lt. intro L.
    assert (E : up + down == 0) by lra.
    apply Qeqb_eq in E. congruence. }
  destruct (Qltb down up); cbn [snd];
    (apply Q.min_glb; [| discriminate]);
    (apply Qmult_le_0_compat; [| exact M]);
    apply Qdiv_nonneg; assumption.
Qed.

Lemma weights_nonneg cfg anchored :
  0 <= weight_momentum cfg -> 0 <= weight_rsi cfg ->
  0 <= weight_macd cfg -> 0 <= weight_ema_cross cfg ->
  forall k w, weights_for cfg anchored !! k = Some w -> 0 <= w.
Proof.
  intros A B C D k w. unfold weights_for.
  destruct anchored; intro H;
    repeat (apply lookup_insert_Some in H as [[_ <-] | [_ H]];
            [try (apply Qmult_le_0_compat; [assumption | discriminate]);
             try discriminate; try assumption |]);
    rewrite lookup_empty in H; discriminate.
Qed.

Variable sqrt : Q -> Q.

Lemma analyze_signals cfg history candles current_price open_price fee_pct
  d h :
  analyze sqrt cfg history candles current_price open_price fee_pct
  = Some (d, h) ->
  (signals d = [] /\ confidence d = 0)
  \/ exists pvo inds up_score down_score,
      anchor_signal current_price open_price = Some pvo
      /\ indicators cfg candles = Some inds
      /\ signals d = option_list pvo ++ inds
      /\ score (weights_for cfg (anchor_present open_price))
               (option_list pvo ++ inds) = (up_score, down_score)
      /\ (confidence d = 0
          \/ confidence d = snd (choose up_score down_score)).
Proof.
  unfold analyze. intro H.
  destruct (length candles <? 30)%nat.
  { left. injection H as <- _. auto. }
  destruct (_volatility sqrt _) as [volatility|]; bind_in H;
    [| discriminate].
  destruct (Qltb volatility _).
  { left. injection H as <- _. auto. }
  destruct (Qltb _ volatility).
  { left. injection H as <- _. auto. }
  destruct (anchor_signal _ _) as [pvo|]; bind_in H; [| discriminate].
  destruct (indicators _ _) as [inds|]; bind_in H; [| discriminate].
  destruct (chop_filter _ _ _) as [chop|]; bind_in H; [| discriminate].
  right. exists pvo, inds.
  destruct (score _ _) as [up_score down_score].
  exists up_score, down_score.
  destruct chop.
  { injection H as <- _. simpl. repeat split; auto. }
  destruct (choose up_score down_score) as [dir conf] eqn:C.
  destruct (agreement_filter _ dir _ _) as [why|].
  { injection H as <- _. simpl. repeat split; auto. }
  destruct (Qltb _ _ && _); injection H as <- _; simpl; repeat split; auto.
Qed.

End SignalStrengths.

(** X9: when the last close is positive, every signal of a decision of
    [analyze] has a strength between 0 and 1; if the four configured
    weights are non-negative as well, the confidence is not negative. *)
Theorem signal_strengths_bounded (sqrt : Q -> Q)
  (cfg : Signal.StrategyConfig) (history : list Signal.StrategyDecision)
  (candles : list Signal.Candle) (current_price : Q)
  (open_price fee_pct : option Q)
  (d : Signal.StrategyDecision) (h : list Signal.StrategyDecision) :
  Signal.analyze sqrt cfg history candles current_price open_price fee_pct
  = Some (d, h) ->
  (forall c, last (map Signal.close candles) = Some c -> 0 < c) ->
  Forall (fun s => 0 <= Signal.strength s /\ Signal.strength s <= 1)
    (Signal.signals d)
  /\ (0 <= Signal.weight_momentum cfg -> 0 <= Signal.weight_rsi cfg ->
      0 <= Signal.weight_macd cfg -> 0 <= Signal.weight_ema_cross cfg ->
      0 <= Signal.confidence d).
Proof.
  intros A L.
  apply analyze_signals in A
    as [[-> ->] | (pvo & inds & up & down & P & I & -> & S & C)].
  { split; [constructor | intros; discriminate]. }
  assert (F : Forall (fun s => 0 <= Signal.strength s
                               /\ Signal.strength s <= 1)
                (option_list pvo ++ inds)).
  { apply Forall_app. split.
    - apply (anchor_signal_unit _ _ _ P).
    - apply (indicators_unit _ _ _ L I). }
  split; [exact F |].
  intros W1 W2 W3 W4.
  destruct C as [-> | ->]; [discriminate |].
  pose proof (score_nonneg _ _
                (weights_nonneg cfg (Signal.anchor_present open_price)
                   W1 W2 W3 W4) F) as N.
  rewrite S in N. simpl in N. destruct N. apply choose_nonneg; assumption.
Qed.

Lemma signal_strengths_bounded_witness :
  match Signal.analyze Signal.sqrt_approx Samples.wide_config []
          Samples.step_candles 10020 (Some 10000) None with
  | Some (d, _) =>
      Forall (fun s => 0 <= Signal.strength s /\ Signal.strength s <= 1)
        (Signal.signals d)
  | None => False
  end.
Proof.
  destruct (Signal.analyze Signal.sqrt_approx Samples.wide_config []
              Samples.step_candles 10020 (Some 10000) None)
    as [[d h]|] eqn:A.
  - refine (proj1 (signal_strengths_bounded _ _ _ _ _ _ _ d h A _)).
    intros c E. vm_compute in E. injection E as <-. reflexivity.
  - exact (step_sample_high_drift_runs A).
Defined.

(** ** Window boundaries *)

Section Clock.

Lemma hour_split (secs : Z) :
  let m := (secs mod 3600)%Z in
  (0 <= m < 3600 /\ 0 <= m / 60 < 60 /\ (m / 60) * 60 <= m < (m / 60) * 60 + 60
   /\ (secs - m) mod 3600 = 0)%Z.
Proof. cbv zeta. Z.div_mod_to_equations. lia. Qed.

Lemma window_start_bounds (minute mins : Z) :
  (0 <= minute -> 1 <= mins ->
   0 <= minute / mins * mins <= minute
   /\ minute < minute / mins * mins + mins)%Z.
Proof.
  intros M P.
  pose proof (Z.mul_div_le minute mins ltac:(lia)).
  pose proof (Z.mul_succ_div_gt minute mins ltac:(lia)).
  pose proof (Z.div_pos minute mins M ltac:(lia)).
  nia.
Qed.

Lemma Qfloor_inject (z : Z) : Qfloor (inject_Z z) = z.
Proof. apply Qfloor_Z. Qed.

End Clock.

Section ClockCore.

Lemma boundary_window (window_minutes : Z) (now : Q) :
  let b := Oracle._current_window_boundary window_minutes now in
  b <= py_round now 6
  /\ now < b + inject_Z (Z.max 1 window_minutes * 60).
Proof.
  cbv zeta. unfold Oracle._current_window_boundary.
  destruct (reading_second now) as [F1 F2].
  set (secs := fromtimestamp_second now) in *.
  destruct (hour_split secs) as (M & Mi & Ms & H0).
  set (m := (secs mod 3600)%Z) in *.
  assert (P : (1 <= Z.max 1 window_minutes)%Z) by lia.
  set (mins := Z.max 1 window_minutes) in *.
  destruct (window_start_bounds (m / 60) mins ltac:(lia) P) as (W1 & W2).
  set (w := (m / 60 / mins * mins)%Z) in *.
  split.
  - apply Qle_trans with (inject_Z secs); [| exact F1].
    rewrite <- Zle_Qle. lia.
  - apply Qlt_le_trans with (inject_Z (secs + 1)); [exact F2 |].
    rewrite <- inject_Z_plus, <- Zle_Qle. lia.
Qed.

Lemma next_boundary_exact (interval_mins : Z) (now : Q) :
  (Z.max 1 interval_mins | 60)%Z ->
  Bot._next_boundary interval_mins now
  == Oracle._current_window_boundary interval_mins now
     + inject_Z (Z.max 1 interval_mins * 60).
Proof.
  unfold Bot._next_boundary, Oracle._current_window_boundary.
  set (secs := fromtimestamp_second now) in *.
  destruct (hour_split secs) as (M & Mi & Ms & H0).
  set (m := (secs mod 3600)%Z) in *.
  assert (P : (1 <= Z.max 1 interval_mins)%Z) by lia.
  set (mins := Z.max 1 interval_mins) in *.
  destruct (window_start_bounds (m / 60) mins ltac:(lia) P) as (W1 & W2).
  replace ((m / 60 / mins + 1) * mins)%Z
    with (m / 60 / mins * mins + mins)%Z by lia.
  rewrite <- inject_Z_plus.
  intros [k K].
  destruct (60 <=? _)%Z eqn:C.
  - apply Z.leb_le in C. rewrite inject_Z_injective.
    set (q := (m / 60 / mins)%Z) in *.
    assert (q < k)%Z by nia.
    assert (q + 1 <= k)%Z by lia.
    assert (q * mins + mins = 60)%Z by nia. lia.
  - rewrite inject_Z_injective. lia.
Qed.

End ClockCore.

(** X10: the window boundary is computed from the clock reading rounded
    to the microsecond: it is not after that rounded reading, hence at
    most half a microsecond after [now]; [now] is less than one window
    length after it; and the boundary is its own boundary. *)
Theorem window_boundary_bounds (window_minutes : Z) (now : Q) :
  let b := Oracle._current_window_boundary window_minutes now in
  b <= py_round now 6
  /\ b <= now + (1 # 2000000)
  /\ now < b + inject_Z (Z.max 1 window_minutes * 60)
  /\ Oracle._current_window_boundary window_minutes b = b.
Proof.
  cbv zeta.
  destruct (boundary_window window_minutes now) as [B1 B2].
  destruct (reading_near now) as [_ N].
  split; [exact B1 |].
  split; [apply Qle_trans with (py_round now 6); assumption |].
  split; [exact B2 |].
  unfold Oracle._current_window_boundary.
  rewrite reading_of_second.
  set (secs := fromtimestamp_second now) in *.
  destruct (hour_split secs) as (M & Mi & Ms & H0).
  set (m := (secs mod 3600)%Z) in *.
  assert (P : (1 <= Z.max 1 window_minutes)%Z) by lia.
  set (mins := Z.max 1 window_minutes) in *.
  destruct (window_start_bounds (m / 60) mins ltac:(lia) P) as (W1 & W2).
  set (w := (m / 60 / mins * mins)%Z) in *.
  f_equal.
  assert (E : ((secs - m + w * 60) mod 3600 = w * 60)%Z).
  { clearbody w m secs. revert H0. Z.div_mod_to_equations. lia. }
  rewrite E.
  replace (secs - m + w * 60 - w * 60)%Z with (secs - m)%Z by lia.
  rewrite Z.div_mul by lia.
  unfold w. rewrite Z.div_mul by lia. reflexivity.
Qed.

(** X11: the bot's next boundary is after [now] and at most one interval
    after the oracle's window boundary; for an interval that divides 60
    it is exactly one interval after it. *)
Theorem next_boundary_adjacent (interval_mins : Z) (now : Q) :
  let nb := Bot._next_boundary interval_mins now in
  let b := Oracle._current_window_boundary interval_mins now in
  let len := inject_Z (Z.max 1 interval_mins * 60) in
  now < nb
  /\ nb <= b + len
  /\ ((Z.max 1 interval_mins | 60)%Z -> nb == b + len).
Proof.
  cbv zeta. split; [| split; [| apply next_boundary_exact]];
    unfold Bot._next_boundary, Oracle._current_window_boundary;
    destruct (reading_second now) as [F1 F2];
    set (secs := fromtimestamp_second now) in *;
    destruct (hour_split secs) as (M & Mi & Ms & H0);
    set (m := (secs mod 3600)%Z) in *;
    assert (P : (1 <= Z.max 1 interval_mins)%Z) by lia;
    set (mins := Z.max 1 interval_mins) in *;
    destruct (window_start_bounds (m / 60) mins ltac:(lia) P) as (W1 & W2);
    replace ((m / 60 / mins + 1) * mins)%Z
      with (m / 60 / mins * mins + mins)%Z by lia;
    set (w := (m / 60 / mins * mins)%Z) in *.
  - apply Qlt_le_trans with (inject_Z (secs + 1)); [exact F2 |].
    destruct (60 <=? w + mins)%Z eqn:C; rewrite <- Zle_Qle; lia.
  - rewrite <- inject_Z_plus.
    destruct (60 <=? w + mins)%Z eqn:C; rewrite <- Zle_Qle; [| lia].
    apply Z.leb_le in C. lia.
Qed.

Lemma next_boundary_adjacent_witness :
  Bot._next_boundary 15 1000 == Oracle._current_window_boundary 15 1000
                                + inject_Z (Z.max 1 15 * 60).
Proof.
  apply (next_boundary_adjacent 15 1000). exists 4%Z. reflexivity.
Defined.

(** X12: an anchor that [capture_window_open] returns at [now] carries a
    boundary that is not after the reading rounded to the microsecond,
    hence at most half a microsecond after [now], and [now] is less than
    one window length after it; for an interval dividing 60 that window
    ends at the bot's next boundary. *)
Theorem anchor_is_current_window (interval_mins : Z) (now later : Q)
  (fetched : option Oracle.ConsensusPrice) (o o' : Oracle.OracleEngine)
  (a : Oracle.WindowAnchor) :
  Oracle.capture_window_open interval_mins now later fetched o
  = (Some a, o') ->
  Oracle.boundary_time a <= py_round now 6
  /\ Oracle.boundary_time a <= now + (1 # 2000000)
  /\ now < Oracle.boundary_time a + inject_Z (Z.max 1 interval_mins * 60)
  /\ ((Z.max 1 interval_mins | 60)%Z ->
      Oracle.boundary_time a + inject_Z (Z.max 1 interval_mins * 60)
      == Bot._next_boundary interval_mins now).
Proof.
  intro C. apply capture_stores in C as [_ B].
  destruct (boundary_window interval_mins now) as [B1 B2].
  destruct (reading_near now) as [_ N].
  rewrite B. split; [exact B1 |].
  split; [apply Qle_trans with (py_round now 6); assumption |].
  split; [exact B2 |].
  intro D. symmetry. apply next_boundary_exact. exact D.
Qed.

Lemma anchor_is_current_window_witness :
  let c := Oracle.mkConsensus 50000 840 ["chainlink"] 0 1 (Some 50000) in
  match Oracle.capture_window_open 15 840 841 (Some c) Oracle.fresh with
  | (Some a, _) => Oracle.boundary_time a <= 840 + (1 # 2000000)
  | (None, _) => False
  end.
Proof.
  intro c.
  destruct (Oracle.capture_window_open 15 840 841 (Some c) Oracle.fresh)
    as [[a|] o'] eqn:E.
  - apply (anchor_is_current_window 15 840 841 (Some c) Oracle.fresh o' a E).
  - revert E. vm_compute. discriminate.
Defined.

(** X13: [_next_5m_boundary] is [_next_boundary] for a 5-minute interval,
    and [_is_also_15m_boundary] holds exactly when that boundary is also
    the next 15-minute boundary. *)
Theorem five_minute_overlap (now : Q) :
  Bot._next_5m_boundary now = Bot._next_boundary 5 now
  /\ (Bot._is_also_15m_boundary now = true
      <-> Bot._next_5m_boundary now == Bot._next_boundary 15 now).
Proof.
  split; [reflexivity |].
  unfold Bot._is_also_15m_boundary, Bot._next_5m_boundary,
    Bot._next_boundary.
  change (Z.max 1 15) with 15%Z.
  set (secs := fromtimestamp_second now).
  destruct (hour_split secs) as (M & Mi & Ms & H0).
  set (m := (secs mod 3600)%Z) in *.
  set (hs := (secs - m)%Z) in *.
  set (minute := (m / 60)%Z) in *.
  clearbody hs minute. clear Ms M. clearbody m. clear m secs.
  rewrite Z.eqb_eq.
  destruct (60 <=? (minute / 5 + 1) * 5)%Z eqn:A;
    destruct (60 <=? (minute / 15 + 1) * 15)%Z eqn:B;
    rewrite Qfloor_inject, inject_Z_injective;
    try apply Z.leb_le in A; try apply Z.leb_gt in A;
    try apply Z.leb_le in B; try apply Z.leb_gt in B;
    revert A B H0; Z.div_mod_to_equations; lia.
Qed.

(** ** Arbitrage scanner: limits, cooldown, fee curve *)

Section ArbLedger.
Import Py Arb.

Lemma note_near_miss_ledger now m sc :
  _daily_trades (note_near_miss now m sc) = _daily_trades sc
  /\ _daily_spent (note_near_miss now m sc) = _daily_spent sc
  /\ _cooldowns (note_near_miss now m sc) = _cooldowns sc.
Proof.
  unfold note_near_miss. destruct (_ && _); repeat split; reflexivity.
Qed.

Lemma note_best_edge_ledger net sc :
  _daily_trades (note_best_edge net sc) = _daily_trades sc
  /\ _daily_spent (note_best_edge net sc) = _daily_spent sc
  /\ _cooldowns (note_best_edge net sc) = _cooldowns sc.
Proof.
  unfold note_best_edge. destruct (Qltb _ _); repeat split; reflexivity.
Qed.

(** Detection leaves the ledger alone, and keeps no market that is still
    cooling down. *)
Lemma consider_ledger now m sc sc' keep :
  consider now m sc = (sc', keep) ->
  _daily_trades sc' = _daily_trades sc
  /\ _daily_spent sc' = _daily_spent sc
  /\ _cooldowns sc' = _cooldowns sc
  /\ (keep = true ->
      cooldown_per_market_secs (config sc)
      <= now - default 0 (_cooldowns sc !! condition_id m)).
Proof.
  unfold consider. intro H.
  destruct (note_near_miss_ledger now m sc) as (S1 & S2 & S3).
  destruct (note_best_edge_ledger (net_edge_pct m) (note_near_miss now m sc))
    as (T1 & T2 & T3).
  destruct (Qeqb (combined m) 0 || _).
  { injection H as <- <-. repeat split; discriminate. }
  destruct (Qleb (arb_threshold _) _).
  { injection H as <- <-. repeat split; auto; discriminate. }
  destruct (Qltb (edge_pct m) _).
  { injection H as <- <-. repeat split; auto; discriminate. }
  destruct (Qleb (net_edge_pct m) 0).
  { injection H as <- <-. repeat split; auto; discriminate. }
  destruct (Qltb (now - _) _) eqn:C.
  { injection H as <- <-. repeat split; try congruence; discriminate. }
  apply Qltb_ge in C. rewrite T3, S3 in C.
  destruct (Qltb (liquidity m) _); injection H as <- <-;
    repeat split; try congruence; try discriminate; auto.
Qed.

Lemma find_opportunities_ledger now markets sc opps sc' :
  _find_opportunities now markets sc = (opps, sc') ->
  _daily_trades sc' = _daily_trades sc
  /\ _daily_spent sc' = _daily_spent sc
  /\ _cooldowns sc' = _cooldowns sc
  /\ Forall (fun m =>
               cooldown_per_market_secs (config sc)
               <= now - default 0 (_cooldowns sc !! condition_id m)) opps.
Proof.
  revert sc opps sc'.
  induction markets as [| m rest IH]; intros sc opps sc' H; simpl in H.
  - injection H as <- <-. repeat split; constructor.
  - destruct (consider now m sc) as [sc1 keep] eqn:C.
    destruct (_find_opportunities now rest sc1) as [opps1 sc2] eqn:F.
    injection H as <- <-.
    pose proof (consider_keeps _ _ _ _ _ C) as (_ & Cf & _).
    apply consider_ledger in C as (E1 & E2 & E3 & K).
    apply IH in F as (A1 & A2 & A3 & A4).
    rewrite Cf, E3 in A4.
    repeat split; try congruence.
    destruct keep; [constructor; auto | exact A4].
Qed.

(** One execution either declines and changes nothing, or books exactly
    one pair within both daily limits. *)
Lemma execute_arb_ledger now client m sc r sc' :
  _execute_arb now client m sc = (r, sc') ->
  (sc' = sc /\ forall e, r <> Ok (Some e))
  \/ exists e,
      r = Ok (Some e)
      /\ _executions sc' = _executions sc ++ [e]
      /\ config sc' = config sc
      /\ _daily_trades sc' = (_daily_trades sc + 1)%Z
      /\ _daily_spent sc'
         = _daily_spent sc + size_per_side_usd (config sc) * 2
      /\ (_daily_trades sc < max_daily_arb_trades (config sc))%Z
      /\ _daily_spent sc' <= max_daily_arb_budget (config sc)
      /\ _cooldowns sc' = <[condition_id m := now]> (_cooldowns sc)
      /\ ex_condition_id e = condition_id m
      /\ ex_timestamp e = now
      /\ 0 < guaranteed_profit e.
Proof.
  unfold _execute_arb. intro H.
  destruct (_ <=? _)%Z eqn:T;
    [injection H as <- <-; left; split; [reflexivity | discriminate] |].
  destruct (Qltb _ _) eqn:B;
    [injection H as <- <-; left; split; [reflexivity | discriminate] |].
  destruct (qdiv 1 (combined m)) as [inv|];
    [| injection H as <- <-; left; split; [reflexivity | discriminate]].
  destruct (Qleb _ 0) eqn:P;
    [injection H as <- <-; left; split; [reflexivity | discriminate] |].
  destruct (place_both client m) as [[id_yes id_no] st].
  injection H as <- <-. right. eexists.
  apply Z.leb_gt in T. apply Qltb_ge in B. apply Qleb_gt in P.
  repeat split; try reflexivity; assumption.
Qed.

Lemma execute_all_ledger now client opps :
  forall sc r sc',
    execute_all now client opps sc = (r, sc') ->
    exists new,
      _executions sc' = _executions sc ++ new
      /\ config sc' = config sc
      /\ _daily_trades sc' = (_daily_trades sc + Z.of_nat (length new))%Z
      /\ _daily_spent sc'
         == _daily_spent sc
            + inject_Z (Z.of_nat (length new))
              * (size_per_side_usd (config sc) * 2)
      /\ ((_daily_trades sc <= max_daily_arb_trades (config sc))%Z ->
          (_daily_trades sc' <= max_daily_arb_trades (config sc))%Z)
      /\ (_daily_spent sc <= max_daily_arb_budget (config sc) ->
          _daily_spent sc' <= max_daily_arb_budget (config sc))
      /\ Forall (fun e => 0 < guaranteed_profit e /\ ex_timestamp e = now)
           new.
Proof.
  induction opps as [| m rest IH]; intros sc r sc' H; simpl in H.
  - injection H as <- <-. exists []. rewrite app_nil_r.
    change (Z.of_nat (length (@nil ArbExecution))) with 0%Z.
    repeat split; auto; try lia; try ring.
  - destruct (_execute_arb now client m sc) as [r1 sc1] eqn:X.
    assert (S : exists one,
               _executions sc1 = _executions sc ++ one
               /\ config sc1 = config sc
               /\ _daily_trades sc1
                  = (_daily_trades sc + Z.of_nat (length one))%Z
               /\ _daily_spent sc1
                  == _daily_spent sc
                     + inject_Z (Z.of_nat (length one))
                       * (size_per_side_usd (config sc) * 2)
               /\ ((_daily_trades sc <= max_daily_arb_trades (config sc))%Z
                   -> (_daily_trades sc1
                       <= max_daily_arb_trades (config sc))%Z)
               /\ (_daily_spent sc <= max_daily_arb_budget (config sc) ->
                   _daily_spent sc1 <= max_daily_arb_budget (config sc))
               /\ Forall (fun e => 0 < guaranteed_profit e
                                   /\ ex_timestamp e = now) one).
    { apply execute_arb_ledger in X
        as [[-> _] | (e & _ & E & C & T & Sp & Tl & Bl & _ & _ & Ts & G)].
      - exists []. rewrite app_nil_r.
        change (Z.of_nat (length (@nil ArbExecution))) with 0%Z.
        repeat split; auto; try lia; try ring.
      - exists [e]. change (Z.of_nat (length [e])) with 1%Z.
        split; [exact E |]. split; [exact C |]. split; [exact T |].
        split; [rewrite Sp; ring |].
        split; [intros _; lia |].
        split; [intros _; exact Bl |].
        constructor; [split; assumption | constructor]. }
    destruct S as (one & E1 & C1 & T1 & S1 & LT1 & LB1 & F1).
    assert (Done : forall r0, (r0, sc1) = (r, sc') ->
              exists new,
                _executions sc' = _executions sc ++ new
                /\ config sc' = config sc
                /\ _daily_trades sc'
                   = (_daily_trades sc + Z.of_nat (length new))%Z
                /\ _daily_spent sc'
                   == _daily_spent sc
                      + inject_Z (Z.of_nat (length new))
                        * (size_per_side_usd (config sc) * 2)
                /\ ((_daily_trades sc
                     <= max_daily_arb_trades (config sc))%Z ->
                    (_daily_trades sc'
                     <= max_daily_arb_trades (config sc))%Z)
                /\ (_daily_spent sc <= max_daily_arb_budget (config sc) ->
                    _daily_spent sc' <= max_daily_arb_budget (config sc))
                /\ Forall (fun e => 0 < guaranteed_profit e
                                    /\ ex_timestamp e = now) new).
    { intros r0 Q. injection Q as _ <-. exists one.
      repeat split; assumption. }
    destruct r1 as [x | e]; [| apply (Done _ H)].
    destruct (_ || _); [apply (Done _ H) |].
    apply IH in H as (more & E2 & C2 & T2 & S2 & LT2 & LB2 & F2).
    exists (one ++ more).
    rewrite C1 in *.
    repeat split.
    + rewrite E2, E1, app_assoc. reflexivity.
    + congruence.
    + rewrite T2, T1, length_app, Nat2Z.inj_add. lia.
    + rewrite S2, S1, length_app, Nat2Z.inj_add, inject_Z_plus. ring.
    + auto.
    + auto.
    + apply Forall_app. split; assumption.
Qed.

End ArbLedger.

(** X14: one pass of the scanner appends some executions and books
    exactly them: the daily trade count grows by their number and the
    daily spend by twice size_per_side_usd for each; a count and a spend
    within the daily limits stay within them; every execution appended
    has a positive profit after fees. *)
Theorem arb_limits_respected (now : Q) (client : option Arb.PlaceOrder)
  (markets : list Arb.ArbMarket) (sc sc' : Arb.ArbScanner)
  (r : Py.Result unit) :
  Arb.scan now client markets sc = (r, sc') ->
  exists new,
    Arb._executions sc' = Arb._executions sc ++ new
    /\ Arb._daily_trades sc'
       = (Arb._daily_trades sc + Z.of_nat (length new))%Z
    /\ Arb._daily_spent sc'
       == Arb._daily_spent sc
          + inject_Z (Z.of_nat (length new))
            * (Arb.size_per_side_usd (Arb.config sc) * 2)
    /\ ((Arb._daily_trades sc
         <= Arb.max_daily_arb_trades (Arb.config sc))%Z ->
        (Arb._daily_trades sc'
         <= Arb.max_daily_arb_trades (Arb.config sc))%Z)
    /\ (Arb._daily_spent sc <= Arb.max_daily_arb_budget (Arb.config sc) ->
        Arb._daily_spent sc' <= Arb.max_daily_arb_budget (Arb.config sc))
    /\ Forall (fun e => 0 < Arb.guaranteed_profit e
                        /\ Arb.ex_timestamp e = now) new.
Proof.
  unfold Arb.scan. intro H.
  destruct (Arb._find_opportunities now markets sc) as [opps sc1] eqn:F.
  pose proof (find_opportunities_sound _ _ _ _ _ F) as (_ & E0 & C0).
  apply find_opportunities_ledger in F as (T0 & S0 & _ & _).
  apply execute_all_ledger in H as (new & E & C & T & S & LT & LB & G).
  exists new. rewrite C0, E0, T0, S0 in *.
  repeat split; assumption.
Qed.

Lemma arb_limits_respected_witness :
  let sc := Arb.init Arb.default_config in
  let out := Arb.scan Samples.t0 None [Samples.cheap_pair] sc in
  (Arb._daily_trades (snd out) <= 50)%Z.
Proof.
  intros sc out.
  destruct (arb_limits_respected Samples.t0 None [Samples.cheap_pair] sc
              (snd out) (fst out))
    as (new & _ & _ & _ & LT & _).
  - symmetry. apply surjective_pairing.
  - apply LT. vm_compute. discriminate.
Defined.

(** X15: after [_execute_arb] has booked a market at [now], detection
    offers no market with that condition id at any time earlier than
    [now] plus cooldown_per_market_secs. *)
Theorem executed_market_cools_down (now later : Q)
  (client : option Arb.PlaceOrder) (m : Arb.ArbMarket)
  (sc sc1 : Arb.ArbScanner) (e : Arb.ArbExecution) :
  Arb._execute_arb now client m sc = (Py.Ok (Some e), sc1) ->
  later - now < Arb.cooldown_per_market_secs (Arb.config sc) ->
  forall markets opps sc2,
    Arb._find_opportunities later markets sc1 = (opps, sc2) ->
    Forall (fun x => Arb.condition_id x <> Arb.condition_id m) opps.
Proof.
  intros X L markets opps sc2 F.
  apply execute_arb_ledger in X
    as [[_ N] | (e' & _ & _ & C & _ & _ & _ & _ & K & _)].
  { exfalso. apply (N e). reflexivity. }
  apply find_opportunities_ledger in F as (_ & _ & _ & A).
  rewrite C, K in A.
  eapply Forall_impl; [exact A |].
  intros x Hx E. cbv beta in Hx. rewrite E, lookup_insert_eq in Hx.
  change (default 0 (Some now)) with now in Hx.
  apply (Qlt_irrefl (later - now)).
  apply Qlt_le_trans with (Arb.cooldown_per_market_secs (Arb.config sc));
    assumption.
Qed.

Lemma executed_market_cools_down_witness :
  let sc := Arb.init Arb.default_config in
  let out := Arb._execute_arb Samples.t0 None Samples.cheap_pair sc in
  match fst out with
  | Py.Ok (Some _) =>
      Forall (fun x => Arb.condition_id x
                       <> Arb.condition_id Samples.cheap_pair)
        (fst (Arb._find_opportunities (Samples.t0 + 60)
                [Samples.cheap_pair] (snd out)))
  | _ => False
  end.
Proof.
  intros sc out.
  destruct out as [r sc1] eqn:X. cbn [fst snd].
  destruct r as [[e|]|ex].
  - assert (L : Samples.t0 + 60 - Samples.t0
                 < Arb.cooldown_per_market_secs (Arb.config sc))
      by (vm_compute; reflexivity).
    apply (executed_market_cools_down Samples.t0 (Samples.t0 + 60) None
             Samples.cheap_pair sc sc1 e X L [Samples.cheap_pair] _
             (snd (Arb._find_opportunities (Samples.t0 + 60)
                     [Samples.cheap_pair] sc1))).
    apply surjective_pairing.
  - revert X. vm_compute. discriminate.
  - revert X. vm_compute. discriminate.
Defined.

(** X16: the estimated taker fee is never negative and never above 1.56,
    is 0 for a price outside the open interval from 0 to 1, and is the
    same for a price and for its complement. *)
Theorem fee_curve (p : Q) :
  0 <= Arb._estimate_taker_fee_pct p
  /\ Arb._estimate_taker_fee_pct p <= 156 # 100
  /\ (p <= 0 \/ 1 <= p -> Arb._estimate_taker_fee_pct p = 0)
  /\ Arb._estimate_taker_fee_pct (1 - p) == Arb._estimate_taker_fee_pct p.
Proof.
  split; [apply fee_nonneg |].
  unfold Arb._estimate_taker_fee_pct.
  split; [| split].
  - destruct (Qleb p 0) eqn:A; simpl; [discriminate |].
    destruct (Qleb 1 p) eqn:B; [discriminate |].
    apply Qleb_gt in A. apply Qleb_gt in B.
    apply Qle_trans with (py_round (156 # 100) 4).
    + apply py_round_mono.
      assert (S : 0 <= (2 * p - 1) * (2 * p - 1)).
      { destruct (Qlt_le_dec (2 * p - 1) 0) as [N | N].
        - apply Qle_trans with ((1 - 2 * p) * (1 - 2 * p)).
          + apply Qmult_le_0_compat; lra.
          + apply Qle_lteq. right. ring.
        - apply Qmult_le_0_compat; exact N. }
      lra.
    + vm_compute. discriminate.
  - intros [L | L]; apply Qleb_le in L; rewrite L; [reflexivity |].
    rewrite orb_true_r. reflexivity.
  - destruct (Qleb p 0) eqn:A; destruct (Qleb 1 p) eqn:B;
      destruct (Qleb (1 - p) 0) eqn:C; destruct (Qleb 1 (1 - p)) eqn:D;
      cbn [orb]; try reflexivity;
      try apply Qleb_le in A; try apply Qleb_gt in A;
      try apply Qleb_le in B; try apply Qleb_gt in B;
      try apply Qleb_le in C; try apply Qleb_gt in C;
      try apply Qleb_le in D; try apply Qleb_gt in D;
      try (exfalso; lra).
    apply py_round_comp. ring.
Qed.

(** ** Market maker: cancelling and fill detection *)

Section MakerQuotes.
Import Py MarketMaker.

Lemma fold_left_inv {A B : Type} (P : A -> Prop) (f : A -> B -> A)
  (l : list B) (a : A) :
  P a -> (forall a b, P a -> P (f a b)) -> P (fold_left f l a).
Proof.
  intros Pa Step. revert a Pa.
  induction l as [| b l IH]; intros a Pa; simpl; [exact Pa |].
  apply IH, Step, Pa.
Qed.

Lemma mem_true (x : string) (xs : list string) : mem x xs = true <-> In x xs.
Proof.
  unfold mem. rewrite existsb_exists. split.
  - intros (y & I & E). apply String.eqb_eq in E. subst. exact I.
  - intro I. exists x. split; [exact I | apply String.eqb_refl].
Qed.

Lemma mem_false (x : string) (xs : list string) :
  mem x xs = false <-> ~ In x xs.
Proof.
  rewrite <- mem_true. destruct (mem x xs); split; congruence.
Qed.

Lemma set_add_in (x y : string) (xs : list string) :
  In y (set_add x xs) <-> y = x \/ In y xs.
Proof.
  unfold set_add. destruct (mem x xs) eqn:M.
  - apply mem_true in M. split; [auto |]. intros [-> | I]; assumption.
  - rewrite in_app_iff. simpl. split.
    + intros [I | [-> | []]]; auto.
    + intros [-> | I]; auto.
Qed.

Lemma set_add_length (x : string) (xs : list string) :
  (length xs <= length (set_add x xs) <= S (length xs))%nat.
Proof.
  unfold set_add. destruct (mem x xs); [lia |].
  rewrite length_app. simpl. lia.
Qed.

Lemma last_n_length {A} (n : nat) (xs : list A) :
  (length (last_n n xs) <= n)%nat.
Proof. unfold last_n. rewrite length_drop. lia. Qed.

Lemma filter_split_length {A} (f : A -> bool) (l : list A) :
  (length (List.filter f l) + length (List.filter (fun x => negb (f x)) l)
   = length l)%nat.
Proof.
  induction l as [| x l IH]; simpl; [reflexivity |].
  destruct (f x); simpl; lia.
Qed.

Lemma cancel_ids_spec (cid : string) (qs : list ActiveQuote)
  (ids : list string) :
  let r :=
    fold_left
      (fun ids q =>
         if String.eqb (condition_id q) cid
            && negb (String.eqb (order_id q) "")
         then set_add (order_id q) ids else ids) qs ids in
  (forall x, In x ids -> In x r)
  /\ Forall (fun q => condition_id q = cid -> order_id q <> "" ->
                      In (order_id q) r) qs
  /\ (length r
      <= length ids
         + length (List.filter (fun q => String.eqb (condition_id q) cid)
                     qs))%nat.
Proof.
  cbv zeta. revert ids.
  induction qs as [| q qs IH]; intro ids; simpl.
  - repeat split; auto. lia.
  - set (ids1 := if String.eqb (condition_id q) cid
                    && negb (String.eqb (order_id q) "")
                 then set_add (order_id q) ids else ids).
    destruct (IH ids1) as (K & F & L).
    assert (Sub : forall x, In x ids -> In x ids1).
    { intros x I. unfold ids1. destruct (_ && _); [| exact I].
      apply set_add_in. right. exact I. }
    split; [intros x I; apply K, Sub, I |]. split.
    + constructor; [| exact F].
      intros C N. apply K. unfold ids1.
      apply String.eqb_eq in C. apply String.eqb_neq in N.
      rewrite C, N. simpl. apply set_add_in. left. reflexivity.
    + clear K F Sub. subst ids1.
      destruct (String.eqb (condition_id q) cid); simpl in *; [| exact L].
      destruct (negb _); simpl in L.
      * pose proof (set_add_length (order_id q) ids). lia.
      * lia.
Qed.

End MakerQuotes.

(** X17: [_cancel_all_for_market] drops exactly the active quotes of the
    market and keeps the others in order; it returns the number dropped
    and adds it to quotes_cancelled; afterwards the set of cancelled
    order ids holds at most 500 ids, and, when the old set and the
    dropped quotes together do not exceed 500, it holds the order id of
    every dropped quote that has one. *)
Theorem cancel_all_for_market_drops (cid : string)
  (mm : MarketMaker.MarketMaker) :
  let '(cancelled, mm') := MarketMaker._cancel_all_for_market cid mm in
  Forall (fun q => MarketMaker.condition_id q <> cid)
    (MarketMaker._active_quotes mm')
  /\ MarketMaker._active_quotes mm'
     = List.filter
         (fun q => negb (String.eqb (MarketMaker.condition_id q) cid))
         (MarketMaker._active_quotes mm)
  /\ (length (MarketMaker._active_quotes mm') + cancelled
      = length (MarketMaker._active_quotes mm))%nat
  /\ MarketMaker.quotes_cancelled (MarketMaker._stats mm')
     = (MarketMaker.quotes_cancelled (MarketMaker._stats mm)
        + Z.of_nat cancelled)%Z
  /\ (length (MarketMaker._cancelled_order_ids mm') <= 500)%nat
  /\ ((length (MarketMaker._cancelled_order_ids mm) + cancelled <= 500)%nat
      -> Forall (fun q => MarketMaker.condition_id q = cid ->
                          MarketMaker.order_id q <> "" ->
                          In (MarketMaker.order_id q)
                            (MarketMaker._cancelled_order_ids mm'))
           (MarketMaker._active_quotes mm)).
Proof.
  unfold MarketMaker._cancel_all_for_market. cbv zeta.
  split; [| split; [reflexivity | split; [| split; [reflexivity |]]]].
  - cbn [MarketMaker._active_quotes].
    induction (MarketMaker._active_quotes mm) as [| q qs IH]; simpl;
      [constructor |].
    destruct (String.eqb (MarketMaker.condition_id q) cid) eqn:E; simpl;
      [exact IH |].
    constructor; [| exact IH].
    apply String.eqb_neq. exact E.
  - cbn [MarketMaker._active_quotes].
    rewrite Nat.add_comm. apply filter_split_length.
  - cbn [MarketMaker._cancelled_order_ids].
    destruct (cancel_ids_spec cid (MarketMaker._active_quotes mm)
                (MarketMaker._cancelled_order_ids mm)) as (_ & F & B).
    split; [| intro S;
              replace (500 <? _)%nat with false
                by (symmetry; apply Nat.ltb_ge; lia);
              exact F].
    destruct (500 <? _)%nat eqn:L.
    + pose proof (last_n_length 200
        (fold_left
           (fun ids q =>
              if String.eqb (MarketMaker.condition_id q) cid
                 && negb (String.eqb (MarketMaker.order_id q) "")
              then MarketMaker.set_add (MarketMaker.order_id q) ids
              else ids)
           (MarketMaker._active_quotes mm)
           (MarketMaker._cancelled_order_ids mm))). lia.
    + apply Nat.ltb_ge in L. exact L.
Qed.

Section FillDetection.
Import Py MarketMaker.

(** What the detection loop maintains, relative to the maker [mm0] it
    started from. *)
Local Abbreviation detect_inv mm0 :=
  (fun acc : MarketMaker * list string =>
     config (fst acc) = config mm0
     /\ _active_quotes (fst acc) = _active_quotes mm0
     /\ _cancelled_order_ids (fst acc) = _cancelled_order_ids mm0
     /\ _daily_fills_usd (fst acc) - _daily_fills_usd mm0
        == (_yes_fills_usd (fst acc) - _yes_fills_usd mm0)
           + (_no_fills_usd (fst acc) - _no_fills_usd mm0)
     /\ total_fills_usd (_stats (fst acc)) - total_fills_usd (_stats mm0)
        == _daily_fills_usd (fst acc) - _daily_fills_usd mm0
     /\ Forall (fun id => id <> "" /\ ~ In id (_cancelled_order_ids mm0))
          (snd acc)).

Lemma detect_quote_inv mm0 open_ids q acc :
  detect_inv mm0 acc -> detect_inv mm0 (detect_quote open_ids q acc).
Proof.
  destruct acc as [mm filled]. cbn [fst snd].
  intros (C & A & K & D & T & F).
  unfold detect_quote.
  destruct (String.eqb (order_id q) "") eqn:E;
    [cbn [fst snd]; repeat split; assumption |].
  destruct (mem (order_id q) open_ids);
    [cbn [fst snd]; repeat split; assumption |].
  destruct (mem (order_id q) (_cancelled_order_ids mm)) eqn:M;
    [cbn [fst snd]; repeat split; assumption |].
  cbn [fst snd config _active_quotes _cancelled_order_ids _daily_fills_usd
       _yes_fills_usd _no_fills_usd _stats total_fills_usd].
  split; [exact C |]. split; [exact A |]. split; [exact K |].
  split; [| split].
  - destruct (Str.contains "YES" (side q)); lra.
  - lra.
  - apply List.Forall_forall. intros id I.
    apply set_add_in in I as [-> | I].
    + split; [apply String.eqb_neq; exact E |].
      rewrite <- K. apply mem_false. exact M.
    + rewrite List.Forall_forall in F. apply F. exact I.
Qed.

Lemma detect_loop_inv mm0 (open_orders : string -> list string)
  (keys : list string) (quotes : list ActiveQuote) acc :
  detect_inv mm0 acc ->
  detect_inv mm0
    (fold_left
       (fun acc cid =>
          fold_left (fun acc q => detect_quote (open_orders cid) q acc)
            (List.filter (fun q => String.eqb (condition_id q) cid) quotes)
            acc)
       keys acc).
Proof.
  intro I.
  apply (fold_left_inv (detect_inv mm0)); [exact I |].
  intros a cid Ia.
  apply (fold_left_inv (detect_inv mm0)); [exact Ia |].
  intros a' q Ia'. apply detect_quote_inv. exact Ia'.
Qed.

End FillDetection.

(** X18: [_detect_fills] only removes quotes from the active list; a
    quote without an order id, or whose order id is in the set of
    cancelled ids, stays active and is not counted; the amount added to
    the daily fills is the amount added to the YES fills plus the amount
    added to the NO fills, and the same amount is added to
    total_fills_usd. *)
Theorem detect_fills_accounting (open_orders : string -> list string)
  (mm : MarketMaker.MarketMaker) :
  let mm' := MarketMaker._detect_fills open_orders mm in
  (exists filled_ids,
     MarketMaker._active_quotes mm'
     = List.filter
         (fun q => negb (MarketMaker.mem (MarketMaker.order_id q) filled_ids))
         (MarketMaker._active_quotes mm)
     /\ Forall (fun id => id <> ""
                          /\ ~ In id (MarketMaker._cancelled_order_ids mm))
          filled_ids)
  /\ Forall (fun q =>
               MarketMaker.order_id q = ""
               \/ In (MarketMaker.order_id q)
                    (MarketMaker._cancelled_order_ids mm) ->
               In q (MarketMaker._active_quotes mm'))
       (MarketMaker._active_quotes mm)
  /\ MarketMaker._cancelled_order_ids mm'
     = MarketMaker._cancelled_order_ids mm
  /\ MarketMaker._daily_fills_usd mm' - MarketMaker._daily_fills_usd mm
     == (MarketMaker._yes_fills_usd mm' - MarketMaker._yes_fills_usd mm)
        + (MarketMaker._no_fills_usd mm' - MarketMaker._no_fills_usd mm)
  /\ MarketMaker.total_fills_usd (MarketMaker._stats mm')
     - MarketMaker.total_fills_usd (MarketMaker._stats mm)
     == MarketMaker._daily_fills_usd mm' - MarketMaker._daily_fills_usd mm.
Proof.
  cbv zeta.
  assert (G : forall mm1 filled,
            MarketMaker._active_quotes mm1 = MarketMaker._active_quotes mm ->
            Forall (fun id => id <> ""
                              /\ ~ In id (MarketMaker._cancelled_order_ids mm))
              filled ->
            Forall (fun q =>
               MarketMaker.order_id q = ""
               \/ In (MarketMaker.order_id q)
                    (MarketMaker._cancelled_order_ids mm) ->
               In q (List.filter
                       (fun q => negb (MarketMaker.mem
                                         (MarketMaker.order_id q) filled))
                       (MarketMaker._active_quotes mm)))
              (MarketMaker._active_quotes mm)).
  { intros mm1 filled _ F. apply List.Forall_forall. intros q I H.
    apply List.filter_In. split; [exact I |].
    apply negb_true_iff, mem_false. intro B.
    rewrite List.Forall_forall in F. destruct (F _ B) as [N C].
    destruct H as [H | H]; [apply N; exact H | apply C; exact H]. }
  unfold MarketMaker._detect_fills.
  destruct (MarketMaker._active_quotes mm) as [| q0 qs] eqn:Q.
  { split; [exists []; split; [rewrite Q; reflexivity | constructor] |].
    split; [constructor |]. split; [reflexivity |]. split; ring. }
  rewrite <- Q in *.
  pose proof (detect_loop_inv mm open_orders
                (MarketMaker.market_keys (MarketMaker._active_quotes mm) [])
                (MarketMaker._active_quotes mm) (mm, [])) as I.
  destruct (fold_left _ _ (mm, [])) as [mm1 filled].
  cbn [fst snd] in I.
  destruct I as (C & A & K & D & T & F).
  { repeat split; try reflexivity; try ring. constructor. }
  destruct filled as [| id ids].
  - split.
    + exists []. split; [| constructor]. rewrite A.
      clear. induction (MarketMaker._active_quotes mm) as [| q l IH];
        simpl; [reflexivity | f_equal; exact IH].
    + split; [| split; [exact K | split; assumption]].
      rewrite A. apply List.Forall_forall. intros q I _. exact I.
  - cbn [MarketMaker._active_quotes MarketMaker._cancelled_order_ids
         MarketMaker._daily_fills_usd MarketMaker._yes_fills_usd
         MarketMaker._no_fills_usd MarketMaker._stats].
    rewrite A.
    split; [exists (id :: ids); split; [reflexivity | exact F] |].
    split; [apply (G mm1 (id :: ids) A F) |].
    split; [exact K | split; assumption].
Qed.

(** ** Market maker: quotes *)

Section QuoteLevels.
Import Py MarketMaker Quoting.

Local Abbreviation offset_of cfg level :=
  (inject_Z (spread_bps cfg) / 10000
   + inject_Z (Z.of_nat level) * (inject_Z (level_spacing_bps cfg) / 10000)).

Local Abbreviation quote_ok cfg mid q :=
  (((q_side q = "YES"
     /\ q_price q = py_round (mid - offset_of cfg (q_level q)) 2)
    \/ (q_side q = "NO"
        /\ q_price q = py_round (1 - mid - offset_of cfg (q_level q)) 2))
   /\ 25 # 100 <= q_price q /\ q_price q <= 75 # 100 /\ 5 <= q_size q).

Local Abbreviation same_book mm mm' :=
  (config mm' = config mm
   /\ _active_quotes mm' = _active_quotes mm
   /\ _daily_fills_usd mm' = _daily_fills_usd mm
   /\ _yes_fills_usd mm' = _yes_fills_usd mm
   /\ _no_fills_usd mm' = _no_fills_usd mm
   /\ _cancelled_order_ids mm' = _cancelled_order_ids mm
   /\ skipped_for_imbalance (_stats mm') = skipped_for_imbalance (_stats mm)
   /\ quotes_posted (_stats mm') = quotes_posted (_stats mm)).

Lemma quote_side_step level quotes mm side price :
  let r := quote_side level (quotes, mm) (side, price) in
  same_book mm (snd r)
  /\ exists new,
      fst r = quotes ++ new
      /\ Forall (fun q => q_side q = side /\ q_price q = price
                          /\ q_level q = level
                          /\ 25 # 100 <= q_price q /\ q_price q <= 75 # 100
                          /\ 5 <= q_size q) new
      /\ (Z.of_nat (length new)
          + (skipped_extreme_price (_stats (snd r))
             - skipped_extreme_price (_stats mm)) = 1)%Z.
Proof.
  cbv zeta. unfold quote_side.
  destruct (Qltb price (25 # 100)) eqn:A; cbn [orb].
  { split; [repeat split |]. exists []. rewrite app_nil_r.
    split; [reflexivity |]. split; [constructor |]. simpl. lia. }
  destruct (Qltb (75 # 100) price) eqn:B.
  { split; [repeat split |]. exists []. rewrite app_nil_r.
    split; [reflexivity |]. split; [constructor |]. simpl. lia. }
  apply Qltb_ge in A. apply Qltb_ge in B.
  split; [repeat split |]. eexists. split; [reflexivity |]. split.
  - constructor; [| constructor]. cbn [q_side q_price q_level q_size].
    repeat split; try assumption.
    destruct (Qltb _ 5) eqn:S; [apply Qle_refl |].
    apply Qltb_ge in S. exact S.
  - cbn [snd length]. lia.
Qed.

Lemma quote_level_step mid quotes mm level :
  let r := quote_level mid (quotes, mm) level in
  same_book mm (snd r)
  /\ exists new,
      fst r = quotes ++ new
      /\ Forall (fun q => q_level q = level /\ quote_ok (config mm) mid q) new
      /\ (Z.of_nat (length new)
          + (skipped_extreme_price (_stats (snd r))
             - skipped_extreme_price (_stats mm)) = 2)%Z.
Proof.
  cbv zeta. unfold quote_level. cbn [snd fold_left].
  set (yes_bid := py_round (mid - offset_of (config mm) level) 2).
  set (no_bid := py_round (1 - mid - offset_of (config mm) level) 2).
  pose proof (quote_side_step level quotes mm "YES" yes_bid) as S1.
  cbv zeta in S1.
  destruct (quote_side level (quotes, mm) ("YES", yes_bid)) as [q1 m1].
  cbn [fst snd] in S1.
  destruct S1 as ((C1 & A1 & D1 & Y1 & N1 & K1 & I1 & P1) & new1 & -> & F1 & L1).
  pose proof (quote_side_step level (quotes ++ new1) m1 "NO" no_bid) as S2.
  cbv zeta in S2.
  destruct (quote_side level (quotes ++ new1, m1) ("NO", no_bid))
    as [q2 m2].
  cbn [fst snd] in *.
  destruct S2 as ((C2 & A2 & D2 & Y2 & N2 & K2 & I2 & P2) & new2 & -> & F2 & L2).
  split; [repeat split; congruence |].
  exists (new1 ++ new2). split; [symmetry; apply app_assoc |]. split.
  - apply Forall_app. split.
    + eapply Forall_impl; [exact F1 |]. cbv beta.
      intros q (S & P & Lv & B1 & B2 & Sz).
      split; [exact Lv |]. split; [| auto].
      left. rewrite Lv. split; [exact S | exact P].
    + eapply Forall_impl; [exact F2 |]. cbv beta.
      intros q (S & P & Lv & B1 & B2 & Sz).
      split; [exact Lv |]. split; [| auto].
      right. rewrite Lv. split; [exact S | exact P].
  - rewrite length_app, Nat2Z.inj_add. lia.
Qed.

Lemma calculate_levels_spec mid levels :
  forall quotes mm,
    let r := fold_left (quote_level mid) levels (quotes, mm) in
    same_book mm (snd r)
    /\ exists new,
        fst r = quotes ++ new
        /\ Forall (fun q => In (q_level q) levels
                            /\ quote_ok (config mm) mid q) new
        /\ (Z.of_nat (length new)
            + (skipped_extreme_price (_stats (snd r))
               - skipped_extreme_price (_stats mm))
            = 2 * Z.of_nat (length levels))%Z.
Proof.
  induction levels as [| level rest IH]; intros quotes mm; cbv zeta.
  - simpl. split; [repeat split |]. exists []. rewrite app_nil_r.
    split; [reflexivity |]. split; [constructor | simpl; lia].
  - cbn [fold_left].
    pose proof (quote_level_step mid quotes mm level) as S1.
    cbv zeta in S1.
    destruct (quote_level mid (quotes, mm) level) as [q1 m1].
    cbn [fst snd] in S1.
    destruct S1 as ((C1 & A1 & D1 & Y1 & N1 & K1 & I1 & P1) & new1 & -> & F1 & L1).
    specialize (IH (quotes ++ new1) m1). cbv zeta in IH.
    destruct IH as ((C2 & A2 & D2 & Y2 & N2 & K2 & I2 & P2) & new2 & E2 & F2 & L2).
    split; [repeat split; congruence |].
    exists (new1 ++ new2). split; [rewrite E2; symmetry; apply app_assoc |].
    split.
    + apply Forall_app. split.
      * eapply Forall_impl; [exact F1 |]. cbv beta.
        intros q (Lv & O). split; [left; symmetry; exact Lv | exact O].
      * eapply Forall_impl; [exact F2 |]. cbv beta.
        intros q (Lv & O). split; [right; exact Lv |].
        rewrite <- C1. exact O.
    + rewrite length_app, Nat2Z.inj_add. cbn [length].
      rewrite Nat2Z.inj_succ. lia.
Qed.

End QuoteLevels.

(** X19: every quote [_calculate_quotes] returns is a YES or NO bid at a
    level below num_levels, priced at the rounded mid (or its
    complement) less the level's offset, with a price between 0.25 and
    0.75 and a size of at least 5 shares; the quotes returned and the
    bids skipped for an extreme price add up to two for each level;
    nothing else of the maker changes. *)
Theorem calculate_quotes_safe (mid_price : Q) (mm : MarketMaker.MarketMaker) :
  let cfg := MarketMaker.config mm in
  let offset level :=
    inject_Z (MarketMaker.spread_bps cfg) / 10000
    + inject_Z (Z.of_nat level)
      * (inject_Z (MarketMaker.level_spacing_bps cfg) / 10000) in
  let '(quotes, mm') := Quoting._calculate_quotes mid_price mm in
  Forall (fun q =>
            (Quoting.q_level q < MarketMaker.num_levels cfg)%nat
            /\ ((Quoting.q_side q = "YES"
                 /\ Quoting.q_price q
                    = py_round (mid_price - offset (Quoting.q_level q)) 2)
                \/ (Quoting.q_side q = "NO"
                    /\ Quoting.q_price q
                       = py_round (1 - mid_price
                                   - offset (Quoting.q_level q)) 2))
            /\ 25 # 100 <= Quoting.q_price q
            /\ Quoting.q_price q <= 75 # 100
            /\ 5 <= Quoting.q_size q) quotes
  /\ (Z.of_nat (length quotes)
      + (MarketMaker.skipped_extreme_price (MarketMaker._stats mm')
         - MarketMaker.skipped_extreme_price (MarketMaker._stats mm))
      = 2 * Z.of_nat (MarketMaker.num_levels cfg))%Z
  /\ MarketMaker.config mm' = cfg
  /\ MarketMaker._active_quotes mm' = MarketMaker._active_quotes mm
  /\ MarketMaker._daily_fills_usd mm' = MarketMaker._daily_fills_usd mm.
Proof.
  cbv zeta. unfold Quoting._calculate_quotes.
  pose proof (calculate_levels_spec mid_price
                (seq 0 (MarketMaker.num_levels (MarketMaker.config mm)))
                [] mm) as S.
  cbv zeta in S.
  destruct (fold_left _ _ _) as [quotes mm'].
  cbn [fst snd] in S.
  destruct S as ((C & A & D & _) & new & -> & F & L).
  rewrite length_seq in L. cbn [app].
  split; [| repeat split; assumption].
  eapply Forall_impl; [exact F |]. cbv beta.
  intros q (I & O). split; [| exact O].
  apply in_seq in I. lia.
Qed.

(** X20: when level_spacing_bps is not negative, any YES bid and any NO
    bid that [_calculate_quotes] returns cost together at most
    1 - 2 * spread_bps / 10000 + 0.01: with a half-spread of 50 basis
    points or more, a filled pair never costs more than it pays. *)
Theorem quotes_never_cross (mid_price : Q) (mm : MarketMaker.MarketMaker) :
  (0 <= MarketMaker.level_spacing_bps (MarketMaker.config mm))%Z ->
  forall y n,
    In y (fst (Quoting._calculate_quotes mid_price mm)) ->
    In n (fst (Quoting._calculate_quotes mid_price mm)) ->
    Quoting.q_side y = "YES" -> Quoting.q_side n = "NO" ->
    Quoting.q_price y + Quoting.q_price n
    <= 1 - 2 * (inject_Z (MarketMaker.spread_bps (MarketMaker.config mm))
                / 10000)
       + (1 # 100).
Proof.
  intros P y n Iy In Sy Sn.
  unfold Quoting._calculate_quotes in Iy, In.
  pose proof (calculate_levels_spec mid_price
                (seq 0 (MarketMaker.num_levels (MarketMaker.config mm)))
                [] mm) as S.
  cbv zeta in S.
  destruct (fold_left _ _ _) as [quotes mm'].
  cbn [fst snd] in *.
  destruct S as (_ & new & -> & F & _). cbn [app] in *.
  rewrite List.Forall_forall in F.
  destruct (F y Iy) as (_ & [[_ Py] | [Sy' _]] & _); [| congruence].
  destruct (F n In) as (_ & [[Sn' _] | [_ Pn]] & _); [congruence |].
  rewrite Py, Pn.
  set (hs := inject_Z (MarketMaker.spread_bps (MarketMaker.config mm))
             / 10000).
  assert (St : 0 <= inject_Z (MarketMaker.level_spacing_bps
                                (MarketMaker.config mm)) / 10000).
  { apply Qdiv_nonneg; [| reflexivity].
    change 0 with (inject_Z 0). rewrite <- Zle_Qle. exact P. }
  set (st := inject_Z (MarketMaker.level_spacing_bps (MarketMaker.config mm))
             / 10000) in *.
  assert (L : forall k : nat, 0 <= inject_Z (Z.of_nat k) * st).
  { intro k. apply Qmult_le_0_compat; [| exact St].
    change 0 with (inject_Z 0). rewrite <- Zle_Qle. lia. }
  pose proof (L (Quoting.q_level y)) as Ly.
  pose proof (L (Quoting.q_level n)) as Ln.
  pose proof (py_round_cents_upper
                (mid_price - (hs + inject_Z (Z.of_nat (Quoting.q_level y))
                                   * st))) as Uy.
  pose proof (py_round_cents_upper
                (1 - mid_price
                 - (hs + inject_Z (Z.of_nat (Quoting.q_level n)) * st)))
    as Un.
  lra.
Qed.

Lemma quotes_never_cross_witness :
  match fst (Quoting._calculate_quotes (1 # 2)
               (MarketMaker.init MarketMaker.default_config 0)) with
  | [y; n] =>
      Quoting.q_price y + Quoting.q_price n
      <= 1 - 2 * (inject_Z 400 / 10000) + (1 # 100)
  | _ => False
  end.
Proof.
  assert (P : (0 <= MarketMaker.level_spacing_bps
                      (MarketMaker.config
                         (MarketMaker.init MarketMaker.default_config 0)))%Z)
    by (simpl; lia).
  pose proof (quotes_never_cross (1 # 2)
                (MarketMaker.init MarketMaker.default_config 0) P) as T.
  destruct (fst (Quoting._calculate_quotes (1 # 2)
                   (MarketMaker.init MarketMaker.default_config 0)))
    as [| y [| n [| z rest]]] eqn:E;
    try (revert E; vm_compute; discriminate).
  apply (T y n).
  - left. reflexivity.
  - right. left. reflexivity.
  - revert E. vm_compute. intro E. injection E as <- _. reflexivity.
  - revert E. vm_compute. intro E. injection E as _ <-. reflexivity.
Defined.

Section PostQuotes.
Import Py MarketMaker Quoting.

Local Abbreviation posted_ok info skip a :=
  (condition_id a = mi_condition_id info
   /\ ((side a = "BUY_YES" /\ token_id a = token_yes info
        /\ skip <> Some "YES")
       \/ (side a = "BUY_NO" /\ token_id a = token_no info
           /\ skip <> Some "NO"))
   /\ 25 # 100 <= price a /\ price a <= 75 # 100 /\ 5 <= size a).

Lemma post_loop_spec place now info skip quotes :
  Forall (fun q => (q_side q = "YES" \/ q_side q = "NO")
                   /\ 25 # 100 <= q_price q /\ q_price q <= 75 # 100
                   /\ 5 <= q_size q) quotes ->
  forall calls mm,
    let mm' := post_loop place now info skip calls quotes mm in
    config mm' = config mm
    /\ _daily_fills_usd mm' = _daily_fills_usd mm
    /\ _yes_fills_usd mm' = _yes_fills_usd mm
    /\ _no_fills_usd mm' = _no_fills_usd mm
    /\ exists new,
        _active_quotes mm' = _active_quotes mm ++ new
        /\ Forall (fun a => posted_ok info skip a) new
        /\ (length new
            <= max_open_orders (config mm) - length (_active_quotes mm))%nat
        /\ quotes_posted (_stats mm')
           = (quotes_posted (_stats mm) + Z.of_nat (length new))%Z.
Proof.
  induction 1 as [| q rest (Sd & B1 & B2 & Sz) _ IH]; intros calls mm;
    cbv zeta.
  { simpl. repeat split. exists []. rewrite app_nil_r. simpl.
    repeat split; [constructor | lia | lia]. }
  cbn [post_loop].
  destruct (_ <=? _)%nat eqn:Cap.
  { repeat split. exists []. rewrite app_nil_r. simpl.
    repeat split; [constructor | lia | lia]. }
  apply Nat.leb_gt in Cap.
  destruct (match skip with
            | Some s => String.eqb (q_side q) s
            | None => false
            end) eqn:Sk.
  { apply IH. }
  assert (NS : skip <> Some (q_side q)).
  { intro E. rewrite E, String.eqb_refl in Sk. discriminate. }
  destruct (place calls _ (q_price q) (q_size q)) as [oid|].
  - specialize (IH (S calls)
                  (add_quote
                     (mkQuote oid
                        (if String.eqb (q_side q) "YES" then token_yes info
                         else token_no info)
                        (mi_condition_id info) ("BUY_" ++ q_side q)
                        (q_price q) (q_size q) now (mi_timeframe info)) mm)).
    cbv zeta in IH.
    destruct IH as (C & D & Y & N & new & A & F & L & P).
    cbn [add_quote config _daily_fills_usd _yes_fills_usd _no_fills_usd
         _active_quotes _stats quotes_posted] in *.
    split; [exact C |]. split; [exact D |]. split; [exact Y |].
    split; [exact N |].
    eexists (_ :: new). split; [rewrite A, <- app_assoc; reflexivity |].
    split; [| split].
    + constructor; [| exact F].
      cbn [condition_id side token_id price size].
      split; [reflexivity |]. split; [| auto].
      destruct Sd as [E | E]; rewrite E in *; [left | right];
        repeat split; assumption.
    + rewrite length_app in L. simpl in *. lia.
    + rewrite P. cbn [length]. rewrite Nat2Z.inj_succ. lia.
  - specialize (IH (S calls) (bump_rejected mm)). cbv zeta in IH.
    exact IH.
Qed.

Lemma get_imbalance_heavy mm imb heavy :
  _get_imbalance mm = (imb, heavy) ->
  (heavy = "YES" -> imb == _yes_fills_usd mm - _no_fills_usd mm /\ 0 < imb)
  /\ (heavy = "NO" ->
      imb == _no_fills_usd mm - _yes_fills_usd mm /\ 0 < imb)
  /\ (0 < _yes_fills_usd mm - _no_fills_usd mm -> heavy = "YES")
  /\ (_yes_fills_usd mm - _no_fills_usd mm < 0 -> heavy = "NO").
Proof.
  unfold _get_imbalance.
  set (d := _yes_fills_usd mm - _no_fills_usd mm).
  destruct (Qltb 0 d) eqn:A.
  { apply Qltb_lt in A. intro H. injection H as <- <-.
    repeat split; try discriminate; try lra; auto. }
  apply Qltb_ge in A.
  destruct (Qltb d 0) eqn:B.
  { apply Qltb_lt in B.
    assert (E : Qabs d == - d) by (apply Qabs_neg; lra).
    intro H. apply pair_equal_spec in H as [<- <-].
    split; [discriminate |].
    split; [intros _; rewrite E; unfold d; split; [ring | fold d; lra] |].
    split; [intro; exfalso; lra | reflexivity]. }
  apply Qltb_ge in B. intro H. injection H as <- <-.
  repeat split; try discriminate; lra.
Qed.

End PostQuotes.

(** X21: [_post_quotes] only appends quotes, all on the market it was
    called for, each a BUY_YES on the YES token or a BUY_NO on the NO
    token with a price between 0.25 and 0.75 and at least 5 shares; it
    never takes the number of active quotes past max_open_orders; it
    posts nothing once the daily fills have reached max_daily_budget;
    while the YES (or NO) fills lead by max_inventory_imbalance or more,
    it posts no BUY_YES (or BUY_NO); quotes_posted grows by the number
    appended and the fill totals stay as they are. *)
Theorem post_quotes_safe (place : Quoting.Place) (fee : Py.Result Z)
  (now : Q) (info : MarketMaker.MarketInfo) (mid_price : Q)
  (mm mm' : MarketMaker.MarketMaker) (r : Py.Result unit) :
  Quoting._post_quotes place fee now info mid_price mm = (r, mm') ->
  let cfg := MarketMaker.config mm in
  let lead := MarketMaker._yes_fills_usd mm - MarketMaker._no_fills_usd mm in
  exists new,
    MarketMaker._active_quotes mm' = MarketMaker._active_quotes mm ++ new
    /\ Forall (fun a =>
                 MarketMaker.condition_id a
                 = MarketMaker.mi_condition_id info
                 /\ ((MarketMaker.side a = "BUY_YES"
                      /\ MarketMaker.token_id a = MarketMaker.token_yes info)
                     \/ (MarketMaker.side a = "BUY_NO"
                         /\ MarketMaker.token_id a
                            = MarketMaker.token_no info))
                 /\ 25 # 100 <= MarketMaker.price a
                 /\ MarketMaker.price a <= 75 # 100
                 /\ 5 <= MarketMaker.size a) new
    /\ (length new
        <= MarketMaker.max_open_orders cfg
           - length (MarketMaker._active_quotes mm))%nat
    /\ (MarketMaker.max_daily_budget cfg <= MarketMaker._daily_fills_usd mm
        -> new = [])
    /\ (0 < lead -> MarketMaker.max_inventory_imbalance cfg <= lead ->
        Forall (fun a => MarketMaker.side a <> "BUY_YES") new)
    /\ (lead < 0 -> MarketMaker.max_inventory_imbalance cfg <= - lead ->
        Forall (fun a => MarketMaker.side a <> "BUY_NO") new)
    /\ MarketMaker.quotes_posted (MarketMaker._stats mm')
       = (MarketMaker.quotes_posted (MarketMaker._stats mm)
          + Z.of_nat (length new))%Z
    /\ MarketMaker._daily_fills_usd mm' = MarketMaker._daily_fills_usd mm
    /\ MarketMaker._yes_fills_usd mm' = MarketMaker._yes_fills_usd mm
    /\ MarketMaker._no_fills_usd mm' = MarketMaker._no_fills_usd mm.
Proof.
  intros H. cbv zeta.
  unfold Quoting._post_quotes in H.
  destruct (Qleb _ (MarketMaker._daily_fills_usd mm)) eqn:Bud.
  { injection H as <- <-. exists []. rewrite app_nil_r. simpl.
    repeat split; auto; try constructor; try lia. }
  apply Qleb_gt in Bud.
  destruct (_ <=? _)%nat.
  { injection H as <- <-. exists []. rewrite app_nil_r. simpl.
    repeat split; auto; try constructor; try lia. }
  destruct (Quoting._get_imbalance mm) as [imb heavy] eqn:G.
  apply get_imbalance_heavy in G as (GY & GN & HY & HN).
  set (sk := if Qleb (MarketMaker.max_inventory_imbalance
                        (MarketMaker.config mm)) imb
             then (Some heavy, Quoting.bump_imbalance mm)
             else (None, mm)) in H.
  assert (K : MarketMaker.config (snd sk) = MarketMaker.config mm
              /\ MarketMaker._active_quotes (snd sk)
                 = MarketMaker._active_quotes mm
              /\ MarketMaker.quotes_posted (MarketMaker._stats (snd sk))
                 = MarketMaker.quotes_posted (MarketMaker._stats mm)
              /\ MarketMaker._daily_fills_usd (snd sk)
                 = MarketMaker._daily_fills_usd mm
              /\ MarketMaker._yes_fills_usd (snd sk)
                 = MarketMaker._yes_fills_usd mm
              /\ MarketMaker._no_fills_usd (snd sk)
                 = MarketMaker._no_fills_usd mm
              /\ (0 < MarketMaker._yes_fills_usd mm
                      - MarketMaker._no_fills_usd mm ->
                  MarketMaker.max_inventory_imbalance (MarketMaker.config mm)
                  <= MarketMaker._yes_fills_usd mm
                     - MarketMaker._no_fills_usd mm ->
                  fst sk = Some "YES")
              /\ (MarketMaker._yes_fills_usd mm
                  - MarketMaker._no_fills_usd mm < 0 ->
                  MarketMaker.max_inventory_imbalance (MarketMaker.config mm)
                  <= - (MarketMaker._yes_fills_usd mm
                        - MarketMaker._no_fills_usd mm) ->
                  fst sk = Some "NO")).
  { unfold sk.
    destruct (Qleb _ imb) eqn:I; cbn [fst snd]; repeat split; auto.
    - intros P _. rewrite (HY P). reflexivity.
    - intros P _. rewrite (HN P). reflexivity.
    - intros P L. exfalso. apply Qleb_gt in I.
      destruct (GY (HY P)) as [E _]. lra.
    - intros P L. exfalso. apply Qleb_gt in I.
      destruct (GN (HN P)) as [E _]. lra. }
  destruct sk as [skip m1]. cbn [fst snd] in K.
  destruct K as (C1 & A1 & P1 & D1 & Y1 & N1 & SY & SN).
  destruct fee as [f | e].
  2:{ injection H as <- <-. exists []. rewrite app_nil_r. simpl.
      repeat split; auto; try constructor; try lia. }
  pose proof (calculate_levels_spec mid_price
                (seq 0 (MarketMaker.num_levels (MarketMaker.config m1)))
                [] m1) as S.
  cbv zeta in S. unfold Quoting._calculate_quotes in H.
  destruct (fold_left _ _ _) as [quotes m2].
  cbn [fst snd] in S.
  destruct S as ((C2 & A2 & D2 & Y2 & N2 & _ & _ & P2) & new0 & -> & F & _).
  cbn [app] in H.
  injection H as <- <-.
  assert (Q0 : Forall (fun q =>
                 (Quoting.q_side q = "YES" \/ Quoting.q_side q = "NO")
                 /\ 25 # 100 <= Quoting.q_price q
                 /\ Quoting.q_price q <= 75 # 100
                 /\ 5 <= Quoting.q_size q) new0).
  { eapply Forall_impl; [exact F |]. cbv beta.
    intros q (_ & [[S _] | [S _]] & B); split; auto. }
  pose proof (post_loop_spec place now info skip new0 Q0 0%nat m2) as L.
  cbv zeta in L.
  destruct L as (C3 & D3 & Y3 & N3 & new & A3 & F3 & L3 & P3).
  exists new.
  rewrite A3, A2, A1. split; [reflexivity |].
  rewrite C2, C1 in L3. rewrite A2, A1 in L3.
  split; [| split; [exact L3 |]].
  { eapply Forall_impl; [exact F3 |]. cbv beta.
    intros a (Cd & [(S & T & _) | (S & T & _)] & B); split; auto. }
  split; [intro B; exfalso; lra |].
  split; [| split].
  - intros P B. rewrite (SY P B) in F3.
    eapply Forall_impl; [exact F3 |]. cbv beta.
    intros a (_ & [(_ & _ & X) | (S & _ & _)] & _);
      [congruence | rewrite S; discriminate].
  - intros P B.
    assert (B' : MarketMaker.max_inventory_imbalance (MarketMaker.config mm)
                 <= - (MarketMaker._yes_fills_usd mm
                       - MarketMaker._no_fills_usd mm)) by lra.
    rewrite (SN P B') in F3.
    eapply Forall_impl; [exact F3 |]. cbv beta.
    intros a (_ & [(S & _ & _) | (_ & _ & X)] & _);
      [rewrite S; discriminate | congruence].
  - repeat split; congruence.
Qed.

Lemma post_quotes_safe_witness :
  let mm := MarketMaker.init MarketMaker.default_config 0 in
  let info := MarketMaker.mkInfo "0xA" "15m" "tokA-yes" "tokA-no" None in
  let out := Quoting._post_quotes (fun _ _ _ _ => Some "o1") (Py.Ok 0%Z) 0
               info (1 # 2) mm in
  (length (MarketMaker._active_quotes (snd out)) <= 4)%nat.
Proof.
  intros mm info out.
  destruct (post_quotes_safe (fun _ _ _ _ => Some "o1") (Py.Ok 0%Z) 0 info
              (1 # 2) mm (snd out) (fst out))
    as (new & A & _ & L & _).
  - symmetry. apply surjective_pairing.
  - rewrite A, length_app. simpl in L. simpl. lia.
Defined.

(** ** Exchange client: resolutions and pruning *)

Section Resolutions.
Import Py Client Resolution.

(** What one pass of the loop does to a record. *)
Lemma resolve_one_spec answer r r' w :
  resolve_one answer r = (r', w) ->
  trade_id r' = trade_id r
  /\ size_usd r' = size_usd r
  /\ entry_price r' = entry_price r
  /\ timestamp r' = timestamp r
  /\ (outcome r <> None -> r' = r /\ w = None)
  /\ (w <> None ->
      outcome r = None
      /\ ((outcome r' = Some "win" /\ ~ entry_price r == 0
           /\ pnl r' = py_round (size_usd r / entry_price r - size_usd r) 4)
          \/ (outcome r' = Some "loss"
              /\ pnl r' = py_round (- size_usd r) 4))).
Proof.
  unfold resolve_one. intro H.
  destruct (outcome r) as [o|] eqn:O.
  { injection H as <- <-. repeat split; auto; congruence. }
  destruct (answer _) as [| [m|]];
    try (injection H as <- <-; repeat split; auto; congruence).
  destruct (negb _);
    try (injection H as <- <-; repeat split; auto; congruence).
  destruct (winner_of _) as [win|];
    try (injection H as <- <-; repeat split; auto; congruence).
  destruct (String.eqb (direction r) win).
  - cbn [set_outcome size_usd entry_price] in H.
    destruct (qdiv (size_usd r) (entry_price r)) as [shares|] eqn:D.
    + apply qdiv_inv in D as (N & ->).
      apply pair_equal_spec in H as [<- <-].
      do 4 (split; [reflexivity |]).
      split; [intro X; congruence |].
      intros _. split; [reflexivity |]. left.
      split; [reflexivity |]. split; [exact N | reflexivity].
    + apply pair_equal_spec in H as [<- <-].
      do 4 (split; [reflexivity |]).
      split; intro X; congruence.
  - apply pair_equal_spec in H as [<- <-].
    do 4 (split; [reflexivity |]).
    split; [intro X; congruence |].
    intros _. split; [reflexivity |]. right. split; reflexivity.
Qed.

Lemma resolve_all_spec answer records :
  forall markets rs resolved markets',
    resolve_all answer records markets = (rs, resolved, markets') ->
    map trade_id rs = map trade_id records
    /\ map size_usd rs = map size_usd records
    /\ Forall (fun r' =>
                 exists r, In r records
                   /\ outcome r = None
                   /\ trade_id r' = trade_id r
                   /\ ((outcome r' = Some "win" /\ ~ entry_price r == 0
                        /\ pnl r'
                           = py_round (size_usd r / entry_price r
                                       - size_usd r) 4)
                       \/ (outcome r' = Some "loss"
                           /\ pnl r' = py_round (- size_usd r) 4)))
         resolved
    /\ Forall (fun r => outcome r <> None -> In r rs) records
    /\ (length resolved <= length (List.filter
                                     (fun r => negb (bool_decide
                                                       (outcome r <> None)))
                                     records))%nat.
Proof.
  induction records as [| r rest IH]; intros markets rs resolved markets' H;
    simpl in H.
  - injection H as <- <- _. repeat split; constructor.
  - destruct (resolve_one answer r) as [r' w] eqn:R.
    destruct (resolve_all answer rest _) as [[rs1 res1] m1] eqn:A.
    injection H as <- <- _.
    apply resolve_one_spec in R as (T & S & _ & _ & Keep & Won).
    apply IH in A as (T1 & S1 & F1 & K1 & L1).
    split; [simpl; congruence |]. split; [simpl; congruence |].
    assert (F1' : Forall (fun r' =>
                 exists r0, In r0 (r :: rest)
                   /\ outcome r0 = None
                   /\ trade_id r' = trade_id r0
                   /\ ((outcome r' = Some "win" /\ ~ entry_price r0 == 0
                        /\ pnl r'
                           = py_round (size_usd r0 / entry_price r0
                                       - size_usd r0) 4)
                       \/ (outcome r' = Some "loss"
                           /\ pnl r' = py_round (- size_usd r0) 4)))
              res1).
    { eapply Forall_impl; [exact F1 |]. cbv beta.
      intros x (r0 & I & Rest). exists r0. split; [right; exact I |].
      exact Rest. }
    split; [| split].
    + destruct w as [win|]; [| exact F1'].
      constructor; [| exact F1'].
      destruct Won as (O & W); [discriminate |].
      exists r. split; [left; reflexivity |]. split; [exact O |].
      split; [exact T | exact W].
    + constructor.
      * intro N. destruct (Keep N) as [-> _]. left. reflexivity.
      * eapply Forall_impl; [exact K1 |]. cbv beta.
        intros x I N. right. apply I, N.
    + simpl. destruct w as [win|].
      * destruct Won as (O & _); [discriminate |].
        rewrite bool_decide_eq_false_2 by (rewrite O; auto).
        simpl. lia.
      * destruct (negb _); simpl; lia.
Qed.

Lemma filter_partition_perm {A} (f : A -> bool) (l : list A) :
  Permutation (List.filter (fun x => negb (f x)) l ++ List.filter f l) l.
Proof.
  induction l as [| x l IH]; simpl; [constructor |].
  destruct (f x); simpl.
  - rewrite <- Permutation_middle. constructor. exact IH.
  - constructor. exact IH.
Qed.

Lemma fold_plus_perm (l l' : list Q) :
  Permutation l l' -> forall a, fold_left Qplus l a == fold_left Qplus l' a.
Proof.
  induction 1 as [| x l l' _ IH | x y l | l l' l'' _ IH1 _ IH2]; intro a;
    simpl.
  - reflexivity.
  - apply IH.
  - rewrite (sum_from l (a + y + x)), (sum_from l (a + x + y)). ring.
  - rewrite IH1. apply IH2.
Qed.

End Resolutions.

(** X22: every record [check_resolutions] returns was pending before the
    call and is now decided: a win with the entry price not 0 and a pnl
    of round(size / entry - size, 4), which is not negative for a size
    of at least 0 and an entry price in (0, 1]; or a loss with a pnl of
    round(-size, 4), which is not positive for such a size.  A record
    that was already decided is never returned again. *)
Theorem resolution_outcomes (v : Client.Venue)
  (answer : string -> Resolution.MarketAnswer) (now : Q)
  (l l' : Resolution.Ledger) (resolved : list Client.TradeRecord) :
  Resolution.check_resolutions v answer now l = (Py.Ok resolved, l') ->
  Forall (fun r' =>
            exists r,
              In r (Client._trade_records (Resolution.client l))
              /\ Client.outcome r = None
              /\ Client.trade_id r' = Client.trade_id r
              /\ ((Client.outcome r' = Some "win"
                   /\ ~ Client.entry_price r == 0
                   /\ Client.pnl r'
                      = py_round (Client.size_usd r / Client.entry_price r
                                  - Client.size_usd r) 4
                   /\ (0 <= Client.size_usd r -> 0 < Client.entry_price r ->
                       Client.entry_price r <= 1 -> 0 <= Client.pnl r'))
                  \/ (Client.outcome r' = Some "loss"
                      /\ Client.pnl r' = py_round (- Client.size_usd r) 4
                      /\ (0 <= Client.size_usd r -> Client.pnl r' <= 0))))
    resolved.
Proof.
  unfold Resolution.check_resolutions. intro H.
  destruct (Client._ensure_clob v (Resolution.client l)) as [c | e] eqn:E;
    [| discriminate].
  apply ensure_clob_frame in E as [T _].
  destruct (Resolution.resolve_all answer _ _) as [[rs res] ms] eqn:A.
  apply resolve_all_spec in A as (_ & _ & F & _).
  destruct (Resolution._prune_resolved now rs _) as [act arch].
  injection H as <- _.
  rewrite T in F.
  eapply Forall_impl; [exact F |]. cbv beta.
  intros r' (r & I & O & Id & W). exists r.
  split; [exact I |]. split; [exact O |]. split; [exact Id |].
  destruct W as [(W & N & P) | (W & P)]; [left | right].
  - split; [exact W |]. split; [exact N |]. split; [exact P |].
    intros S E0 E1. rewrite P. apply py_round_nonneg.
    assert (X : Client.size_usd r
                <= Client.size_usd r / Client.entry_price r).
    { apply Qle_shift_div_l; [exact E0 |].
      assert (Y : 0 <= Client.size_usd r * (1 - Client.entry_price r))
        by (apply Qmult_le_0_compat; lra).
      lra. }
    lra.
  - split; [exact W |]. split; [exact P |].
    intro S. rewrite P. apply py_round_nonpos. lra.
Qed.

Lemma resolution_outcomes_witness :
  let trade := Client.mkTrade "t1" 100 "0xA" "up" (70 # 100) (1 # 2) 5 50000
                 None 0 (Some "o1") [] in
  let l := Resolution.mkLedger
             (Client.mkClient Client.default_config true ∅ [trade]) [] in
  let answer := fun _ : string =>
    Resolution.MarketReturned
      (Some (Resolution.mkClobMarket true
               [Resolution.mkToken false "Down";
                Resolution.mkToken true "Up"])) in
  match fst (Resolution.check_resolutions Samples.phantom_venue answer 200 l)
  with
  | Py.Ok [r'] => Client.trade_id r' = "t1"
  | _ => False
  end.
Proof.
  intros trade l answer.
  destruct (Resolution.check_resolutions Samples.phantom_venue answer 200 l)
    as [r l'] eqn:E.
  cbn [fst].
  destruct r as [[| r' [| r2 rest]] | e];
    try (revert E; vm_compute; discriminate).
  pose proof (resolution_outcomes _ _ _ _ _ _ E) as F.
  inversion F as [| ? ? (r0 & I & _ & Id & _) _]; subst.
  destruct I as [<- | []]. exact Id.
Defined.

(** X23: [check_resolutions] loses no trade: the trade ids and the total
    wagered over the kept and the archived records are the same before
    and after; a record is archived only when it is decided and older
    than an hour, and after a call that returns every record still kept
    is pending or at most an hour old. *)
Theorem resolution_conserves_trades (v : Client.Venue)
  (answer : string -> Resolution.MarketAnswer) (now : Q)
  (l l' : Resolution.Ledger) (r : Py.Result (list Client.TradeRecord)) :
  Resolution.check_resolutions v answer now l = (r, l') ->
  Permutation (map Client.trade_id (Resolution.get_trade_records l'))
    (map Client.trade_id (Resolution.get_trade_records l))
  /\ Resolution.total_wagered l' == Resolution.total_wagered l
  /\ (exists moved,
        Resolution._archived_trades l'
        = Resolution._archived_trades l ++ moved
        /\ Forall (fun t => Client.outcome t <> None
                            /\ Client.timestamp t < now - 3600) moved)
  /\ (forall resolved, r = Py.Ok resolved ->
      Forall (fun t => Client.outcome t = None
                       \/ now - 3600 <= Client.timestamp t)
        (Client._trade_records (Resolution.client l'))).
Proof.
  unfold Resolution.check_resolutions. intro H.
  destruct (Client._ensure_clob v (Resolution.client l)) as [c | e] eqn:E.
  2:{ injection H as <- <-. split; [reflexivity |].
      split; [reflexivity |]. split; [| discriminate].
      exists []. rewrite app_nil_r. split; [reflexivity | constructor]. }
  apply ensure_clob_frame in E as [T _].
  destruct (Resolution.resolve_all answer _ _) as [[rs res] ms] eqn:A.
  apply resolve_all_spec in A as (Ids & Sizes & _).
  unfold Resolution._prune_resolved in H.
  injection H as <- <-.
  unfold Resolution.get_trade_records, Resolution.total_wagered.
  cbn [Resolution.client Resolution._archived_trades Client._trade_records].
  rewrite T in Ids, Sizes.
  set (old := Resolution.prunable (now - 3600)).
  pose proof (filter_partition_perm old rs) as P.
  split; [| split; [| split]].
  - rewrite <- app_assoc, !map_app, <- Ids.
    apply Permutation_app_head. rewrite <- map_app.
    apply Permutation_map.
    rewrite Permutation_app_comm. exact P.
  - apply fold_plus_perm.
    rewrite !map_app, <- Sizes.
    rewrite (Permutation_app_comm (map Client.size_usd
                                     (Resolution._archived_trades l))),
      app_assoc.
    apply Permutation_app_tail. rewrite <- map_app.
    apply Permutation_map. exact P.
  - eexists. split; [reflexivity |].
    apply List.Forall_forall. intros t I.
    apply List.filter_In in I as [_ O]. unfold old, Resolution.prunable in O.
    destruct (Client.outcome t); [| discriminate].
    split; [discriminate | apply Qltb_lt; exact O].
  - intros resolved _.
    apply List.Forall_forall. intros t I.
    apply List.filter_In in I as [_ O]. unfold old, Resolution.prunable in O.
    destruct (Client.outcome t); [| left; reflexivity].
    right. apply negb_true_iff, Qltb_ge in O. exact O.
Qed.

Lemma resolution_conserves_trades_witness :
  let done := Client.mkTrade "t0" 100 "0xA" "up" (70 # 100) (1 # 2) 5 50000
                (Some "loss") (-5) (Some "o0") [] in
  let trade := Client.mkTrade "t1" 9000 "0xB" "up" (70 # 100) (1 # 2) 5
                 50000 None 0 (Some "o1") [] in
  let l := Resolution.mkLedger
             (Client.mkClient Client.default_config true ∅ [done; trade])
             [] in
  let out := Resolution.check_resolutions Samples.phantom_venue
               (fun _ => Resolution.MarketRaised) 10000 l in
  Resolution.total_wagered (snd out) == 10.
Proof.
  intros done trade l out.
  destruct (resolution_conserves_trades Samples.phantom_venue
              (fun _ => Resolution.MarketRaised) 10000 l (snd out) (fst out))
    as (_ & W & _).
  - symmetry. apply surjective_pairing.
  - rewrite W. vm_compute. reflexivity.
Defined.

(** ** Exchange client: the window filter *)

Section WindowFilter.
Import Window.

Context {Market : Type}.
Variable ts : Market -> option Z.

Lemma nonempty_true {A} (l : list A) : nonempty l = true <-> l <> [].
Proof. destruct l; simpl; split; congruence. Qed.

Lemma nonempty_false {A} (l : list A) : nonempty l = false <-> l = [].
Proof. destruct l; simpl; split; congruence. Qed.

Lemma next_window_members next_boundary markets :
  Forall (fun m => ts m = None \/ ts m = Some next_boundary)
    (List.filter (in_next_window ts next_boundary) markets).
Proof.
  apply List.Forall_forall. intros m I.
  apply List.filter_In in I as [_ I]. unfold in_next_window in I.
  destruct (ts m) as [t|]; [| left; reflexivity].
  right. apply Z.eqb_eq in I. congruence.
Qed.

Lemma current_window_members current_boundary next_boundary markets :
  Forall (fun m => ts m = Some current_boundary)
    (List.filter (in_current_window ts current_boundary next_boundary)
       markets).
Proof.
  apply List.Forall_forall. intros m I.
  apply List.filter_In in I as [_ I]. unfold in_current_window in I.
  destruct (ts m) as [t|]; [| discriminate].
  apply andb_true_iff in I as [_ I]. apply Z.eqb_eq in I. congruence.
Qed.

Lemma filter_nonempty_exists {A} (f : A -> bool) (l : list A) :
  Exists (fun x => f x = true) l -> List.filter f l <> [].
Proof.
  induction 1 as [x l H | x l _ IH]; simpl.
  - rewrite H. discriminate.
  - destruct (f x); [discriminate | exact IH].
Qed.

End WindowFilter.

(** X24: [filter_current_window] raises exactly for a zero interval.
    Otherwise it returns markets of the input only, and some market
    whenever the input has one; what it returns is either the whole
    input, or markets that carry no window timestamp or the timestamp of
    the next boundary, or markets that carry the timestamp of the
    current boundary; and within 90 seconds of the next boundary, if the
    input has a market without timestamp or of the next boundary, only
    such markets are returned. *)
Theorem window_filter_spec {Market : Type} (ts : Market -> option Z)
  (now : Z) (markets : list Market) (interval_minutes : Z) :
  let interval_secs := (interval_minutes * 60)%Z in
  let current_boundary := (now / interval_secs * interval_secs)%Z in
  let next_boundary := (current_boundary + interval_secs)%Z in
  let next m := ts m = None \/ ts m = Some next_boundary in
  (Window.filter_current_window ts now markets interval_minutes = None
   <-> interval_minutes = 0%Z)
  /\ forall res,
      Window.filter_current_window ts now markets interval_minutes
      = Some res ->
      (forall m, In m res -> In m markets)
      /\ (markets <> [] -> res <> [])
      /\ (res = markets
          \/ Forall next res
          \/ Forall (fun m => ts m = Some current_boundary) res)
      /\ ((interval_secs - 90 <= now - current_boundary)%Z ->
          Exists next markets -> Forall next res).
Proof.
  cbv zeta. unfold Window.filter_current_window.
  destruct (interval_minutes * 60 =? 0)%Z eqn:Z0.
  { apply Z.eqb_eq in Z0. split; [split; [lia | reflexivity] |].
    discriminate. }
  apply Z.eqb_neq in Z0.
  split; [split; [| lia] |].
  { repeat destruct (_ && _); repeat destruct (Window.nonempty _);
      discriminate. }
  set (isecs := (interval_minutes * 60)%Z) in *.
  set (cur := (now / isecs * isecs)%Z).
  set (nxt := (cur + isecs)%Z).
  pose proof (next_window_members ts nxt markets) as NW.
  pose proof (current_window_members ts cur nxt markets) as CW.
  set (nw := List.filter (Window.in_next_window ts nxt) markets) in *.
  set (cw := List.filter (Window.in_current_window ts cur nxt) markets) in *.
  assert (SubN : forall m, In m nw -> In m markets)
    by (intros m I; apply List.filter_In in I as [I _]; exact I).
  assert (SubC : forall m, In m cw -> In m markets)
    by (intros m I; apply List.filter_In in I as [I _]; exact I).
  assert (NE : Exists (fun m => ts m = None \/ ts m = Some nxt) markets ->
               Window.nonempty nw = true).
  { intro E. apply nonempty_true. apply filter_nonempty_exists.
    eapply Exists_impl; [exact E |]. cbv beta.
    intros m [N | N]; unfold Window.in_next_window; rewrite N;
      [reflexivity | apply Z.eqb_refl]. }
  intros res H.
  destruct (Window.nonempty nw) eqn:N1; cbn [andb] in H.
  - apply nonempty_true in N1.
    destruct (isecs - 90 <=? now - cur)%Z eqn:Cl; cbn [negb andb] in H.
    + injection H as <-. repeat split; auto.
    + apply Z.leb_gt in Cl.
      destruct (Window.nonempty cw) eqn:N2; cbn [andb] in H;
        injection H as <-.
      * apply nonempty_true in N2. repeat split; auto. intro L. lia.
      * repeat split; auto.
  - destruct (Window.nonempty cw) eqn:N2; cbn [andb] in H.
    + apply nonempty_true in N2.
      assert (R : res = cw)
        by (destruct (negb _); injection H as <-; reflexivity).
      subst res. repeat split; auto.
      intros _ E. apply NE in E. discriminate.
    + injection H as <-. repeat split; auto.
      intros _ E. apply NE in E. discriminate.
Qed.

(** ** The entry window: anchor against traded window *)

Section EntryWindow.




End EntryWindow.


